(** * shadcn-variables: alias resolution and OKLCH conversion

    A shallow embedding of [src/code.ts], the plugin that reads the colour
    variables of a design document, follows their aliases across
    collections, converts the terminal colours to OKLCH and renders a
    stylesheet.

    Layout of the development:
    - [JsString], [JsNumber]: the host language (strings of code units,
      IEEE 754 binary64 numbers, [parseInt], [toFixed], [Number],
      number-to-string);
    - [MathLib]: the implementation-approximated functions of [Math];
    - [Color]: [hexToOklch] and the functions it calls;
    - [Figma]: the host store, its queries and the trace of effects;
    - [Plugin]: [resolveVariableValue], [findModeCollection],
      [processSemanticVariables], [generateShadcnCSS], [main];
    - the properties, one section per component. *)

From Stdlib Require Import ZArith Lia Bool.
From Stdlib Require Import Ascii String.
From Stdlib Require Import Floats.SpecFloat.
From Stdlib Require Number Decimal.
From stdpp Require Import gmap strings list.

Local Open Scope Z_scope.

(** ** Strings

    A JavaScript string is a sequence of UTF-16 code units.  The embedding
    uses [string]: every character stands for one code unit below 256.
    Code units from 256 on are outside the model. *)
Module JsString.

Definition code (c : ascii) : Z := Z.of_nat (nat_of_ascii c).

Definition charOf (z : Z) : ascii := ascii_of_nat (Z.to_nat z).

Definition str1 (c : ascii) : string := String c EmptyString.

(** The double quote and the line feed, as one-character strings. *)
Definition quote : string := str1 (charOf 34).
Definition nl : string := str1 (charOf 10).

(** [s.length] *)
Definition length (s : string) : nat := String.length s.

(** [s.split('')]: the code units of [s]. *)
Fixpoint split_chars (s : string) : list ascii :=
  match s with
  | EmptyString => []
  | String c r => c :: split_chars r
  end.

(** [parts.join('')] *)
Fixpoint join (parts : list string) : string :=
  match parts with
  | [] => EmptyString
  | p :: r => p +:+ join r
  end.

(** [parts.join(sep)] *)
Fixpoint join_with (sep : string) (parts : list string) : string :=
  match parts with
  | [] => EmptyString
  | [p] => p
  | p :: r => p +:+ sep +:+ join_with sep r
  end.

(** [s.slice(a, b)] for non-negative [a] and [b]. *)
Definition slice (a b : nat) (s : string) : string :=
  String.substring a (b - a)%nat s.

(** [s.substring(a)] for non-negative [a]. *)
Fixpoint substring_from (a : nat) (s : string) : string :=
  match a, s with
  | O, _ => s
  | S _, EmptyString => EmptyString
  | S a', String _ r => substring_from a' r
  end.

(** [s.startsWith(p)] *)
Fixpoint startsWith (p s : string) : bool :=
  match p, s with
  | EmptyString, _ => true
  | String _ _, EmptyString => false
  | String a p', String b s' => Ascii.eqb a b && startsWith p' s'
  end.

(** [s.includes(p)] *)
Fixpoint includes (p s : string) : bool :=
  startsWith p s ||
  match s with
  | EmptyString => false
  | String _ r => includes p r
  end.

(** [s.replace(c, '')] with a one-character string pattern: only the
    first occurrence is removed. *)
Fixpoint remove_first (c : ascii) (s : string) : string :=
  match s with
  | EmptyString => EmptyString
  | String a r => if Ascii.eqb a c then r else String a (remove_first c r)
  end.

(** [s.replace(/c/g, d)] for a one-character pattern: every occurrence
    is replaced. *)
Fixpoint replace_all (c d : ascii) (s : string) : string :=
  match s with
  | EmptyString => EmptyString
  | String a r => String (if Ascii.eqb a c then d else a) (replace_all c d r)
  end.

(** Lower-case mapping of one code unit below 256: A-Z, and the
    Latin-1 capitals U+00C0..U+00DE except the multiplication sign. *)
Definition lower_char (c : ascii) : ascii :=
  let n := code c in
  if ((65 <=? n) && (n <=? 90)) || ((192 <=? n) && (n <=? 222) && negb (n =? 215))
  then charOf (n + 32) else c.

(** [s.toLowerCase()] *)
Fixpoint toLowerCase (s : string) : string :=
  match s with
  | EmptyString => EmptyString
  | String c r => String (lower_char c) (toLowerCase r)
  end.

(** The regular-expression class [[0-9A-Fa-f]]. *)
Definition is_hex_digit (c : ascii) : bool :=
  let n := code c in
  ((48 <=? n) && (n <=? 57)) || ((65 <=? n) && (n <=? 70)) || ((97 <=? n) && (n <=? 102)).

Fixpoint all_chars (p : ascii -> bool) (s : string) : bool :=
  match s with
  | EmptyString => true
  | String c r => p c && all_chars p r
  end.

(** [/^#[0-9A-Fa-f]{3,6}$/.test(s)].  Without the [m] flag, [$] matches
    at the end of the input only. *)
Definition test_hex_color (s : string) : bool :=
  match s with
  | String c r =>
      Ascii.eqb c "#" && all_chars is_hex_digit r
      && (3 <=? String.length r)%nat && (String.length r <=? 6)%nat
  | EmptyString => false
  end.

(** Decimal digits of a non-negative integer, most significant first. *)
Fixpoint digits_fuel (fuel : nat) (base : Z) (n : Z) (acc : string) : string :=
  match fuel with
  | O => acc
  | S f =>
      let d := n mod base in
      let c := if d <? 10 then charOf (48 + d) else charOf (87 + d) in
      let acc' := String c acc in
      if n / base =? 0 then acc' else digits_fuel f base (n / base) acc'
  end.

Definition digits (base : Z) (n : Z) : string :=
  digits_fuel (S (Z.to_nat (Z.log2 n))) base n EmptyString.

Definition decimal (n : Z) : string := digits 10 n.

Fixpoint repeat_char (c : ascii) (n : nat) : string :=
  match n with
  | O => EmptyString
  | S k => String c (repeat_char c k)
  end.

End JsString.

(** ** Numbers

    A JavaScript number is an IEEE 754 binary64 value.  The embedding uses
    the standard library's [spec_float] with [prec = 53] and [emax = 1024];
    sums, products, quotients and square roots are correctly rounded
    (round to nearest, ties to even). *)
Module JsNumber.
Import JsString.

Abbreviation number := spec_float.

Definition prec : Z := 53.
Definition emax : Z := 1024.

Definition NaN : number := S754_nan.
Definition Infinity : number := S754_infinity false.

Definition add : number -> number -> number := SFadd prec emax.
Definition sub : number -> number -> number := SFsub prec emax.
Definition mul : number -> number -> number := SFmul prec emax.
Definition div : number -> number -> number := SFdiv prec emax.
Definition ltb : number -> number -> bool := SFltb.
Definition leb : number -> number -> bool := SFleb.
Definition eqb : number -> number -> bool := SFeqb.

(** The number nearest to an integer. *)
Definition ofZ (z : Z) : number := binary_normalize prec emax z 0 false.

(** The number nearest to the fraction [n / d], for [0 <= n] and [0 < d]:
    the quotient is computed with at least 56 bits and a sticky bit. *)
Definition ofFraction (neg : bool) (n d : Z) : number :=
  if n =? 0 then S754_zero neg
  else
    let s := Z.max 0 (Z.log2 d + 57 - Z.log2 n) in
    let q := (n * 2 ^ s) / d in
    let r := (n * 2 ^ s) mod d in
    let m := 2 * q + (if r =? 0 then 0 else 1) in
    binary_normalize prec emax (if neg then - m else m) (- s - 1) false.

(** The number nearest to [s * 10^q], for [0 <= s]. *)
Definition ofDecimal (neg : bool) (s q : Z) : number :=
  if 0 <=? q then ofFraction neg (s * 10 ^ q) 1 else ofFraction neg s (10 ^ (- q)).

(** The magnitude of a finite number as a fraction. *)
Definition fraction (m : positive) (e : Z) : Z * Z :=
  if 0 <=? e then (Zpos m * 2 ^ e, 1) else (Zpos m, 2 ^ (- e)).

(** The exact value [n / d] of a number that is finite and not negative. *)
Definition exact (x : number) : option (Z * Z) :=
  match x with
  | S754_zero _ => Some (0, 1)
  | S754_finite false m e => Some (fraction m e)
  | _ => None
  end.

(** *** Number to string, radix 10 (Number::toString) *)

Fixpoint first_scale (fuel : nat) (n d j : Z) : Z :=
  match fuel with
  | O => j
  | S f => if d <=? n * 10 ^ j then j else first_scale f n d (j + 1)
  end.

(** The integer [p] with [10^(p-1) <= n/d < 10^p]. *)
Definition decade (n d : Z) : Z :=
  if d <=? n then Z.of_nat (String.length (decimal (n / d)))
  else 1 - first_scale 400 n d 1.

(** [floor ((n/d) / 10^q)] *)
Definition scaled_floor (n d q : Z) : Z :=
  if 0 <=? q then n / (d * 10 ^ q) else (n * 10 ^ (- q)) / d.

(** Compares [2 * (n/d)] with [(2 * lo + 1) * 10^q]. *)
Definition nearer (n d lo q : Z) : comparison :=
  if 0 <=? q then (2 * n ?= (2 * lo + 1) * 10 ^ q * d)
  else (2 * n * 10 ^ (- q) ?= (2 * lo + 1) * d).

(** The shortest digit string [s] (with [k] digits, [k] starting at the
    given value) and the exponent [n] such that [s * 10^(n-k)] reads back
    as the number [x = n0/d0]; among two candidates of the same length the
    one closer to [x], then the even one. *)
Fixpoint shortest (fuel : nat) (x : number) (n0 d0 p k : Z) : Z * Z :=
  let q := p - k in
  let lo := scaled_floor n0 d0 q in
  let hi := lo + 1 in
  let oklo := eqb (ofDecimal false lo q) x in
  let okhi := eqb (ofDecimal false hi q) x in
  let pick_hi := if hi =? 10 ^ k then (10 ^ (k - 1), p + 1) else (hi, p) in
  match fuel with
  | O => (lo, p)
  | S f =>
      match oklo, okhi with
      | true, true =>
          match nearer n0 d0 lo q with
          | Lt => (lo, p)
          | Gt => pick_hi
          | Eq => if Z.even lo then (lo, p) else pick_hi
          end
      | true, false => (lo, p)
      | false, true => pick_hi
      | false, false => shortest f x n0 d0 p (k + 1)
      end
  end.

Definition exponent_part (e : Z) : string :=
  "e" +:+ (if e <? 0 then "-" else "+") +:+ decimal (Z.abs e).

(** Steps 5 to 13 of Number::toString for a positive finite number. *)
Definition format_digits (s : string) (n : Z) : string :=
  let k := Z.of_nat (String.length s) in
  if (-5 <=? n) && (n <=? 21) then
    if k <=? n then s +:+ repeat_char "0" (Z.to_nat (n - k))
    else if 0 <? n then
      String.substring 0 (Z.to_nat n) s +:+ "." +:+ substring_from (Z.to_nat n) s
    else "0." +:+ repeat_char "0" (Z.to_nat (- n)) +:+ s
  else if k =? 1 then s +:+ exponent_part (n - 1)
  else String.substring 0 1 s +:+ "." +:+ substring_from 1 s +:+ exponent_part (n - 1).

Definition toString (x : number) : string :=
  match x with
  | S754_nan => "NaN"
  | S754_zero _ => "0"
  | S754_infinity s => (if s then "-" else EmptyString) +:+ "Infinity"
  | S754_finite s m e =>
      let '(n0, d0) := fraction m e in
      let '(digs, n) := shortest 17 (S754_finite false m e) n0 d0 (decade n0 d0) 1 in
      (if s then "-" else EmptyString) +:+ format_digits (decimal digs) n
  end.

(** *** [x.toFixed(f)] *)

Definition fixed_digits (f : nat) (n : Z) : string :=
  let m := decimal n in
  match f with
  | O => m
  | S _ =>
      let k := String.length m in
      let m' := if (k <=? f)%nat then repeat_char "0" (f + 1 - k) +:+ m else m in
      let k' := String.length m' in
      String.substring 0 (k' - f) m' +:+ "." +:+ substring_from (k' - f) m'
  end.

Definition toFixed (f : nat) (x : number) : string :=
  match x with
  | S754_zero _ => fixed_digits f 0
  | S754_finite s m e =>
      let '(n, d) := fraction m e in
      if 10 ^ 21 * d <=? n then toString x
      else
        (if s then "-" else EmptyString) +:+ fixed_digits f ((2 * n * 10 ^ Z.of_nat f + d) / (2 * d))
  | _ => toString x
  end.

(** *** Literals and operators of the source text

    A decimal literal denotes the nearest number; [(a + b * c)%num] reads
    as the JavaScript expression with the same text. *)

Definition of_literal (n : Number.number) : option spec_float :=
  match n with
  | Number.Decimal (Decimal.Decimal (Decimal.Pos i) f) =>
      Some (ofDecimal false (Z.of_uint (Decimal.app i f)) (- Z.of_nat (Decimal.nb_digits f)))
  | _ => None
  end.

Definition to_literal (x : spec_float) : option Number.number := None.

Declare Scope num_scope.
Delimit Scope num_scope with num.
Bind Scope num_scope with spec_float.
Number Notation spec_float of_literal to_literal : num_scope.
Infix "+" := add : num_scope.
Infix "-" := sub : num_scope.
Infix "*" := mul : num_scope.
Infix "/" := div : num_scope.
Infix "<?" := ltb : num_scope.
Infix "<=?" := leb : num_scope.

(** *** [parseInt(s, radix)] and [Number(s)] *)

(** White space among the code units below 256: TAB, LF, VT, FF, CR,
    SP and NBSP. *)
Definition is_space (c : ascii) : bool :=
  let n := code c in
  ((9 <=? n) && (n <=? 13)) || (n =? 32) || (n =? 160).

Fixpoint trim_start (s : string) : string :=
  match s with
  | String c r => if is_space c then trim_start r else s
  | EmptyString => s
  end.

Fixpoint trim_end (s : string) : string :=
  match s with
  | String c r =>
      match trim_end r with
      | EmptyString => if is_space c then EmptyString else str1 c
      | r' => String c r'
      end
  | EmptyString => s
  end.

Definition digit_value (radix : Z) (c : ascii) : option Z :=
  let n := code c in
  let v := if (48 <=? n) && (n <=? 57) then n - 48
           else if (97 <=? n) && (n <=? 122) then n - 87
           else if (65 <=? n) && (n <=? 90) then n - 55
           else radix in
  if v <? radix then Some v else None.

(** The longest prefix of digits of the radix: its value, the number of
    digits read and the rest of the string. *)
Fixpoint read_digits (radix : Z) (s : string) (acc : Z) (count : nat) : Z * nat * string :=
  match s with
  | String c r =>
      match digit_value radix c with
      | Some d => read_digits radix r (radix * acc + d) (S count)
      | None => (acc, count, s)
      end
  | EmptyString => (acc, count, s)
  end.

Definition read_sign (s : string) : bool * string :=
  match s with
  | String "-" r => (true, r)
  | String "+" r => (false, r)
  | _ => (false, s)
  end.

(** [parseInt(s, 16)] *)
Definition parseInt16 (s : string) : number :=
  let '(neg, s2) := read_sign (trim_start s) in
  let s3 := if startsWith "0x" s2 || startsWith "0X" s2 then substring_from 2 s2 else s2 in
  match read_digits 16 s3 0 O with
  | (_, O, _) => NaN
  | (v, _, _) => if v =? 0 then S754_zero neg else ofZ (if neg then - v else v)
  end.

Definition radix_literal (radix : Z) (s : string) : number :=
  match read_digits radix s 0 O with
  | (v, S _, EmptyString) => ofZ v
  | _ => NaN
  end.

Definition read_exponent (s : string) : option Z :=
  match s with
  | EmptyString => Some 0
  | String c r =>
      if Ascii.eqb c "e" || Ascii.eqb c "E" then
        let '(neg, r') := read_sign r in
        match read_digits 10 r' 0 O with
        | (v, S _, EmptyString) => Some (if neg then - v else v)
        | _ => None
        end
      else None
  end.

(** [Number(s)] for a string argument (StringToNumber). *)
Definition Number_ (str : string) : number :=
  let s := trim_end (trim_start str) in
  if String.eqb s EmptyString then S754_zero false
  else if startsWith "0x" s || startsWith "0X" s then radix_literal 16 (substring_from 2 s)
  else if startsWith "0o" s || startsWith "0O" s then radix_literal 8 (substring_from 2 s)
  else if startsWith "0b" s || startsWith "0B" s then radix_literal 2 (substring_from 2 s)
  else
    let '(neg, body) := read_sign s in
    if String.eqb body "Infinity" then S754_infinity neg
    else
      let '(ip, icount, rest) := read_digits 10 body 0 O in
      let '(fp, fcount, rest') :=
        match rest with
        | String "." r => read_digits 10 r 0 O
        | _ => (0, O, rest)
        end in
      if (icount + fcount =? 0)%nat then NaN
      else
        match read_exponent rest' with
        | Some e => ofDecimal neg (ip * 10 ^ Z.of_nat fcount + fp) (e - Z.of_nat fcount)
        | None => NaN
        end.

(** *** [Math.round] and [toString(16)] *)

(** [Math.round(x)]: the nearest integer, ties towards positive infinity;
    [-0] for [-0.5 <= x < 0]. *)
Definition Math_round (x : number) : number :=
  match x with
  | S754_finite s m e =>
      if 0 <=? e then x
      else
        let d := 2 ^ (- e) in
        let sm := if s then Zneg m else Zpos m in
        let i := (2 * sm + d) / (2 * d) in
        if i =? 0 then S754_zero s else ofZ i
  | _ => x
  end.

(** [x.toString(16)] for an integral [x], as [Math.round] returns it; the
    digits after the point of a fractional [x] are not modelled. *)
Definition toString16 (x : number) : string :=
  match x with
  | S754_finite s m e =>
      let '(n, d) := fraction m e in
      (if s then "-" else EmptyString) +:+ digits 16 (n / d)
  | _ => toString x
  end.

(** [Math.PI] *)
Definition Math_PI : number := 3.141592653589793%num.

End JsNumber.

(** ** The functions of [Math] that are implementation-approximated

    ECMAScript fixes the results of [Math.pow], [Math.cbrt], [Math.sqrt]
    and [Math.atan2] at special arguments only; elsewhere an engine returns
    an approximation of its choice.  The conversion is therefore stated
    over any such library. *)
Module Math.
Import JsNumber.

Record MathLib : Type := {
  pow : number -> number -> number;
  cbrt : number -> number;
  sqrt : number -> number;
  atan2 : number -> number -> number
}.

(** What ECMAScript requires at NaN. *)
Record nan_laws (M : MathLib) : Prop := {
  pow_nan : forall y, (forall s, y <> S754_zero s) -> pow M NaN y = NaN;
  cbrt_nan : cbrt M NaN = NaN;
  sqrt_nan : sqrt M NaN = NaN;
  atan2_nan_l : forall x, atan2 M NaN x = NaN;
  atan2_nan_r : forall y, atan2 M y NaN = NaN
}.

End Math.

(** ** Colorimetric converter *)
Module Color.
Import JsString JsNumber Math.

Record Oklab : Type := { lab_L : number; lab_a : number; lab_b : number }.
Record Oklch : Type := { lch_L : number; lch_C : number; lch_H : number }.

Section Converter.
Variable M : MathLib.

Definition gammaToLinear (value : number) : number :=
  if (value <=? 0.04045)%num
  then (value / 12.92)%num
  else pow M ((value + 0.055) / 1.055)%num 2.4%num.

Definition xyzToOklab (x y z : number) : Oklab :=
  let l := (0.8189330101 * x + 0.3618667424 * y - 0.1288597137 * z)%num in
  let m := (0.0329845436 * x + 0.9293118715 * y + 0.0361456387 * z)%num in
  let s := (0.0482003018 * x + 0.2643662691 * y + 0.6338517070 * z)%num in
  let lRoot := cbrt M l in
  let mRoot := cbrt M m in
  let sRoot := cbrt M s in
  let L := (0.2104542553 * lRoot + 0.7936177850 * mRoot - 0.0040720468 * sRoot)%num in
  let a := (1.9779984951 * lRoot - 2.4285922050 * mRoot + 0.4505937099 * sRoot)%num in
  let b := (0.0259040371 * lRoot + 0.7827717662 * mRoot - 0.8086757660 * sRoot)%num in
  {| lab_L := L; lab_a := a; lab_b := b |}.

Definition rgbToOklch (r g b : number) : Oklch :=
  let linearR := gammaToLinear r in
  let linearG := gammaToLinear g in
  let linearB := gammaToLinear b in
  let x := (0.4124564 * linearR + 0.3575761 * linearG + 0.1804375 * linearB)%num in
  let y := (0.2126729 * linearR + 0.7151522 * linearG + 0.0721750 * linearB)%num in
  let z := (0.0193339 * linearR + 0.1191920 * linearG + 0.9503041 * linearB)%num in
  let ok := xyzToOklab x y z in
  let okL := lab_L ok in
  let okA := lab_a ok in
  let okB := lab_b ok in
  let C := sqrt M (okA * okA + okB * okB)%num in
  let H := (atan2 M okB okA * (180 / Math_PI))%num in
  let H := if (H <? 0)%num then (H + 360)%num else H in
  {| lch_L := okL; lch_C := C; lch_H := H |}.

(** The text of [hex] once the first ['#'] is removed and a
    three-character string is doubled (lines 20 to 23). *)
Definition expandHex (hex : string) : string :=
  let hex := remove_first "#" hex in
  if (JsString.length hex =? 3)%nat
  then join (map (fun char => str1 char +:+ str1 char) (split_chars hex))
  else hex.

(** The three channels read from the expanded text (lines 25 to 27). *)
Definition channel (hex : string) (from to : nat) : number :=
  (parseInt16 (slice from to hex) / 255)%num.

(** Lines 31 to 39: rounding and the achromatic form. *)
Definition formatOklch (oklch : Oklch) : string :=
  let L := Number_ (toFixed 3 (lch_L oklch)) in
  let C := Number_ (toFixed 3 (lch_C oklch)) in
  let H := Number_ (toFixed 1 (lch_H oklch)) in
  if (C <? 0.004)%num
  then "oklch(" +:+ toString L +:+ " 0 0)"
  else "oklch(" +:+ toString L +:+ " " +:+ toString C +:+ " " +:+ toString H +:+ ")".

Definition hexToOklch (hex : string) : string :=
  let hex := expandHex hex in
  let r := channel hex 0 2 in
  let g := channel hex 2 4 in
  let b := channel hex 4 6 in
  let oklch := rgbToOklch r g b in
  formatOklch oklch.

End Converter.

Definition toHex (n : number) : string :=
  let hex := toString16 (Math_round (n * 255)%num) in
  if (JsString.length hex =? 1)%nat then "0" +:+ hex else hex.

Definition figmaRgbToHex (r g b : number) : string :=
  "#" +:+ toHex r +:+ toHex g +:+ toHex b.

End Color.

(** ** A reference [Math] library

    One library that meets [Math.nan_laws], used to evaluate the converter
    on concrete colours.  It follows ECMAScript at the special arguments
    and approximates the functions elsewhere to within a few units in the
    last place: cube roots by Newton's iteration, powers through the
    logarithm and the exponential series, arc tangents by argument halving
    and the Gregory series. *)
Module RefMath.
Import JsNumber Math.

Definition ldexp (x : number) (k : Z) : number := SFldexp prec emax x k.

(** The exponent [E] of a finite number in [[2^(E-1), 2^E)]. *)
Definition exponent (x : number) : Z :=
  match x with
  | S754_finite _ m e => Zpos (digits2_pos m) + e
  | _ => 0
  end.

Definition is_negative (x : number) : bool :=
  match x with
  | S754_zero s | S754_infinity s | S754_finite s _ _ => s
  | S754_nan => false
  end.

Definition is_integer (x : number) : bool :=
  match x with
  | S754_zero _ => true
  | S754_finite _ m e => (0 <=? e) || (Zpos m mod 2 ^ (- e) =? 0)
  | _ => false
  end.

Definition is_odd_integer (x : number) : bool :=
  match x with
  | S754_finite _ m e =>
      if 0 <=? e then (e =? 0) && Z.odd (Zpos m)
      else (Zpos m mod 2 ^ (- e) =? 0) && Z.odd (Zpos m / 2 ^ (- e))
  | _ => false
  end.

Definition cbrt_step (x y : number) : number := ((2 * y + x / (y * y)) / 3)%num.

Definition ref_cbrt (x : number) : number :=
  match x with
  | S754_finite s m e =>
      let a := S754_finite false m e in
      let y0 := ldexp 1%num (exponent a / 3 + 1) in
      let y := Nat.iter 12 (cbrt_step a) y0 in
      if s then SFopp y else y
  | _ => x
  end.

Definition LN2 : number := 0.6931471805599453%num.
Definition SQRT2 : number := 1.4142135623730951%num.

(** [sum_{i < n} t^i / (2 i + 1)], by Horner's rule. *)
Fixpoint odd_series (n : nat) (i : Z) (t : number) : number :=
  match n with
  | O => 0%num
  | S n' => (1 / ofZ (2 * i + 1) + t * odd_series n' (i + 1) t)%num
  end.

(** Natural logarithm of a positive finite number. *)
Definition ref_ln (x : number) : number :=
  let k0 := exponent x in
  let f0 := ldexp x (- k0) in
  let '(f, k) := if (f0 * SQRT2 <? 1)%num then ((f0 * 2)%num, k0 - 1) else (f0, k0) in
  let z := ((f - 1) / (f + 1))%num in
  (ofZ k * LN2 + 2 * z * odd_series 14 0 (z * z))%num.

(** [sum_{j < n} r^j * i! / (i + j)!], by Horner's rule. *)
Fixpoint exp_series (n : nat) (i : Z) (r : number) : number :=
  match n with
  | O => 1%num
  | S n' => (1 + r / ofZ i * exp_series n' (i + 1) r)%num
  end.

Definition floor_half (t : number) : Z :=
  match (t / LN2 + 0.5)%num with
  | S754_finite s m e =>
      let '(n, d) := fraction m e in
      if s then - ((n + d - 1) / d) else n / d
  | _ => 0
  end.

(** Exponential of a finite number. *)
Definition ref_exp (t : number) : number :=
  let k := floor_half t in
  let r := (t - ofZ k * LN2)%num in
  ldexp (exp_series 22 1 r) k.

Definition ref_pow (x y : number) : number :=
  match y, x with
  | S754_nan, _ => NaN
  | S754_zero _, _ => 1%num
  | _, S754_nan => NaN
  | S754_infinity sy, _ =>
      let a := SFabs x in
      if eqb a 1%num then NaN
      else if xorb (1 <? a)%num sy then Infinity else S754_zero false
  | _, S754_infinity sx =>
      let neg := sx && is_odd_integer y in
      if is_negative y then S754_zero neg else S754_infinity neg
  | _, S754_zero sx =>
      let neg := sx && is_odd_integer y in
      if is_negative y then S754_infinity neg else S754_zero neg
  | _, S754_finite sx m e =>
      let r := ref_exp (y * ref_ln (S754_finite false m e))%num in
      if sx then
        if is_integer y then (if is_odd_integer y then SFopp r else r) else NaN
      else r
  end.

Definition HALF_PI : number := (Math_PI / 2)%num.

Definition halve (t : number) : number :=
  (t / (1 + SFsqrt prec emax (1 + t * t)))%num.

(** [sum_{i < n} (-t)^i / (2 i + 1)], by Horner's rule. *)
Fixpoint gregory (n : nat) (i : Z) (t : number) : number :=
  match n with
  | O => 0%num
  | S n' => (1 / ofZ (2 * i + 1) - t * gregory n' (i + 1) t)%num
  end.

(** Arc tangent of a number in [[0, 1]]. *)
Definition atan_unit (t : number) : number :=
  let u := halve (halve (halve t)) in
  (8 * (u * gregory 12 0 (u * u)))%num.

(** Arc tangent of a non-negative number or NaN. *)
Definition atan_pos (t : number) : number :=
  match t with
  | S754_nan => NaN
  | S754_infinity _ => HALF_PI
  | S754_zero _ => t
  | _ => if (t <=? 1)%num then atan_unit t else (HALF_PI - atan_unit (1 / t))%num
  end.

Definition ref_atan2 (y x : number) : number :=
  match y, x with
  | S754_nan, _ | _, S754_nan => NaN
  | _, _ =>
      let a :=
        match y, x with
        | S754_infinity _, S754_infinity sx =>
            if sx then (3 * Math_PI / 4)%num else (Math_PI / 4)%num
        | S754_zero _, _ =>
            if is_negative x then Math_PI else S754_zero false
        | _, S754_zero _ => HALF_PI
        | _, _ =>
            let t := atan_pos (SFabs y / SFabs x)%num in
            if is_negative x then (Math_PI - t)%num else t
        end in
      if is_negative y then SFopp a else a
  end.

Definition lib : MathLib :=
  {| pow := ref_pow; cbrt := ref_cbrt; sqrt := SFsqrt prec emax; atan2 := ref_atan2 |}.

End RefMath.

(** ** The host store

    The plugin reads the document through four asynchronous queries and
    answers the interface through [postMessage].  The document is
    read-only; a query either answers from the document or rejects; a
    rejection carries any value, as a [throw] does.  Calls to [console]
    leave no trace in the interface and are not modelled. *)
Module Figma.
Import JsNumber.

(** [VariableValue]: what [valuesByMode] holds for one mode. *)
Inductive VariableValue : Type :=
| VBoolean (b : bool)
| VNumber (x : number)
| VString (s : string)
| VRGB (r g b : number)        (* RGB or RGBA; the alpha channel is never read *)
| VAlias (id : string).        (* { type: 'VARIABLE_ALIAS', id } *)

Module Mode.
Record t : Type := { modeId : string; name : string }.
End Mode.

Module Collection.
Record t : Type := {
  id : string;
  name : string;
  modes : list Mode.t;
  remote : bool
}.
End Collection.

Module Var.
Record t : Type := {
  id : string;
  name : string;
  variableCollectionId : string;
  resolvedType : string;
  valuesByMode : gmap string VariableValue;
  remote : bool
}.
End Var.

(** An [Error]: what [new Error(text)] builds, and any object whose
    [message] is a string. *)
Record JsError : Type := { message : string }.

(** What a [throw] or a rejected promise carries: an object with a string
    [message]; a value without that property (a string, a number, an
    object that lacks it), of which [.message] is [undefined]; [null]; or
    [undefined].  Objects whose [message] is no string are left out. *)
Inductive Thrown : Type :=
| ThrownError (error : JsError)
| ThrownOther
| ThrownNull
| ThrownUndefined.

Coercion ThrownError : JsError >-> Thrown.

(** The [TypeError] of the engine for [value.message] when [value] is
    [null] or [undefined].  Its wording is the engine's; the plugin never
    reads it. *)
Definition typeError (value : Thrown) : JsError :=
  {| message :=
       "cannot read property 'message' of "
       +:+ match value with ThrownNull => "null" | _ => "undefined" end |}.

Inductive Query : Type :=
| getLocalVariableCollectionsAsync
| getLocalVariablesAsync (resolvedType : string)
| getVariableByIdAsync (id : string)
| getVariableCollectionByIdAsync (id : string).

(** The document and the queries that reject. *)
Record Host : Type := {
  collections : list Collection.t;
  variables : list Var.t;
  rejects : Query -> option Thrown
}.

(** The two messages of the interface. *)
Inductive Message : Type :=
| ExportComplete (css : string) (variableCount : nat) (collectionName : string)
| ErrorMessage (message : string).

Inductive Event : Type :=
| Asked (q : Query)
| Posted (m : Message)
| ClosePlugin.

Inductive Outcome (A : Type) : Type :=
| Return (a : A)
| Throw (e : Thrown)
| OutOfFuel.
Arguments Return {A} a.
Arguments Throw {A} e.
Arguments OutOfFuel {A}.

(** An asynchronous computation: it reads the host, leaves a trace of
    events in program order and returns, throws, or runs out of the fuel
    that bounds the recursion of the model. *)
Definition M (A : Type) : Type := Host -> list Event * Outcome A.

Definition ret {A} (a : A) : M A := fun _ => ([], Return a).

Definition bind {A B} (m : M A) (k : A -> M B) : M B :=
  fun h =>
    match m h with
    | (ev, Return a) => let '(ev', o) := k a h in (ev ++ ev', o)
    | (ev, Throw e) => (ev, Throw e)
    | (ev, OutOfFuel) => (ev, OutOfFuel)
    end.

#[global] Instance M_ret : MRet M := @ret.
#[global] Instance M_bind : MBind M := fun A B k m => bind m k.

Definition throw {A} (e : Thrown) : M A := fun _ => ([], Throw e).

Definition diverge {A} : M A := fun _ => ([], OutOfFuel).

(** [try { body } catch (error) { handler }] *)
Definition try_catch {A} (body : M A) (handler : Thrown -> M A) : M A :=
  fun h =>
    match body h with
    | (ev, Throw e) => let '(ev', o) := handler e h in (ev ++ ev', o)
    | r => r
    end.

Definition await {A} (q : Query) (answer : Host -> A) : M A :=
  fun h =>
    ([Asked q],
     match rejects h q with
     | Some e => Throw e
     | None => Return (answer h)
     end).

Definition emit (e : Event) : M unit := fun _ => ([e], Return tt).

(** [figma.variables.getLocalVariableCollectionsAsync()] *)
Definition localVariableCollections : M (list Collection.t) :=
  await getLocalVariableCollectionsAsync
    (fun h => List.filter (fun c => negb (Collection.remote c)) (collections h)).

(** [figma.variables.getLocalVariablesAsync(type)] *)
Definition localVariables (type : string) : M (list Var.t) :=
  await (getLocalVariablesAsync type)
    (fun h => List.filter
                (fun v => negb (Var.remote v) && String.eqb (Var.resolvedType v) type)
                (variables h)).

(** [figma.variables.getVariableByIdAsync(id)] *)
Definition variableById (id : string) : M (option Var.t) :=
  await (getVariableByIdAsync id)
    (fun h => List.find (fun v => String.eqb (Var.id v) id) (variables h)).

(** [figma.variables.getVariableCollectionByIdAsync(id)] *)
Definition variableCollectionById (id : string) : M (option Collection.t) :=
  await (getVariableCollectionByIdAsync id)
    (fun h => List.find (fun c => String.eqb (Collection.id c) id) (collections h)).

(** [figma.ui.postMessage(m)] *)
Definition postMessage (m : Message) : M unit := emit (Posted m).

(** The run [r] preceded by the events [ev]. *)
Definition after {A} (ev : list Event) (r : list Event * Outcome A) : list Event * Outcome A :=
  (ev ++ fst r, snd r).

Definition events {A} (r : list Event * Outcome A) : list Event := fst r.
Definition outcome {A} (r : list Event * Outcome A) : Outcome A := snd r.

(** The messages posted in a trace, in order. *)
Definition posted (ev : list Event) : list Message :=
  omap (fun e => match e with Posted m => Some m | _ => None end) ev.

(** Whether an event reads a variable from the host store. *)
Definition reads_variable (e : Event) : bool :=
  match e with
  | Asked (getLocalVariablesAsync _) | Asked (getVariableByIdAsync _) => true
  | _ => false
  end.

End Figma.

(** ** The plugin *)
Module Plugin.
Import JsString JsNumber Math Color Figma.

Record ProcessedVariable : Type := {
  name : string;
  cleanName : string;     (* name with the base/ prefix stripped *)
  lightValue : string;    (* OKLCH value for light mode *)
  darkValue : string      (* OKLCH value for dark mode *)
}.

Record ExportResult : Type := {
  variables : list ProcessedVariable;
  collectionName : string
}.

(** [!value] is false. *)
Definition truthy (value : VariableValue) : bool :=
  match value with
  | VBoolean b => b
  | VNumber (S754_zero _) | VNumber S754_nan => false
  | VString EmptyString => false
  | _ => true
  end.

(** [!value] is false for a [string | null]. *)
Definition truthy_result (value : option string) : bool :=
  match value with
  | None | Some EmptyString => false
  | Some _ => true
  end.

(** [modes.find(m => m.name.toLowerCase() === wanted)] *)
Definition findModeNamed (wanted : string) (modes : list Mode.t) : option Mode.t :=
  List.find (fun m => String.eqb (toLowerCase (Mode.name m)) wanted) modes.

Section WithMath.
Variable math : MathLib.

(** Lines 146 to 167 of [resolveVariableValue]: the mode of the
    aliased variable's collection in which the alias is followed. *)
Definition selectTargetMode (variable : Var.t) (modeId : string)
    (aliasedCollection : Collection.t) : M string :=
  (* If the aliased collection has Light/Dark modes, use the appropriate one *)
  let lightMode := findModeNamed "light" (Collection.modes aliasedCollection) in
  let darkMode := findModeNamed "dark" (Collection.modes aliasedCollection) in
  match lightMode, darkMode with
  | Some lightMode, Some darkMode =>
      (* This collection has Light/Dark modes, use the same mode name *)
      currentModeCollection ← variableCollectionById (Var.variableCollectionId variable);
      let currentMode :=
        match currentModeCollection with
        | Some c => List.find (fun m => String.eqb (Mode.modeId m) modeId) (Collection.modes c)
        | None => None
        end in
      mret
        match currentMode with
        | Some currentMode =>
            if String.eqb (toLowerCase (Mode.name currentMode)) "light"
            then Mode.modeId lightMode
            else if String.eqb (toLowerCase (Mode.name currentMode)) "dark"
            then Mode.modeId darkMode
            else modeId
        | None => modeId
        end
  | _, _ =>
      match Collection.modes aliasedCollection with
      | [only] =>
          (* Single mode collection (like Theme collection), use that mode *)
          mret (Mode.modeId only)
      | _ => mret modeId
      end
  end.

(** The body of [resolveVariableValue].  [visited] is the set the call
    received; the set the call leaves behind is returned with the
    result.  The recursion of the source is bounded here by [fuel]. *)
Fixpoint resolveVariableValue_rec (fuel : nat) (variable : Var.t) (modeId : string)
    (visited : gset string) : M (option string * gset string) :=
  match fuel with
  | O => diverge
  | S fuel' =>
      (* Prevent infinite loops *)
      if decide (Var.id variable ∈ visited) then mret (None, visited)
      else
        let visited := {[Var.id variable]} ∪ visited in
        match Var.valuesByMode variable !! modeId with
        | None => mret (None, visited)
        | Some value =>
            if negb (truthy value) then mret (None, visited)
            else
              match value with
              | VRGB r g b =>
                  (* a direct color value (RGB object) *)
                  let hex := figmaRgbToHex r g b in
                  mret (Some (hexToOklch math hex), visited)
              | VString s =>
                  (* a string (hex value) *)
                  if test_hex_color s then mret (Some (hexToOklch math s), visited)
                  else mret (None, visited)
              | VAlias id =>
                  (* a variable alias, resolved across all collections *)
                  aliasedVariable ← variableById id;
                  match aliasedVariable with
                  | None => mret (None, visited)
                  | Some aliasedVariable =>
                      aliasedCollection ←
                        variableCollectionById (Var.variableCollectionId aliasedVariable);
                      match aliasedCollection with
                      | None => mret (None, visited)
                      | Some aliasedCollection =>
                          targetModeId ← selectTargetMode variable modeId aliasedCollection;
                          resolveVariableValue_rec fuel' aliasedVariable targetModeId visited
                      end
                  end
              | _ => mret (None, visited)
              end
        end
  end.

(** Fuel that no resolution exhausts: every call but the first adds
    the id of a variable of the document to [visited]. *)
Definition resolveFuel (h : Host) : nat := S (S (List.length (Figma.variables h))).

Definition resolveVariableValue (variable : Var.t) (modeId : string)
    (visited : gset string) : M (option string * gset string) :=
  fun h => resolveVariableValue_rec (resolveFuel h) variable modeId visited h.

Definition noModeCollection : JsError :=
  {| message := "No collection found with " +:+ quote +:+ "Mode" +:+ quote
                +:+ " in the name. Please create a collection containing "
                +:+ quote +:+ "Mode" +:+ quote +:+ " in its name." |}.

(** Find the collection that contains "mode" in its name (case
    insensitive). *)
Definition findModeCollection : M Collection.t :=
  collections ← localVariableCollections;
  let modeCollections :=
    List.filter (fun collection => includes "mode" (toLowerCase (Collection.name collection)))
      collections in
  match modeCollections with
  | [] => throw noModeCollection
  | first :: _ => mret first
  end.

Definition missingModes (modeCollection : Collection.t) : JsError :=
  {| message := "Collection " +:+ quote +:+ Collection.name modeCollection +:+ quote
                +:+ " must have both " +:+ quote +:+ "Light" +:+ quote +:+ " and "
                +:+ quote +:+ "Dark" +:+ quote +:+ " modes. Found modes: "
                +:+ join_with ", " (List.map Mode.name (Collection.modes modeCollection)) |}.

Definition noValidVariables : JsError :=
  {| message := "No valid base/ color variables found. Make sure your base/ variables have both Light and Dark mode values and properly resolve to color values." |}.

(** The body of the [for] loop over [baseVariables]; [processed] is
    [processedVariables] on entry. *)
Fixpoint processVariables (lightModeId darkModeId : string) (baseVariables : list Var.t)
    (processed : list ProcessedVariable) : M (list ProcessedVariable) :=
  match baseVariables with
  | [] => mret processed
  | variable :: rest =>
      (* Resolve values for both modes *)
      lightValue ← resolveVariableValue variable lightModeId ∅;
      darkValue ← resolveVariableValue variable darkModeId ∅;
      (* Skip variables that don't have both light and dark values *)
      if negb (truthy_result lightValue.1) || negb (truthy_result darkValue.1)
      then processVariables lightModeId darkModeId rest processed
      else
        match lightValue.1, darkValue.1 with
        | Some light, Some dark =>
            (* Clean the variable name (remove base/ prefix) *)
            let cleanName := substring_from 5 (Var.name variable) in
            (* Convert any remaining slashes to hyphens *)
            let cleanName := replace_all "/" "-" cleanName in
            processVariables lightModeId darkModeId rest
              (processed ++ [ {| name := Var.name variable;
                                 cleanName := cleanName;
                                 lightValue := light;
                                 darkValue := dark |} ])
        | _, _ =>
            (* not reached: a value that is not falsy is a string *)
            processVariables lightModeId darkModeId rest processed
        end
  end.

(** Process variables from the mode collection. *)
Definition processSemanticVariables : M ExportResult :=
  modeCollection ← findModeCollection;
  (* Find Light and Dark modes *)
  let lightMode := findModeNamed "light" (Collection.modes modeCollection) in
  let darkMode := findModeNamed "dark" (Collection.modes modeCollection) in
  match lightMode, darkMode with
  | Some lightMode, Some darkMode =>
      (* all variables, filtered to COLOR type only *)
      allVariables ← localVariables "COLOR";
      let collectionVariables :=
        List.filter (fun v => String.eqb (Var.variableCollectionId v) (Collection.id modeCollection))
          allVariables in
      (* Filter to only base/ variables *)
      let baseVariables :=
        List.filter (fun v => startsWith "base/" (Var.name v)) collectionVariables in
      processedVariables ←
        processVariables (Mode.modeId lightMode) (Mode.modeId darkMode) baseVariables [];
      match processedVariables with
      | [] => throw noValidVariables
      | _ => mret {| variables := processedVariables;
                     collectionName := Collection.name modeCollection |}
      end
  | _, _ => throw (missingModes modeCollection)
  end.

End WithMath.

Definition line (s : string) : string := s +:+ nl.

(** Generate shadcn-compatible CSS. *)
Definition generateShadcnCSS (result : ExportResult) : string :=
  let variables := variables result in
  let css :=
    line ("@import " +:+ quote +:+ "tailwindcss" +:+ quote +:+ ";")
    +:+ line ("@import " +:+ quote +:+ "tw-animate-css" +:+ quote +:+ ";")
    +:+ line EmptyString
    +:+ line "@custom-variant dark (&:is(.dark *));"
    +:+ line EmptyString
    +:+ line "@theme inline {"
    +:+ line "  --radius-sm: calc(var(--radius) - 4px);"
    +:+ line "  --radius-md: calc(var(--radius) - 2px);"
    +:+ line "  --radius-lg: var(--radius);"
    +:+ line "  --radius-xl: calc(var(--radius) + 4px);" in
  (* @theme mappings for all variables *)
  let css :=
    fold_left
      (fun css variable =>
         css +:+ "  --color-" +:+ cleanName variable +:+ ": var(--" +:+ cleanName variable
             +:+ ");" +:+ nl)
      variables css in
  let css :=
    css +:+ line "}"
        +:+ line EmptyString
        +:+ line ":root {"
        +:+ line "  --radius: 0.625rem;" in
  (* light mode variables *)
  let css :=
    fold_left
      (fun css variable =>
         css +:+ "  --" +:+ cleanName variable +:+ ": " +:+ lightValue variable +:+ ";" +:+ nl)
      variables css in
  let css :=
    css +:+ line "}"
        +:+ line EmptyString
        +:+ line ".dark {" in
  (* dark mode variables *)
  let css :=
    fold_left
      (fun css variable =>
         css +:+ "  --" +:+ cleanName variable +:+ ": " +:+ darkValue variable +:+ ";" +:+ nl)
      variables css in
  css +:+ line "}"
      +:+ line EmptyString
      +:+ line "@layer base {"
      +:+ line "  * {"
      +:+ line "    @apply border-border outline-ring/50;"
      +:+ line "  }"
      +:+ line "  body {"
      +:+ line "    @apply bg-background text-foreground;"
      +:+ line "  }"
      +:+ "}".

(** [(error as Error).message]: the cast is erased, so the property is
    read from whatever was caught.  On [null] and [undefined] the read
    throws; on a value without the property it gives [undefined]. *)
Definition messageOf (error : Thrown) : M (option string) :=
  match error with
  | ThrownError e => mret (Some (message e))
  | ThrownOther => mret None
  | ThrownNull | ThrownUndefined => throw (typeError error)
  end.

Section WithMath.
Variable math : MathLib.

(** Main plugin execution. *)
Definition main : M unit :=
  try_catch
    (result ← processSemanticVariables math;
     let css := generateShadcnCSS result in
     postMessage (ExportComplete css (List.length (variables result)) (collectionName result)))
    (fun error =>
       text ← messageOf error;
       postMessage
         (ErrorMessage
            match text with
            | Some (String _ _ as text) => text
            | _ => "Unknown error occurred"
            end)).

(** [figma.ui.onmessage] *)
Definition onmessage (type : string) : M unit :=
  if String.eqb type "start-export" then main
  else if String.eqb type "close" then emit ClosePlugin
  else mret tt.

End WithMath.

End Plugin.

(** ** Notions used to state the properties *)
Module Spec.
Import JsString JsNumber Math Color Figma Plugin.

(** The ids of the variables of the document. *)
Definition hostIds (h : Host) : gset string :=
  list_to_set (List.map Var.id (Figma.variables h)).

(** A run that returns or throws. *)
Definition terminates {A} (r : list Event * Outcome A) : Prop :=
  outcome r <> OutOfFuel.

(** A run that returns. *)
Definition returns {A} (r : list Event * Outcome A) : Prop :=
  exists a, outcome r = Return a.

(** The value a resolution returns: [Some] of a color string, or [None]
    for [null], a throw or exhausted fuel. *)
Definition value_of (r : list Event * Outcome (option string * gset string)) : option string :=
  match outcome r with
  | Return (value, _) => value
  | _ => None
  end.

(** The unrounded chroma [hexToOklch] computes for [hex]. *)
Definition chroma (math : MathLib) (hex : string) : number :=
  let hex := expandHex hex in
  lch_C (rgbToOklch math (channel hex 0 2) (channel hex 2 4) (channel hex 4 6)).

(** The rounded lightness and hue [hexToOklch] prints for [hex]. *)
Definition lightness (math : MathLib) (hex : string) : number :=
  let hex := expandHex hex in
  Number_ (toFixed 3 (lch_L (rgbToOklch math (channel hex 0 2) (channel hex 2 4) (channel hex 4 6)))).

Definition hue (math : MathLib) (hex : string) : number :=
  let hex := expandHex hex in
  Number_ (toFixed 1 (lch_H (rgbToOklch math (channel hex 0 2) (channel hex 2 4) (channel hex 4 6)))).

(** The achromatic form [oklch(L 0 0)]. *)
Definition achromatic (L : number) : string :=
  "oklch(" +:+ toString L +:+ " 0 0)".

(** The characters [[A-Za-z0-9-]]. *)
Definition is_name_char (c : ascii) : bool :=
  let n := code c in
  ((48 <=? n) && (n <=? 57)) || ((65 <=? n) && (n <=? 90)) || ((97 <=? n) && (n <=? 122))
  || (n =? 45).

(** The entry the loop of [processSemanticVariables] appends for a
    candidate: one when both resolutions return a color, none otherwise. *)
Definition entry (math : MathLib) (h : Host) (lightModeId darkModeId : string)
    (variable : Var.t) : option ProcessedVariable :=
  match value_of (resolveVariableValue math variable lightModeId ∅ h),
        value_of (resolveVariableValue math variable darkModeId ∅ h) with
  | Some light, Some dark =>
      Some {| name := Var.name variable;
              cleanName := replace_all "/" "-" (substring_from 5 (Var.name variable));
              lightValue := light;
              darkValue := dark |}
  | _, _ => None
  end.

(** The collections [findModeCollection] chooses from: the local
    collections whose name contains "mode", in enumeration order. *)
Definition modeCollections (h : Host) : list Collection.t :=
  List.filter (fun collection => includes "mode" (toLowerCase (Collection.name collection)))
    (List.filter (fun c => negb (Collection.remote c)) (collections h)).

(** The candidates of an export from [modeCollection]: the local color
    variables of the collection whose name starts with [base/], in
    enumeration order. *)
Definition candidates (h : Host) (modeCollection : Collection.t) : list Var.t :=
  List.filter (fun v => startsWith "base/" (Var.name v))
    (List.filter
       (fun v => String.eqb (Var.variableCollectionId v) (Collection.id modeCollection))
       (List.filter
          (fun v => negb (Var.remote v) && String.eqb (Var.resolvedType v) "COLOR")
          (Figma.variables h))).

(** The entries of an export that returned. *)
Definition exported (r : list Event * Outcome ExportResult) : list ProcessedVariable :=
  match outcome r with
  | Return result => variables result
  | _ => []
  end.

(** The text of the error message posted for a thrown [error]. *)
Definition failureText (error : JsError) : string :=
  match message error with
  | EmptyString => "Unknown error occurred"
  | text => text
  end.

(** [null] and [undefined]. *)
Definition nullish (value : Thrown) : bool :=
  match value with
  | ThrownNull | ThrownUndefined => true
  | _ => false
  end.

(** A run that throws [null] or [undefined]. *)
Definition throws_nullish {A} (r : list Event * Outcome A) : bool :=
  match outcome r with
  | Throw value => nullish value
  | _ => false
  end.

(** What the catch block of [main] posts for a thrown value, if it gets
    to post. *)
Definition reported (value : Thrown) : option Message :=
  match value with
  | ThrownError error => Some (ErrorMessage (failureText error))
  | ThrownOther => Some (ErrorMessage "Unknown error occurred")
  | ThrownNull | ThrownUndefined => None
  end.

End Spec.

(** ** An example document

    Three collections, with unrelated mode ids: [Mode] (Light, Dark), the
    collection the export reads; [Theme] (Dark, Light), whose variables the
    variables of [Mode] alias; and [Palette], with a single mode. *)
Module Examples.
Import JsNumber Figma.

Definition mode (id name : string) : Mode.t :=
  {| Mode.modeId := id; Mode.name := name |}.

Definition color (id name collection : string) (values : list (string * VariableValue)) : Var.t :=
  {| Var.id := id;
     Var.name := name;
     Var.variableCollectionId := collection;
     Var.resolvedType := "COLOR";
     Var.valuesByMode := list_to_map values;
     Var.remote := false |}.

Definition themeCollection : Collection.t :=
  {| Collection.id := "VariableCollectionId:2:1";
     Collection.name := "Theme";
     Collection.modes := [mode "2:0" "Dark"; mode "2:1" "Light"];
     Collection.remote := false |}.

Definition modeCollection : Collection.t :=
  {| Collection.id := "VariableCollectionId:1:1";
     Collection.name := "Mode";
     Collection.modes := [mode "1:0" "Light"; mode "1:1" "Dark"];
     Collection.remote := false |}.

Definition paletteCollection : Collection.t :=
  {| Collection.id := "VariableCollectionId:3:1";
     Collection.name := "Palette";
     Collection.modes := [mode "3:0" "Value"];
     Collection.remote := false |}.

(** The scenario of the specification: two hex strings. *)
Definition background : Var.t :=
  color "VariableID:1:2" "base/background" "VariableCollectionId:1:1"
    [("1:0", VString "#ffffff"); ("1:1", VString "#020817")].

(** An alias into [Theme], in both modes. *)
Definition primary : Var.t :=
  color "VariableID:1:3" "base/primary" "VariableCollectionId:1:1"
    [("1:0", VAlias "VariableID:2:2"); ("1:1", VAlias "VariableID:2:2")].

Definition themePrimary : Var.t :=
  color "VariableID:2:2" "brand/primary" "VariableCollectionId:2:1"
    [("2:0", VString "#f8fafc"); ("2:1", VString "#0f172a")].

(** An alias into the single-mode [Palette], in both modes. *)
Definition ring : Var.t :=
  color "VariableID:1:4" "base/ring" "VariableCollectionId:1:1"
    [("1:0", VAlias "VariableID:3:2"); ("1:1", VAlias "VariableID:3:2")].

Definition slate : Var.t :=
  color "VariableID:3:2" "slate/400" "VariableCollectionId:3:1"
    [("3:0", VRGB 0.5803921568627451 0.6392156862745098 0.7215686274509804)].

(** A two-node cycle. *)
Definition card : Var.t :=
  color "VariableID:1:5" "base/card" "VariableCollectionId:1:1"
    [("1:0", VAlias "VariableID:1:6"); ("1:1", VAlias "VariableID:1:6")].

Definition popover : Var.t :=
  color "VariableID:1:6" "base/popover" "VariableCollectionId:1:1"
    [("1:0", VAlias "VariableID:1:5"); ("1:1", VAlias "VariableID:1:5")].

(** A name with a space and a dot after the prefix. *)
Definition sidebar : Var.t :=
  color "VariableID:1:7" "base/sidebar primary/v1.5" "VariableCollectionId:1:1"
    [("1:0", VString "#fafafa"); ("1:1", VString "#18181b")].

(** Strings of five and of four hexadecimal digits. *)
Definition accent : Var.t :=
  color "VariableID:1:8" "base/accent" "VariableCollectionId:1:1"
    [("1:0", VString "#12345"); ("1:1", VString "#1234")].

(** A near-gray whose chroma is about 0.00376. *)
Definition muted : Var.t :=
  color "VariableID:1:9" "base/muted" "VariableCollectionId:1:1"
    [("1:0", VString "#111312"); ("1:1", VString "#808080")].

(** A value in one mode only. *)
Definition border : Var.t :=
  color "VariableID:1:10" "base/border" "VariableCollectionId:1:1"
    [("1:0", VString "#e2e8f0")].

(** A variable outside the reserved prefix. *)
Definition chart : Var.t :=
  color "VariableID:1:11" "chart/1" "VariableCollectionId:1:1"
    [("1:0", VString "#ff0000"); ("1:1", VString "#00ff00")].

Definition noRejects : Query -> option Thrown := fun _ => None.

Definition design : Host :=
  {| collections := [themeCollection; modeCollection; paletteCollection];
     variables := [background; primary; themePrimary; ring; slate; card; popover;
                   sidebar; accent; muted; border; chart];
     rejects := noRejects |}.

(** The same document without the [Mode] collection. *)
Definition themeOnly : Host :=
  {| collections := [themeCollection; paletteCollection];
     variables := [themePrimary; slate];
     rejects := noRejects |}.

(** A host whose first query rejects with an [Error] that carries no
    message. *)
Definition silentFailure : Host :=
  {| collections := [modeCollection];
     variables := [background];
     rejects := fun q =>
       match q with
       | getLocalVariableCollectionsAsync => Some (ThrownError {| message := EmptyString |})
       | _ => None
       end |}.

(** A host whose variable query rejects with a message. *)
Definition offline : Host :=
  {| collections := [modeCollection];
     variables := [background];
     rejects := fun q =>
       match q with
       | getLocalVariablesAsync _ => Some (ThrownError {| message := "Network request failed" |})
       | _ => None
       end |}.

End Examples.

(** ** The interface

    The script of [ui.html]: the page keeps the last stylesheet, a button,
    a status line and a preview.  The handlers are functions of the page;
    what they send to the plugin or schedule is returned with the new
    page. *)
Module Ui.
Import JsString Figma.

Record Page : Type := {
  generatedCSS : string;
  exportBtn_disabled : bool;
  exportBtn_content : string;        (* innerHTML, or textContent once assigned *)
  status_textContent : string;
  status_className : string;
  status_display : string;
  preview_textContent : string;
  preview_display : string
}.

Inductive Effect : Type :=
| PostToPlugin (type : string)       (* parent.postMessage({ pluginMessage: { type } }, '*') *)
| Download (fileName mime content : string)
| SetTimeout (delay : nat) (callback : Effect).

(** The page as the document declares it; the label of the button stands
    on a line of its own in the markup. *)
Definition initial : Page :=
  {| generatedCSS := EmptyString;
     exportBtn_disabled := false;
     exportBtn_content := nl +:+ "      Export Semantic Variables" +:+ nl +:+ "    ";
     status_textContent := EmptyString;
     status_className := "status";
     status_display := "none";
     preview_textContent := EmptyString;
     preview_display := "none" |}.

(** Show status message. *)
Definition showStatus (message type : string) (page : Page) : Page :=
  {| generatedCSS := generatedCSS page;
     exportBtn_disabled := exportBtn_disabled page;
     exportBtn_content := exportBtn_content page;
     status_textContent := message;
     status_className := "status " +:+ type;
     status_display := "block";
     preview_textContent := preview_textContent page;
     preview_display := preview_display page |}.

(** Hide status. *)
Definition hideStatus (page : Page) : Page :=
  {| generatedCSS := generatedCSS page;
     exportBtn_disabled := exportBtn_disabled page;
     exportBtn_content := exportBtn_content page;
     status_textContent := status_textContent page;
     status_className := status_className page;
     status_display := "none";
     preview_textContent := preview_textContent page;
     preview_display := preview_display page |}.

(** [css.length > 500 ? css.substring(0, 500) + '...' : css] *)
Definition truncated (css : string) : string :=
  if (500 <? JsString.length css)%nat then String.substring 0 500 css +:+ "..." else css.

(** Show preview of generated CSS. *)
Definition showPreview (css : string) (page : Page) : Page :=
  {| generatedCSS := generatedCSS page;
     exportBtn_disabled := exportBtn_disabled page;
     exportBtn_content := exportBtn_content page;
     status_textContent := status_textContent page;
     status_className := status_className page;
     status_display := status_display page;
     preview_textContent := truncated css;
     preview_display := "block" |}.

(** Download CSS file. *)
Definition downloadCSS (css : string) : Effect := Download "index.css" "text/css" css.

Definition setButton (disabled : bool) (content : string) (page : Page) : Page :=
  {| generatedCSS := generatedCSS page;
     exportBtn_disabled := disabled;
     exportBtn_content := content;
     status_textContent := status_textContent page;
     status_className := status_className page;
     status_display := status_display page;
     preview_textContent := preview_textContent page;
     preview_display := preview_display page |}.

Definition setGeneratedCSS (css : string) (page : Page) : Page :=
  {| generatedCSS := css;
     exportBtn_disabled := exportBtn_disabled page;
     exportBtn_content := exportBtn_content page;
     status_textContent := status_textContent page;
     status_className := status_className page;
     status_display := status_display page;
     preview_textContent := preview_textContent page;
     preview_display := preview_display page |}.

(** The [click] listener of the export button. *)
Definition onClick (page : Page) : Page * list Effect :=
  let page :=
    setButton true
      ("<span class=" +:+ quote +:+ "loading-spinner" +:+ quote +:+ "></span>Exporting...")
      page in
  let page := showStatus "Reading Figma variables..." "loading" page in
  (* Send message to plugin code to start export *)
  (page, [PostToPlugin "start-export"]).

(** The [message] listener of the window; [pluginMessage] is [None] for an
    event that carries no plugin message. *)
Definition onMessage (pluginMessage : option Message) (page : Page) : Page * list Effect :=
  match pluginMessage with
  | Some (ExportComplete css variableCount collectionName) =>
      let page := setGeneratedCSS css page in
      let page := setButton false "Export Semantic Variables" page in
      let page :=
        showStatus
          ("Successfully exported " +:+ decimal (Z.of_nat variableCount) +:+ " variables from "
           +:+ quote +:+ collectionName +:+ quote +:+ "!")
          "success" page in
      let page := showPreview css page in
      (* Auto-download after 1 second *)
      (page, [SetTimeout 1000 (downloadCSS css)])
  | Some (ErrorMessage message) =>
      let page := setButton false "Export Semantic Variables" page in
      let page := showStatus ("Error: " +:+ message) "error" page in
      (page, [])
  | None => (page, [])
  end.

(** The messages of the plugin handled one after the other. *)
Fixpoint deliver (messages : list Message) (page : Page) : Page * list Effect :=
  match messages with
  | [] => (page, [])
  | m :: rest =>
      let '(page, effects) := onMessage (Some m) page in
      let '(page, effects') := deliver rest page in
      (page, effects ++ effects')
  end.

End Ui.

(** ** Notions used to state further properties *)
Module Layout.
Import JsString JsNumber Math Color Figma Plugin.

(** The fixed text of the stylesheet and the three lines of a variable. *)
Definition cssHeader : string :=
  line ("@import " +:+ quote +:+ "tailwindcss" +:+ quote +:+ ";")
  +:+ line ("@import " +:+ quote +:+ "tw-animate-css" +:+ quote +:+ ";")
  +:+ line EmptyString
  +:+ line "@custom-variant dark (&:is(.dark *));"
  +:+ line EmptyString
  +:+ line "@theme inline {"
  +:+ line "  --radius-sm: calc(var(--radius) - 4px);"
  +:+ line "  --radius-md: calc(var(--radius) - 2px);"
  +:+ line "  --radius-lg: var(--radius);"
  +:+ line "  --radius-xl: calc(var(--radius) + 4px);".

Definition rootOpen : string :=
  line "}" +:+ line EmptyString +:+ line ":root {" +:+ line "  --radius: 0.625rem;".

Definition darkOpen : string :=
  line "}" +:+ line EmptyString +:+ line ".dark {".

Definition cssFooter : string :=
  line "}"
  +:+ line EmptyString
  +:+ line "@layer base {"
  +:+ line "  * {"
  +:+ line "    @apply border-border outline-ring/50;"
  +:+ line "  }"
  +:+ line "  body {"
  +:+ line "    @apply bg-background text-foreground;"
  +:+ line "  }"
  +:+ "}".

Definition themeLine (variable : ProcessedVariable) : string :=
  "  --color-" +:+ cleanName variable +:+ ": var(--" +:+ cleanName variable +:+ ");" +:+ nl.

Definition lightLine (variable : ProcessedVariable) : string :=
  "  --" +:+ cleanName variable +:+ ": " +:+ lightValue variable +:+ ";" +:+ nl.

Definition darkLine (variable : ProcessedVariable) : string :=
  "  --" +:+ cleanName variable +:+ ": " +:+ darkValue variable +:+ ";" +:+ nl.

(** The two lower-case hexadecimal digits of a byte. *)
Definition hexDigit (d : Z) : ascii :=
  if d <? 10 then charOf (48 + d) else charOf (87 + d).

Definition hexByte (k : Z) : string :=
  String (hexDigit (k / 16)) (String (hexDigit (k mod 16)) EmptyString).

(** The channel value of a byte, as [parseInt(..., 16) / 255] computes it. *)
Definition byteChannel (k : Z) : number := (ofZ k / 255)%num.

(** A query for one variable or one collection by id. *)
Definition is_lookup (e : Event) : bool :=
  match e with
  | Asked (getVariableByIdAsync _) | Asked (getVariableCollectionByIdAsync _) => true
  | _ => false
  end.

(** A value that is neither a color nor an alias: a boolean, a number, or
    a string that fails the format guard. *)
Definition unrecognized (value : VariableValue) : bool :=
  match value with
  | VBoolean _ | VNumber _ => true
  | VString s => negb (test_hex_color s)
  | VRGB _ _ _ | VAlias _ => false
  end.

(** A text of the form [oklch(...)]. *)
Definition is_oklch (s : string) : Prop :=
  exists body, s = "oklch(" +:+ body +:+ ")".

(** What the parser needs to know of a hexadecimal digit. *)
Definition hex_digit_ok (c : ascii) : bool :=
  implb (is_hex_digit c)
    (is_hex_digit (lower_char c)
     && match digit_value 16 c, digit_value 16 (lower_char c) with
        | Some v, Some w => v =? w
        | _, _ => false
        end
     && negb (is_space c)
     && negb (Ascii.eqb c "-") && negb (Ascii.eqb c "+") && negb (Ascii.eqb c "#")
     && negb (Ascii.eqb "x" c) && negb (Ascii.eqb "X" c)).

(** The doubling of line 22. *)
Definition doubled (s : string) : string :=
  join (List.map (fun char => str1 char +:+ str1 char) (split_chars s)).

(** Every byte, through [toHex] and back through [parseInt]. *)
Definition byte_ok (k : Z) : bool :=
  String.eqb (toHex (byteChannel k)) (hexByte k)
  && all_chars is_hex_digit (hexByte k)
  && match (parseInt16 (hexByte k) / 255)%num, byteChannel k with
     | S754_zero a, S754_zero b => Bool.eqb a b
     | S754_finite a m e, S754_finite b m' e' => Bool.eqb a b && Pos.eqb m m' && (e =? e')
     | _, _ => false
     end.

(** The messages the plugin posts in reply to what the page sent. *)
Definition replies (math : Math.MathLib) (h : Host) (sent : list Ui.Effect) : list Message :=
  flat_map
    (fun effect =>
       match effect with
       | Ui.PostToPlugin type => posted (events (onmessage math type h))
       | _ => []
       end)
    sent.

(** One click on the export button: the page posts to the plugin, the
    plugin handles the message against the document, and the page handles
    what the plugin posts. *)
Definition exportSession (math : Math.MathLib) (h : Host) (page : Ui.Page)
    : Ui.Page * list Ui.Effect :=
  let '(page, sent) := Ui.onClick page in
  let '(page, effects) := Ui.deliver (replies math h sent) page in
  (page, sent ++ effects).

End Layout.

(** ** Further example documents *)
Module Scenarios.
Import JsNumber Figma Examples.

(** A collection named for modes that lacks the dark one. *)
Definition lightOnly : Collection.t :=
  {| Collection.id := "VariableCollectionId:4:1";
     Collection.name := "Color Modes";
     Collection.modes := [mode "4:0" "Light"; mode "4:1" "High contrast"];
     Collection.remote := false |}.

(** A library collection, a collection without "mode" in its name, and
    two local collections with it. *)
Definition libraryModes : Collection.t :=
  {| Collection.id := "VariableCollectionId:9:1";
     Collection.name := "Library modes";
     Collection.modes := [mode "9:0" "Light"; mode "9:1" "Dark"];
     Collection.remote := true |}.

Definition twoModeCollections : Host :=
  {| collections := [libraryModes; themeCollection; modeCollection; lightOnly];
     variables := [background];
     rejects := noRejects |}.

Definition missingDark : Host :=
  {| collections := [lightOnly];
     variables := [];
     rejects := noRejects |}.

(** Brand sizes: three modes, none named light or dark. *)
Definition densityCollection : Collection.t :=
  {| Collection.id := "VariableCollectionId:5:1";
     Collection.name := "Density";
     Collection.modes := [mode "5:0" "Compact"; mode "5:1" "Regular"; mode "5:2" "Roomy"];
     Collection.remote := false |}.

Definition dense : Var.t :=
  color "VariableID:5:2" "density/accent" "VariableCollectionId:5:1"
    [("5:0", VString "#336699"); ("1:0", VString "#663399")].

(** Aliases that lead nowhere, to itself, and into [Density]. *)
Definition dangling : Var.t :=
  color "VariableID:1:20" "base/dangling" "VariableCollectionId:1:1"
    [("1:0", VAlias "VariableID:404:0"); ("1:1", VString "#000000")].

Definition selfish : Var.t :=
  color "VariableID:1:21" "base/selfish" "VariableCollectionId:1:1"
    [("1:0", VAlias "VariableID:1:21"); ("1:1", VAlias "VariableID:1:21")].

Definition compact : Var.t :=
  color "VariableID:1:22" "base/compact" "VariableCollectionId:1:1"
    [("1:0", VAlias "VariableID:5:2"); ("1:1", VAlias "VariableID:5:2")].

(** Values that are no colors. *)
Definition odd : Var.t :=
  color "VariableID:1:23" "base/odd" "VariableCollectionId:1:1"
    [("1:0", VString "red"); ("1:1", VNumber 16)].

Definition onlyDropped : Host :=
  {| collections := [modeCollection; densityCollection];
     variables := [dangling; selfish; compact; odd; dense];
     rejects := noRejects |}.

(** The variable [VariableID:2:2] cannot be fetched. *)
Definition brokenLookup : Host :=
  {| collections := [themeCollection; modeCollection];
     variables := [background; primary; themePrimary];
     rejects := fun q =>
       match q with
       | getVariableByIdAsync "VariableID:2:2" =>
           Some (ThrownError {| message := "Variable not accessible" |})
       | _ => None
       end |}.

(** The first query rejects with [undefined]. *)
Definition rejectsUndefined : Host :=
  {| collections := [modeCollection];
     variables := [background];
     rejects := fun q =>
       match q with
       | getLocalVariableCollectionsAsync => Some ThrownUndefined
       | _ => None
       end |}.

(** Two modes whose names differ in letter case only, and two variables
    that alias each other in the second of them. *)
Definition caseModes : Collection.t :=
  {| Collection.id := "VariableCollectionId:7:1";
     Collection.name := "Mode";
     Collection.modes := [mode "7:0" "Light"; mode "7:1" "light"; mode "7:2" "Dark"];
     Collection.remote := false |}.

Definition ping : Var.t :=
  color "VariableID:7:2" "base/ping" "VariableCollectionId:7:1"
    [("7:0", VString "#ffffff"); ("7:1", VAlias "VariableID:7:3"); ("7:2", VString "#000000")].

Definition pong : Var.t :=
  color "VariableID:7:3" "base/pong" "VariableCollectionId:7:1"
    [("7:0", VString "#000000"); ("7:1", VAlias "VariableID:7:2"); ("7:2", VString "#ffffff")].

Definition caseCycle : Host :=
  {| collections := [caseModes];
     variables := [ping; pong];
     rejects := noRejects |}.

End Scenarios.

(** * Properties *)

(** ** The colorimetric converter *)
Module ColorProperties.
Import JsString JsNumber Math Color Spec.

Section Converter.
Variable math : MathLib.

Lemma expandHex_short (x y z : ascii) :
  expandHex (String "#" (String x (String y (String z EmptyString))))
  = String x (String x (String y (String y (String z (String z EmptyString))))).
Proof.
  unfold expandHex. cbn [remove_first]. rewrite Ascii.eqb_refl. reflexivity.
Qed.

Lemma expandHex_long (a b c d e f : ascii) :
  expandHex (String "#" (String a (String b (String c (String d (String e (String f EmptyString)))))))
  = String a (String b (String c (String d (String e (String f EmptyString))))).
Proof.
  unfold expandHex. cbn [remove_first]. rewrite Ascii.eqb_refl. reflexivity.
Qed.

(** C9.  A three-digit string [#xyz] is expanded to [xxyyzz] by doubling
    each digit, and [hexToOklch] returns for it what it returns for the
    six-digit string [#xxyyzz].  This holds for any three characters, so
    in particular for hexadecimal digits, and for any [Math] library. *)
Theorem hexToOklch_shorthand (x y z : ascii) :
  expandHex (String "#" (String x (String y (String z EmptyString))))
  = String x (String x (String y (String y (String z (String z EmptyString)))))
  /\ hexToOklch math (String "#" (String x (String y (String z EmptyString))))
     = hexToOklch math
         (String "#" (String x (String x (String y (String y (String z (String z EmptyString))))))).
Proof.
  split; [apply expandHex_short|].
  unfold hexToOklch. rewrite expandHex_short, expandHex_long. reflexivity.
Qed.

(** *** Rounding and the achromatic form *)

Lemma fraction_pos (m : positive) (e n d : Z) :
  fraction m e = (n, d) -> 0 < n /\ 0 < d.
Proof.
  unfold fraction. destruct (0 <=? e) eqn:E; intros [= <- <-].
  - apply Z.leb_le in E. split; [|lia].
    apply Z.mul_pos_pos; [lia|]. by apply Z.pow_pos_nonneg.
  - apply Z.leb_gt in E. split; [lia|]. apply Z.pow_pos_nonneg; lia.
Qed.

(** [x.toFixed(3)] for [0 <= x < 10^21], by the integer nearest to
    [1000 x]. *)
Lemma toFixed_3_exact (x : number) (n d : Z) :
  exact x = Some (n, d) -> n < d ->
  0 < d /\ 0 <= n /\ toFixed 3 x = fixed_digits 3 ((2 * n * 1000 + d) / (2 * d)).
Proof.
  destruct x as [s|s| |[|] m e]; try discriminate; cbn [exact].
  - intros [= <- <-] _. split; [lia|]. split; [lia|reflexivity].
  - intros [= Hfr] Hlt. destruct (fraction_pos m e n d Hfr) as [Hn Hd].
    split; [lia|]. split; [lia|].
    unfold toFixed. rewrite Hfr.
    destruct (10 ^ 21 * d <=? n) eqn:E; [apply Z.leb_le in E; lia|].
    reflexivity.
Qed.

Lemma rounds_below_threshold (N : Z) :
  0 <= N <= 3 -> (Number_ (fixed_digits 3 N) <? 0.004)%num = true.
Proof.
  intros HN.
  assert (N = 0 \/ N = 1 \/ N = 2 \/ N = 3) as [->|[->|[->| ->]]] by lia;
    vm_compute; reflexivity.
Qed.

Lemma rounds_at_least_threshold (N : Z) :
  4 <= N <= 1000 -> (Number_ (fixed_digits 3 N) <? 0.004)%num = false.
Proof.
  intros HN.
  assert (forallb (fun k => negb (Number_ (fixed_digits 3 (4 + Z.of_nat k)) <? 0.004)%num)
            (List.seq 0 997) = true) as Hall by (vm_compute; reflexivity).
  rewrite forallb_forall in Hall. specialize (Hall (Z.to_nat (N - 4))).
  rewrite Z2Nat.id in Hall by lia. replace (4 + (N - 4)) with N in Hall by lia.
  apply negb_true_iff, Hall, in_seq. lia.
Qed.

Lemma rounds_to_threshold :
  (Number_ (fixed_digits 3 4) <? 0.004)%num = false
  /\ toString (Number_ (fixed_digits 3 4)) = "0.004".
Proof. split; vm_compute; reflexivity. Qed.

(** *** NaN through the conversion *)

Lemma add_nan_r x : (x + NaN)%num = NaN.
Proof. by destruct x. Qed.

Lemma sub_nan_r x : (x - NaN)%num = NaN.
Proof. by destruct x. Qed.

Lemma mul_nan_r x : (x * NaN)%num = NaN.
Proof. by destruct x. Qed.

Lemma mul_nan_l x : (NaN * x)%num = NaN.
Proof. reflexivity. Qed.

Lemma add_nan_l x : (NaN + x)%num = NaN.
Proof. reflexivity. Qed.

Lemma gammaToLinear_nan : nan_laws math -> gammaToLinear math NaN = NaN.
Proof.
  intros Hlaws. unfold gammaToLinear.
  change (NaN <=? 0.04045)%num with false. cbn iota.
  change ((NaN + 0.055) / 1.055)%num with NaN.
  apply (pow_nan math Hlaws). intros s. discriminate.
Qed.

(** A blue channel that is NaN makes every component NaN. *)
Lemma rgbToOklch_nan_blue (r g : number) :
  nan_laws math ->
  rgbToOklch math r g NaN = {| lch_L := NaN; lch_C := NaN; lch_H := NaN |}.
Proof.
  intros Hlaws. unfold rgbToOklch, xyzToOklab. cbn zeta. cbn [lab_L lab_a lab_b].
  rewrite (gammaToLinear_nan Hlaws).
  rewrite !mul_nan_r, !add_nan_r.
  rewrite !mul_nan_r, ?add_nan_r, ?sub_nan_r, ?add_nan_l.
  rewrite !(cbrt_nan math Hlaws).
  rewrite !mul_nan_r, ?add_nan_r, ?sub_nan_r, ?add_nan_l.
  rewrite (sqrt_nan math Hlaws), (atan2_nan_l math Hlaws).
  reflexivity.
Qed.

Lemma formatOklch_nan :
  formatOklch {| lch_L := NaN; lch_C := NaN; lch_H := NaN |} = "oklch(NaN NaN NaN)".
Proof. vm_compute. reflexivity. Qed.

(** Four characters after the sign: the blue channel is read from the
    empty string. *)
Lemma hexToOklch_four (a b c d : ascii) :
  nan_laws math ->
  hexToOklch math (String "#" (String a (String b (String c (String d EmptyString)))))
  = "oklch(NaN NaN NaN)".
Proof.
  intros Hlaws. unfold hexToOklch, expandHex. cbn [remove_first].
  rewrite Ascii.eqb_refl. cbn [JsString.length String.length Nat.eqb]. cbn zeta.
  assert (channel (String a (String b (String c (String d EmptyString)))) 4 6 = NaN) as ->
    by reflexivity.
  rewrite (rgbToOklch_nan_blue _ _ Hlaws). apply formatOklch_nan.
Qed.

Lemma parseInt16_one_digit (e : ascii) :
  is_hex_digit e = true ->
  parseInt16 (String e EmptyString) = parseInt16 (String "0" (String e EmptyString))
  /\ (parseInt16 (String e EmptyString) / 255)%num <> NaN.
Proof.
  destruct e as [[|] [|] [|] [|] [|] [|] [|] [|]]; intros He;
    try (vm_compute in He; discriminate He);
    (split; [vm_compute; reflexivity | vm_compute; discriminate]).
Qed.

(** Five characters after the sign: the blue channel is read from the
    fifth alone, as from [0e]. *)
Lemma hexToOklch_five (a b c d e : ascii) :
  is_hex_digit e = true ->
  hexToOklch math
    (String "#" (String a (String b (String c (String d (String e EmptyString))))))
  = hexToOklch math
      (String "#" (String a (String b (String c (String d (String "0" (String e EmptyString)))))))
  /\ channel
       (expandHex
          (String "#" (String a (String b (String c (String d (String e EmptyString)))))))
       4 6 <> NaN.
Proof.
  intros He. destruct (parseInt16_one_digit e He) as [Hsame Hnum].
  unfold hexToOklch, expandHex. cbn [remove_first].
  rewrite Ascii.eqb_refl. cbn [JsString.length String.length Nat.eqb]. cbn zeta.
  unfold channel, slice. cbn [String.substring Nat.sub].
  rewrite Hsame. split; [reflexivity|].
  rewrite <- Hsame. exact Hnum.
Qed.

Lemma test_hex_color_digits (digits : string) :
  all_chars is_hex_digit digits = true ->
  (3 <=? String.length digits)%nat = true ->
  (String.length digits <=? 6)%nat = true ->
  test_hex_color (String "#" digits) = true.
Proof.
  intros H1 H2 H3. unfold test_hex_color.
  rewrite Ascii.eqb_refl, H1, H2, H3. reflexivity.
Qed.

End Converter.

Lemma RefMath_nan_laws : nan_laws RefMath.lib.
Proof.
  split; cbn.
  - intros y Hy. destruct y as [s| | |]; try reflexivity. by destruct (Hy s).
  - reflexivity.
  - reflexivity.
  - reflexivity.
  - intros y. by destruct y.
Qed.

(** The fixed points of the converter and the colors of the end-to-end
    scenario, under the reference library. *)
Example hexToOklch_black : hexToOklch RefMath.lib "#000000" = "oklch(0 0 0)".
Proof. vm_compute. reflexivity. Qed.

Example hexToOklch_white : hexToOklch RefMath.lib "#ffffff" = "oklch(1 0 0)".
Proof. vm_compute. reflexivity. Qed.

Example hexToOklch_navy : hexToOklch RefMath.lib "#020817" = "oklch(0.136 0.036 259.2)".
Proof. vm_compute. reflexivity. Qed.

Example figmaRgbToHex_orange : figmaRgbToHex 1 0.5 0 = "#ff8000".
Proof. vm_compute. reflexivity. Qed.

(** C3 as amended.  The threshold 0.004 is applied to the chroma after it
    is rounded to three decimals.  For a chroma that is finite and not
    negative: below 0.0035 it rounds to at most 0.003 and the achromatic
    form [oklch(L 0 0)] is emitted; from 0.0035 up to 0.004 it rounds to
    0.004, which is not below the threshold, and the full form is emitted
    with the chroma 0.004 and the hue; from 0.004 up to 1 the full form is
    emitted with the rounded chroma and the hue. *)
Theorem achromatic_after_rounding (math : MathLib) (hex : string) (n d : Z) :
  exact (chroma math hex) = Some (n, d) ->
  (n * 10000 < 35 * d -> hexToOklch math hex = achromatic (lightness math hex))
  /\ (35 * d <= n * 10000 -> n * 1000 < 4 * d ->
      hexToOklch math hex
      = "oklch(" +:+ toString (lightness math hex) +:+ " 0.004 "
        +:+ toString (hue math hex) +:+ ")")
  /\ (4 * d <= n * 1000 -> n < d ->
      hexToOklch math hex
      = "oklch(" +:+ toString (lightness math hex) +:+ " "
        +:+ toString (Number_ (toFixed 3 (chroma math hex))) +:+ " "
        +:+ toString (hue math hex) +:+ ")").
Proof.
  intros Hexact. unfold hexToOklch, formatOklch, achromatic, lightness, hue.
  unfold chroma in *. cbn zeta in *.
  set (c := lch_C _) in *.
  assert (0 < d) as Hd.
  { destruct c as [s|s| |[|] m e]; try discriminate; cbn [exact] in Hexact.
    - injection Hexact as <- <-. lia.
    - injection Hexact as Hfr. by apply fraction_pos in Hfr as []. }
  split; [|split].
  - intros Hlow.
    destruct (toFixed_3_exact c n d Hexact ltac:(lia)) as (_ & Hn & ->).
    rewrite rounds_below_threshold; [reflexivity|].
    split; [apply Z.div_pos; lia|].
    assert ((2 * n * 1000 + d) / (2 * d) < 4); [|lia].
    apply Z.div_lt_upper_bound; lia.
  - intros Hlo Hhi.
    destruct (toFixed_3_exact c n d Hexact ltac:(lia)) as (_ & Hn & ->).
    assert ((2 * n * 1000 + d) / (2 * d) = 4) as ->.
    { symmetry. apply (Z.div_unique _ _ 4 (2 * n * 1000 + d - 8 * d)); lia. }
    destruct rounds_to_threshold as [-> ->]. reflexivity.
  - intros Hlo Hhi.
    destruct (toFixed_3_exact c n d Hexact Hhi) as (_ & Hn & ->).
    rewrite rounds_at_least_threshold; [reflexivity|].
    split.
    + apply Z.div_le_lower_bound; lia.
    + assert ((2 * n * 1000 + d) / (2 * d) < 1001); [|lia].
      apply Z.div_lt_upper_bound; lia.
Qed.

(** The near-gray [#111312]: its chroma, about 0.00376, is printed as
    0.004 together with the hue. *)
Lemma achromatic_after_rounding_witness :
  hexToOklch RefMath.lib "#111312" = "oklch(0.184 0.004 164.8)".
Proof.
  destruct (exact (chroma RefMath.lib "#111312")) as [[n d]|] eqn:E;
    [|vm_compute in E; discriminate E].
  rewrite (proj1 (proj2 (achromatic_after_rounding RefMath.lib "#111312" n d E))).
  - vm_compute. reflexivity.
  - vm_compute in E. injection E as <- <-. vm_compute. discriminate.
  - vm_compute in E. injection E as <- <-. vm_compute. reflexivity.
Defined.

(** C3, counterexample.  The unrounded chroma of [#111312] is below 0.004,
    and the achromatic form is not emitted. *)
Lemma chroma_below_threshold_keeps_hue :
  (chroma RefMath.lib "#111312" <? 0.004)%num = true
  /\ hexToOklch RefMath.lib "#111312" = "oklch(0.184 0.004 164.8)"
  /\ achromatic (lightness RefMath.lib "#111312") = "oklch(0.184 0 0)".
Proof. repeat split; vm_compute; reflexivity. Qed.

End ColorProperties.

(** ** The alias resolver *)
Module ResolverProperties.
Import JsString JsNumber Math Color Figma Plugin Spec ColorProperties.
Local Open Scope nat_scope.
#[local] Set Warnings "-clear-no-such-hyp".

Lemma after_nil {A} (r : list Event * Outcome A) : after [] r = r.
Proof. destruct r; reflexivity. Qed.

Lemma after_app {A} (e1 e2 : list Event) (r : list Event * Outcome A) :
  after e1 (after e2 r) = after (e1 ++ e2) r.
Proof. unfold after; cbn. by rewrite app_assoc. Qed.

Lemma bind_run {A B} (m : M A) (k : A -> M B) (h : Host) :
  (m ≫= k) h =
  match m h with
  | (ev, Return a) => after ev (k a h)
  | (ev, Throw e) => (ev, Throw e)
  | (ev, OutOfFuel) => (ev, OutOfFuel)
  end.
Proof.
  unfold mbind, M_bind, bind, after.
  destruct (m h) as [ev [a|e|]]; [destruct (k a h)|..]; reflexivity.
Qed.

Lemma outcome_after {A} ev (r : list Event * Outcome A) : outcome (after ev r) = outcome r.
Proof. reflexivity. Qed.

Lemma events_after {A} ev (r : list Event * Outcome A) : events (after ev r) = ev ++ events r.
Proof. reflexivity. Qed.

Lemma find_In {A} (f : A -> bool) (l : list A) (x : A) :
  List.find f l = Some x -> In x l /\ f x = true.
Proof. apply List.find_some. Qed.

Lemma difference_shrinks (X vis : gset string) (x : string) :
  x ∈ X -> x ∉ vis -> size (X ∖ ({[x]} ∪ vis)) < size (X ∖ vis).
Proof. intros Hin Hfresh. apply subset_size. set_solver. Qed.

Lemma difference_monotone (X vis : gset string) (x : string) :
  size (X ∖ ({[x]} ∪ vis)) <= size (X ∖ vis).
Proof. apply subseteq_size. set_solver. Qed.

Lemma difference_bounded (X vis : gset string) : size (X ∖ vis) <= size X.
Proof. apply subseteq_size. set_solver. Qed.

Lemma size_insert_le (X : gset string) (x : string) : size ({[x]} ∪ X) <= S (size X).
Proof.
  rewrite size_union_alt, size_singleton.
  assert (size (X ∖ {[x]}) <= size X) by (apply subseteq_size; set_solver). lia.
Qed.

Lemma map_injective_on {A B} (f : A -> B) (l : list A) (x y : A) :
  List.NoDup (List.map f l) -> In x l -> In y l -> f x = f y -> x = y.
Proof.
  induction l as [|a l IH]; cbn; [done|].
  intros Hnd [->|Hx] [->|Hy] Heq; try done.
  - apply List.NoDup_cons_iff in Hnd as [Hnot _]. destruct Hnot.
    rewrite Heq. by apply in_map.
  - apply List.NoDup_cons_iff in Hnd as [Hnot _]. destruct Hnot.
    rewrite <- Heq. by apply in_map.
  - apply List.NoDup_cons_iff in Hnd as [_ Hnd]. by apply IH.
Qed.

Lemma find_exists {A} (f : A -> bool) (l : list A) (x : A) :
  In x l -> f x = true -> exists y, List.find f l = Some y.
Proof.
  induction l as [|a l IH]; cbn; [done|].
  intros [->|Hin] Hf.
  - rewrite Hf. eauto.
  - destruct (f a); eauto.
Qed.

Section Resolver.
Variable math : MathLib.
Variable h : Host.

(** How a query runs. *)
Lemma variableById_run id :
  variableById id h =
  ([Asked (getVariableByIdAsync id)],
   match rejects h (getVariableByIdAsync id) with
   | Some e => Throw e
   | None => Return (List.find (fun v => String.eqb (Var.id v) id) (Figma.variables h))
   end).
Proof. reflexivity. Qed.

Lemma variableCollectionById_run id :
  variableCollectionById id h =
  ([Asked (getVariableCollectionByIdAsync id)],
   match rejects h (getVariableCollectionByIdAsync id) with
   | Some e => Throw e
   | None => Return (List.find (fun c => String.eqb (Collection.id c) id) (Figma.collections h))
   end).
Proof. reflexivity. Qed.

(** A variable the host answers with belongs to the document. *)
Lemma variableById_In id ev W :
  variableById id h = (ev, Return (Some W)) -> In W (Figma.variables h) /\ Var.id W = id.
Proof.
  rewrite variableById_run. destruct (rejects h _); [discriminate|].
  intros [= _ Hf]. apply find_In in Hf as [Hin Heq].
  split; [done|]. by apply String.eqb_eq.
Qed.

(** Selecting the target mode never exhausts the fuel. *)
Lemma selectTargetMode_terminates V m C : terminates (selectTargetMode V m C h).
Proof.
  unfold terminates, selectTargetMode.
  destruct (findModeNamed "light" (Collection.modes C)),
    (findModeNamed "dark" (Collection.modes C));
    try (destruct (Collection.modes C) as [|? [|]]; discriminate).
  rewrite bind_run, variableCollectionById_run.
  destruct (rejects h _); discriminate.
Qed.

Lemma resolve_unfold n V m vis :
  resolveVariableValue_rec math (S n) V m vis h =
  if decide (Var.id V ∈ vis) then ([], Return (None, vis))
  else
    let visited := {[Var.id V]} ∪ vis in
    match Var.valuesByMode V !! m with
    | None => ([], Return (None, visited))
    | Some value =>
        if negb (truthy value) then ([], Return (None, visited))
        else
          match value with
          | VRGB r g b => ([], Return (Some (hexToOklch math (figmaRgbToHex r g b)), visited))
          | VString s =>
              if test_hex_color s then ([], Return (Some (hexToOklch math s), visited))
              else ([], Return (None, visited))
          | VAlias id =>
              (aliasedVariable ← variableById id;
               match aliasedVariable with
               | None => mret (None, visited)
               | Some aliasedVariable =>
                   aliasedCollection ←
                     variableCollectionById (Var.variableCollectionId aliasedVariable);
                   match aliasedCollection with
                   | None => mret (None, visited)
                   | Some aliasedCollection =>
                       targetModeId ← selectTargetMode V m aliasedCollection;
                       resolveVariableValue_rec math n aliasedVariable targetModeId visited
                   end
               end) h
          | _ => ([], Return (None, visited))
          end
    end.
Proof.
  cbn [resolveVariableValue_rec].
  destruct (decide _); [reflexivity|].
  destruct (_ !! _) as [value|]; [|reflexivity].
  destruct (negb _); [reflexivity|].
  destruct value; try reflexivity.
  destruct (test_hex_color _); reflexivity.
Qed.

Lemma hostIds_elem V : In V (Figma.variables h) -> Var.id V ∈ hostIds h.
Proof.
  intros Hin. unfold hostIds. apply elem_of_list_to_set, list_elem_of_In.
  by apply in_map.
Qed.

Lemma hostIds_size : size (hostIds h) <= List.length (Figma.variables h).
Proof.
  unfold hostIds. induction (Figma.variables h) as [|v l IH]; cbn.
  - by rewrite size_empty.
  - etrans; [apply size_insert_le|]. lia.
Qed.

(** Adding the id of a variable of the document to [visited] leaves fewer
    ids to visit. *)
Lemma remaining_decreases V vis :
  In V (Figma.variables h) -> Var.id V ∉ vis ->
  size (hostIds h ∖ ({[Var.id V]} ∪ vis)) < size (hostIds h ∖ vis).
Proof. intros Hin Hfresh. apply difference_shrinks; [by apply hostIds_elem|done]. Qed.

(** The common part of the two termination arguments: a call terminates
    as soon as the call on the aliased variable does. *)
Lemma resolve_step_terminates n V m vis :
  (forall W t, In W (Figma.variables h) ->
     terminates (resolveVariableValue_rec math n W t ({[Var.id V]} ∪ vis) h)) ->
  terminates (resolveVariableValue_rec math (S n) V m vis h).
Proof.
  intros Hrec. rewrite resolve_unfold.
  destruct (decide _); [discriminate|]. cbn zeta.
  destruct (_ !! _) as [value|]; [|discriminate].
  destruct (negb _); [discriminate|].
  destruct value as [| |s| |id]; try discriminate.
  { destruct (test_hex_color s); discriminate. }
  rewrite bind_run.
  destruct (variableById id h) as [ev [[W|]|e|]] eqn:HW; try discriminate.
  - apply variableById_In in HW as [HinW _].
    unfold terminates. rewrite outcome_after, bind_run.
    rewrite variableCollectionById_run.
    destruct (rejects h _); [discriminate|].
    destruct (List.find _ (Figma.collections h)) as [C|]; [|discriminate].
    rewrite outcome_after, bind_run.
    pose proof (selectTargetMode_terminates V m C) as Hsel.
    destruct (selectTargetMode V m C h) as [ev' [t|e|]]; [|discriminate|by destruct Hsel].
    rewrite outcome_after. by apply Hrec.
  - rewrite variableById_run in HW. destruct (rejects h _); discriminate.
Qed.

Lemma resolve_terminates_in n : forall V m vis,
  In V (Figma.variables h) -> size (hostIds h ∖ vis) < n ->
  terminates (resolveVariableValue_rec math n V m vis h).
Proof.
  induction n as [|n IH]; intros V m vis Hin Hsize; [lia|].
  destruct (decide (Var.id V ∈ vis)) as [Hvis|Hfresh].
  { rewrite resolve_unfold. destruct (decide _); [discriminate|done]. }
  apply resolve_step_terminates. intros W t HinW. apply IH; [done|].
  pose proof (remaining_decreases V vis Hin Hfresh). lia.
Qed.

Lemma resolve_terminates_any n V m vis :
  size (hostIds h ∖ vis) + 1 < n ->
  terminates (resolveVariableValue_rec math n V m vis h).
Proof.
  destruct n as [|n]; [lia|]. intros Hsize.
  apply resolve_step_terminates. intros W t HinW.
  apply resolve_terminates_in; [done|].
  pose proof (difference_monotone (hostIds h) vis (Var.id V)). lia.
Qed.

(** No resolution exhausts [resolveFuel]. *)
Lemma resolveVariableValue_terminates V m vis :
  terminates (resolveVariableValue math V m vis h).
Proof.
  unfold resolveVariableValue. apply resolve_terminates_any.
  unfold resolveFuel.
  pose proof hostIds_size.
  pose proof (difference_bounded (hostIds h) vis). lia.
Qed.

(** A host that rejects no query makes no resolution throw. *)
Lemma resolve_never_throws n : forall V m vis e,
  (forall q, rejects h q = None) ->
  outcome (resolveVariableValue_rec math n V m vis h) <> Throw e.
Proof.
  induction n as [|n IH]; intros V m vis e Hok; [discriminate|].
  rewrite resolve_unfold.
  destruct (decide _); [discriminate|]. cbn zeta.
  destruct (_ !! _) as [value|]; [|discriminate].
  destruct (negb _); [discriminate|].
  destruct value as [| |s| |id]; try discriminate.
  { destruct (test_hex_color s); discriminate. }
  rewrite bind_run, variableById_run, Hok.
  destruct (List.find _ (Figma.variables h)) as [W|]; [|discriminate].
  rewrite outcome_after, bind_run, variableCollectionById_run, Hok.
  destruct (List.find _ (Figma.collections h)) as [C|]; [|discriminate].
  rewrite outcome_after, bind_run.
  assert (exists ev t, selectTargetMode V m C h = (ev, Return t)) as (ev & t & ->).
  { unfold selectTargetMode.
    destruct (findModeNamed "light" (Collection.modes C)),
      (findModeNamed "dark" (Collection.modes C));
      try (destruct (Collection.modes C) as [|? [|]]; by eexists _, _).
    rewrite bind_run, variableCollectionById_run, Hok. by eexists _, _. }
  rewrite outcome_after. by apply IH.
Qed.

Lemma resolveVariableValue_returns V m vis :
  (forall q, rejects h q = None) -> returns (resolveVariableValue math V m vis h).
Proof.
  intros Hok. unfold returns.
  pose proof (resolveVariableValue_terminates V m vis) as Hterm.
  pose proof (fun e => resolve_never_throws (resolveFuel h) V m vis e Hok) as Hthrow.
  unfold terminates, resolveVariableValue in *.
  destruct (outcome _) as [a|e|]; [by exists a|by destruct (Hthrow e)|done].
Qed.

(** The guard: a variable already visited resolves to [null] at once,
    with no query and no further call. *)
Lemma resolve_visited n V m vis :
  Var.id V ∈ vis -> resolveVariableValue_rec math (S n) V m vis h = ([], Return (None, vis)).
Proof. intros Hin. rewrite resolve_unfold. by destruct (decide _). Qed.

(** A call that returns leaves the id of its variable in [visited], and
    removes nothing from it. *)
Lemma resolve_adds_visited n : forall V m vis ev r vis',
  resolveVariableValue_rec math n V m vis h = (ev, Return (r, vis')) ->
  {[Var.id V]} ∪ vis ⊆ vis'.
Proof.
  induction n as [|n IH]; intros V m vis ev r vis'; [discriminate|].
  rewrite resolve_unfold.
  destruct (decide _) as [Hin|Hfresh]; [intros [= <- <- <-]; set_solver|]. cbn zeta.
  destruct (_ !! _) as [value|]; [|by intros [= <- <- <-]].
  destruct (negb _); [by intros [= <- <- <-]|].
  destruct value as [| |s| |id]; try by intros [= <- <- <-].
  { destruct (test_hex_color s); by intros [= <- <- <-]. }
  rewrite bind_run.
  destruct (variableById id h) as [ev1 [[W|]|e|]]; try discriminate;
    [|by intros [= <- <- <-]].
  rewrite bind_run.
  destruct (variableCollectionById _ h) as [ev2 [[C|]|e|]]; try discriminate;
    [|by intros [= <- <- <-]].
  rewrite bind_run.
  destruct (selectTargetMode V m C h) as [ev3 [t|e|]]; try discriminate.
  destruct (resolveVariableValue_rec math n W t _ h) as [ev4 [[r4 vis4]|e|]] eqn:Hrec;
    try discriminate.
  intros [= <- <- <-]. apply IH in Hrec. set_solver.
Qed.

(** Within one collection whose modes have distinct ids and distinct
    names, an alias is followed in the mode it was read in. *)
Lemma selectTargetMode_same V m C ev :
  variableCollectionById (Var.variableCollectionId V) h = (ev, Return (Some C)) ->
  List.NoDup (List.map Mode.modeId (Collection.modes C)) ->
  List.NoDup (List.map (fun x => toLowerCase (Mode.name x)) (Collection.modes C)) ->
  In m (List.map Mode.modeId (Collection.modes C)) ->
  outcome (selectTargetMode V m C h) = Return m.
Proof.
  intros Hcoll Hids Hnames Hm. unfold selectTargetMode.
  destruct (findModeNamed "light" (Collection.modes C)) as [lightMode|] eqn:Hl;
    [destruct (findModeNamed "dark" (Collection.modes C)) as [darkMode|] eqn:Hd|].
  - rewrite bind_run, Hcoll, outcome_after. cbn.
    apply in_map_iff in Hm as (cm & <- & Hcm).
    destruct (find_exists (fun x => String.eqb (Mode.modeId x) (Mode.modeId cm))
                (Collection.modes C) cm Hcm (String.eqb_refl _)) as [cm' Hfind].
    rewrite Hfind. apply find_In in Hfind as [Hcm' Heq].
    apply String.eqb_eq in Heq.
    assert (cm' = cm) as -> by (eapply (map_injective_on Mode.modeId); eauto).
    apply find_In in Hl as [Hlin Hlname]. apply find_In in Hd as [Hdin Hdname].
    apply String.eqb_eq in Hlname, Hdname.
    destruct (String.eqb (toLowerCase (Mode.name cm)) "light") eqn:E1.
    { apply String.eqb_eq in E1. do 2 f_equal.
      eapply (map_injective_on (fun x => toLowerCase (Mode.name x))); eauto.
      cbn. congruence. }
    destruct (String.eqb (toLowerCase (Mode.name cm)) "dark") eqn:E2; [|done].
    apply String.eqb_eq in E2. do 2 f_equal.
    eapply (map_injective_on (fun x => toLowerCase (Mode.name x))); eauto.
    cbn. congruence.
  - destruct (Collection.modes C) as [|only [|]]; try done.
    cbn in Hm. destruct Hm as [->|[]]. done.
  - destruct (Collection.modes C) as [|only [|]]; try done.
    cbn in Hm. destruct Hm as [->|[]]. done.
Qed.

(** An alias followed in the caller's own mode. *)
Lemma resolve_alias_kept n V W C m vis ev1 ev2 :
  Var.id V ∉ vis ->
  Var.valuesByMode V !! m = Some (VAlias (Var.id W)) ->
  variableById (Var.id W) h = (ev1, Return (Some W)) ->
  variableCollectionById (Var.variableCollectionId W) h = (ev2, Return (Some C)) ->
  outcome (selectTargetMode V m C h) = Return m ->
  outcome (resolveVariableValue_rec math (S n) V m vis h)
  = outcome (resolveVariableValue_rec math n W m ({[Var.id V]} ∪ vis) h).
Proof.
  intros Hfresh Hval HW HC Hsel.
  rewrite resolve_unfold. destruct (decide _); [done|]. cbn zeta.
  rewrite Hval. cbn [truthy negb].
  rewrite bind_run, HW, outcome_after, bind_run, HC, outcome_after, bind_run.
  destruct (selectTargetMode V m C h) as [ev3 o]. cbn in Hsel. subst o.
  by rewrite outcome_after.
Qed.

Lemma two_node_cycle k A B CA CB m evA evB evCA evCB :
  Var.id A <> Var.id B ->
  Var.valuesByMode A !! m = Some (VAlias (Var.id B)) ->
  Var.valuesByMode B !! m = Some (VAlias (Var.id A)) ->
  variableById (Var.id A) h = (evA, Return (Some A)) ->
  variableById (Var.id B) h = (evB, Return (Some B)) ->
  variableCollectionById (Var.variableCollectionId A) h = (evCA, Return (Some CA)) ->
  variableCollectionById (Var.variableCollectionId B) h = (evCB, Return (Some CB)) ->
  outcome (selectTargetMode A m CB h) = Return m ->
  outcome (selectTargetMode B m CA h) = Return m ->
  outcome (resolveVariableValue_rec math (3 + k) A m ∅ h)
  = Return (None, {[Var.id B]} ∪ ({[Var.id A]} ∪ ∅)).
Proof.
  intros Hne HvA HvB HA HB HCA HCB HselA HselB.
  cbn [Nat.add].
  rewrite (resolve_alias_kept _ A B CB m ∅ evB evCB); try done.
  rewrite (resolve_alias_kept _ B A CA m ({[Var.id A]} ∪ ∅) evA evCA);
    try done; try set_solver.
  rewrite resolve_visited; [done|set_solver].
Qed.

End Resolver.

(** C2 as amended.  Resolution terminates on every alias graph, cyclic or
    not.  A variable whose id is in [visited] resolves to [null] at once,
    with no query and no call; the id of the variable is put in [visited]
    before its value is looked at, so [visited] holds it even when the
    value is missing; no resolution exhausts the fuel of the model; and
    on a two-node cycle (A aliases B and B aliases A in the same mode) on
    which the selection of the mode keeps that mode for both aliases, the
    third call meets the id of the first again, so that both A and B
    resolve to [null] within three calls.  The selection keeps the mode
    when the alias stays in one collection whose mode ids are distinct
    and whose mode names are distinct in lower case. *)
Theorem resolve_cycle_guard (math : MathLib) (h : Host) :
  (forall n V m vis,
     Var.id V ∈ vis ->
     resolveVariableValue_rec math (S n) V m vis h = ([], Return (None, vis)))
  /\ (forall n V m vis,
        Var.id V ∉ vis -> Var.valuesByMode V !! m = None ->
        resolveVariableValue_rec math (S n) V m vis h
        = ([], Return (None, {[Var.id V]} ∪ vis)))
  /\ (forall n V m vis ev r vis',
        resolveVariableValue_rec math n V m vis h = (ev, Return (r, vis')) ->
        {[Var.id V]} ∪ vis ⊆ vis')
  /\ (forall V m vis, terminates (resolveVariableValue math V m vis h))
  /\ (forall k A B CA CB m evA evB evCA evCB,
        Var.id A <> Var.id B ->
        Var.valuesByMode A !! m = Some (VAlias (Var.id B)) ->
        Var.valuesByMode B !! m = Some (VAlias (Var.id A)) ->
        variableById (Var.id A) h = (evA, Return (Some A)) ->
        variableById (Var.id B) h = (evB, Return (Some B)) ->
        variableCollectionById (Var.variableCollectionId A) h = (evCA, Return (Some CA)) ->
        variableCollectionById (Var.variableCollectionId B) h = (evCB, Return (Some CB)) ->
        outcome (selectTargetMode A m CB h) = Return m ->
        outcome (selectTargetMode B m CA h) = Return m ->
        outcome (resolveVariableValue_rec math (3 + k) A m ∅ h)
        = Return (None, {[Var.id B]} ∪ ({[Var.id A]} ∪ ∅))
        /\ outcome (resolveVariableValue_rec math (3 + k) B m ∅ h)
           = Return (None, {[Var.id A]} ∪ ({[Var.id B]} ∪ ∅))
        /\ value_of (resolveVariableValue math A m ∅ h) = None
        /\ value_of (resolveVariableValue math B m ∅ h) = None)
  /\ (forall V m C ev,
        variableCollectionById (Var.variableCollectionId V) h = (ev, Return (Some C)) ->
        List.NoDup (List.map Mode.modeId (Collection.modes C)) ->
        List.NoDup (List.map (fun x => toLowerCase (Mode.name x)) (Collection.modes C)) ->
        In m (List.map Mode.modeId (Collection.modes C)) ->
        outcome (selectTargetMode V m C h) = Return m).
Proof.
  split; [intros; by apply resolve_visited|].
  split.
  { intros n V m vis Hfresh Hnone. rewrite resolve_unfold.
    destruct (decide _); [done|]. cbn zeta. by rewrite Hnone. }
  split; [intros n V m vis ev r vis'; apply resolve_adds_visited|].
  split; [apply resolveVariableValue_terminates|].
  split; [|intros V m C ev; apply selectTargetMode_same].
  intros k A B CA CB m evA evB evCA evCB Hne HvA HvB HA HB HCA HCB HselA HselB.
  assert (exists k', resolveFuel h = 3 + k') as [k' Hfuel].
  { unfold resolveFuel. apply variableById_In in HA as [Hin _].
    destruct (Figma.variables h) as [|v l]; [destruct Hin|]. exists (List.length l). done. }
  assert (forall j, outcome (resolveVariableValue_rec math (3 + j) A m ∅ h)
                    = Return (None, {[Var.id B]} ∪ ({[Var.id A]} ∪ ∅))) as HresA.
  { intros j. eapply two_node_cycle; eauto. }
  assert (forall j, outcome (resolveVariableValue_rec math (3 + j) B m ∅ h)
                    = Return (None, {[Var.id A]} ∪ ({[Var.id B]} ∪ ∅))) as HresB.
  { intros j. eapply two_node_cycle; eauto. }
  split; [apply HresA|]. split; [apply HresB|].
  unfold value_of, resolveVariableValue. rewrite Hfuel, HresA, HresB. done.
Qed.

(** C2, counterexample.  The modes [7:0] and [7:1] of [caseModes] are
    both named light in lower case.  [ping] and [pong] alias each other
    in mode [7:1]; either alias is followed in mode [7:0], the first that
    is named so, where the other variable holds a color. *)
Lemma cycle_across_mode_names_resolves :
  Var.valuesByMode Scenarios.ping !! "7:1" = Some (VAlias (Var.id Scenarios.pong))
  /\ Var.valuesByMode Scenarios.pong !! "7:1" = Some (VAlias (Var.id Scenarios.ping))
  /\ value_of (resolveVariableValue RefMath.lib Scenarios.ping "7:1" ∅ Scenarios.caseCycle)
     = Some "oklch(0 0 0)"
  /\ value_of (resolveVariableValue RefMath.lib Scenarios.pong "7:1" ∅ Scenarios.caseCycle)
     = Some "oklch(1 0 0)".
Proof. repeat split; vm_compute; reflexivity. Qed.

Section ModeCorrelation.
Variable math : MathLib.
Variable h : Host.

(** What a call does when the value is an alias whose variable and
    collection the host returns. *)
Lemma resolve_alias n V m vis wid W CW ev1 ev2 :
  Var.id V ∉ vis ->
  Var.valuesByMode V !! m = Some (VAlias wid) ->
  variableById wid h = (ev1, Return (Some W)) ->
  variableCollectionById (Var.variableCollectionId W) h = (ev2, Return (Some CW)) ->
  resolveVariableValue_rec math (S n) V m vis h
  = after (ev1 ++ ev2)
      ((targetModeId ← selectTargetMode V m CW;
        resolveVariableValue_rec math n W targetModeId ({[Var.id V]} ∪ vis)) h).
Proof.
  intros Hfresh Hval HW HC.
  rewrite resolve_unfold. destruct (decide _); [done|]. cbn zeta.
  rewrite Hval. cbn [truthy negb].
  by rewrite bind_run, HW, bind_run, HC, after_app.
Qed.

(** Lines 153 to 162: both modes exist in the aliased collection. *)
Lemma selectTargetMode_named V m CW CV lightMode darkMode currentMode ev3 :
  findModeNamed "light" (Collection.modes CW) = Some lightMode ->
  findModeNamed "dark" (Collection.modes CW) = Some darkMode ->
  variableCollectionById (Var.variableCollectionId V) h = (ev3, Return (Some CV)) ->
  List.find (fun x => String.eqb (Mode.modeId x) m) (Collection.modes CV) = Some currentMode ->
  selectTargetMode V m CW h
  = (ev3, Return (if String.eqb (toLowerCase (Mode.name currentMode)) "light"
                  then Mode.modeId lightMode
                  else if String.eqb (toLowerCase (Mode.name currentMode)) "dark"
                  then Mode.modeId darkMode
                  else m)).
Proof.
  intros Hl Hd HCV Hcur. unfold selectTargetMode.
  rewrite Hl, Hd, bind_run, HCV, Hcur. unfold after. cbn. by rewrite app_nil_r.
Qed.

(** Lines 163 to 167: the aliased collection has exactly one mode. *)
Lemma selectTargetMode_single V m CW only :
  Collection.modes CW = [only] ->
  selectTargetMode V m CW h = ([], Return (Mode.modeId only)).
Proof.
  intros Hmodes. unfold selectTargetMode, findModeNamed. rewrite Hmodes. cbn.
  destruct (String.eqb (toLowerCase (Mode.name only)) "light") eqn:E1;
    destruct (String.eqb (toLowerCase (Mode.name only)) "dark") eqn:E2; try reflexivity.
  apply String.eqb_eq in E1, E2. rewrite E1 in E2. discriminate.
Qed.

(** A hex string that passes the format guard is a terminal value. *)
Lemma resolve_hex n V m vis hex :
  Var.id V ∉ vis ->
  Var.valuesByMode V !! m = Some (VString hex) ->
  test_hex_color hex = true ->
  resolveVariableValue_rec math (S n) V m vis h
  = ([], Return (Some (hexToOklch math hex), {[Var.id V]} ∪ vis)).
Proof.
  intros Hfresh Hval Hguard.
  rewrite resolve_unfold. destruct (decide _); [done|]. cbn zeta.
  rewrite Hval, Hguard.
  destruct hex; [discriminate|reflexivity].
Qed.

End ModeCorrelation.

(** C1.  When the value of V at mode M is an alias to W and the
    collection of W has modes named light and dark (in any letter case),
    the alias is followed by mode name: if M is named light in the
    collection of V, the call on W uses the id of the light mode of W's
    collection; if it is named dark, the id of the dark mode.  In the
    dark case, when W holds a hex string at that dark mode id, the value
    of V is the conversion of that string, whatever W holds at its light
    mode or at M. *)
Theorem resolve_correlates_by_name (math : MathLib) (h : Host) n V m vis wid W CW CV
    lightMode darkMode currentMode ev1 ev2 ev3 :
  Var.id V ∉ vis ->
  Var.valuesByMode V !! m = Some (VAlias wid) ->
  variableById wid h = (ev1, Return (Some W)) ->
  variableCollectionById (Var.variableCollectionId W) h = (ev2, Return (Some CW)) ->
  findModeNamed "light" (Collection.modes CW) = Some lightMode ->
  findModeNamed "dark" (Collection.modes CW) = Some darkMode ->
  variableCollectionById (Var.variableCollectionId V) h = (ev3, Return (Some CV)) ->
  List.find (fun x => String.eqb (Mode.modeId x) m) (Collection.modes CV) = Some currentMode ->
  (toLowerCase (Mode.name currentMode) = "light" ->
   resolveVariableValue_rec math (S (S n)) V m vis h
   = after (ev1 ++ ev2 ++ ev3)
       (resolveVariableValue_rec math (S n) W (Mode.modeId lightMode) ({[Var.id V]} ∪ vis) h))
  /\ (toLowerCase (Mode.name currentMode) = "dark" ->
      resolveVariableValue_rec math (S (S n)) V m vis h
      = after (ev1 ++ ev2 ++ ev3)
          (resolveVariableValue_rec math (S n) W (Mode.modeId darkMode) ({[Var.id V]} ∪ vis) h)
      /\ forall hex,
           Var.id W ∉ {[Var.id V]} ∪ vis ->
           Var.valuesByMode W !! Mode.modeId darkMode = Some (VString hex) ->
           test_hex_color hex = true ->
           value_of (resolveVariableValue_rec math (S (S n)) V m vis h)
           = Some (hexToOklch math hex)).
Proof.
  intros Hfresh Hval HW HCW Hl Hd HCV Hcur.
  pose proof (resolve_alias math h (S n) V m vis wid W CW ev1 ev2 Hfresh Hval HW HCW) as Hstep.
  rewrite bind_run in Hstep.
  rewrite (selectTargetMode_named h V m CW CV lightMode darkMode currentMode ev3 Hl Hd HCV Hcur)
    in Hstep.
  rewrite after_app, <- app_assoc in Hstep.
  split.
  - intros Hname. rewrite Hstep, Hname. reflexivity.
  - intros Hname.
    assert (resolveVariableValue_rec math (S (S n)) V m vis h
            = after (ev1 ++ ev2 ++ ev3)
                (resolveVariableValue_rec math (S n) W (Mode.modeId darkMode)
                   ({[Var.id V]} ∪ vis) h)) as Hdark.
    { rewrite Hstep, Hname. reflexivity. }
    split; [exact Hdark|].
    intros hex HfreshW HvalW Hguard.
    rewrite Hdark, (resolve_hex math h n W _ _ hex HfreshW HvalW Hguard). reflexivity.
Qed.

(** [primary] aliases [themePrimary]; the dark mode of [Mode] is "1:1",
    the dark mode of [Theme] is "2:0". *)
Lemma resolve_correlates_by_name_witness :
  value_of (resolveVariableValue_rec RefMath.lib 2 Examples.primary "1:1" ∅ Examples.design)
  = Some (hexToOklch RefMath.lib "#f8fafc").
Proof.
  refine (proj2
    (proj2 (resolve_correlates_by_name RefMath.lib Examples.design 0
              Examples.primary "1:1" ∅ "VariableID:2:2" Examples.themePrimary
              Examples.themeCollection Examples.modeCollection
              (Examples.mode "2:1" "Light") (Examples.mode "2:0" "Dark")
              (Examples.mode "1:1" "Dark")
              [Asked (getVariableByIdAsync "VariableID:2:2")]
              [Asked (getVariableCollectionByIdAsync "VariableCollectionId:2:1")]
              [Asked (getVariableCollectionByIdAsync "VariableCollectionId:1:1")]
              _ _ _ _ _ _ _ _) _) "#f8fafc" _ _ _); try reflexivity.
  - set_solver.
  - cbn. set_solver.
Defined.

(** C4.  When the value of V at the requested mode is an alias to a
    variable whose collection has exactly one mode, the alias is followed
    in that mode: the call on W receives the id of the single mode, the
    caller's mode id plays no part, and the collection of V is not even
    asked for. *)
Theorem resolve_single_mode (math : MathLib) (h : Host) n V m vis wid W CW only ev1 ev2 :
  Var.id V ∉ vis ->
  Var.valuesByMode V !! m = Some (VAlias wid) ->
  variableById wid h = (ev1, Return (Some W)) ->
  variableCollectionById (Var.variableCollectionId W) h = (ev2, Return (Some CW)) ->
  Collection.modes CW = [only] ->
  resolveVariableValue_rec math (S n) V m vis h
  = after (ev1 ++ ev2)
      (resolveVariableValue_rec math n W (Mode.modeId only) ({[Var.id V]} ∪ vis) h).
Proof.
  intros Hfresh Hval HW HCW Hmodes.
  rewrite (resolve_alias math h n V m vis wid W CW ev1 ev2 Hfresh Hval HW HCW).
  rewrite bind_run, (selectTargetMode_single h V m CW only Hmodes). by rewrite after_nil.
Qed.

(** [ring] aliases [slate] of the single-mode [Palette]: the light and the
    dark resolution both follow the alias in mode "3:0". *)
Lemma resolve_single_mode_witness :
  resolveVariableValue_rec RefMath.lib 2 Examples.ring "1:1" ∅ Examples.design
  = after [Asked (getVariableByIdAsync "VariableID:3:2");
           Asked (getVariableCollectionByIdAsync "VariableCollectionId:3:1")]
      (resolveVariableValue_rec RefMath.lib 1 Examples.slate "3:0"
         ({[Var.id Examples.ring]} ∪ ∅) Examples.design).
Proof.
  apply (resolve_single_mode RefMath.lib Examples.design 1 Examples.ring "1:1" ∅
           "VariableID:3:2" Examples.slate Examples.paletteCollection
           (Examples.mode "3:0" "Value")
           [Asked (getVariableByIdAsync "VariableID:3:2")]
           [Asked (getVariableCollectionByIdAsync "VariableCollectionId:3:1")]);
    try reflexivity.
  set_solver.
Defined.

(** C10 as amended.  A string of ['#'] and four or five hexadecimal
    digits passes the format guard and resolves to a string, not to
    [null].  With four digits the blue channel is read from the empty
    string, it is NaN, and the result is [oklch(NaN NaN NaN)].  With five
    digits [#abcde] the blue channel is read from the fifth digit alone:
    it is a number, and the result is the conversion of the six-digit
    color [#abcd0e]. *)
Theorem resolve_short_hex (math : MathLib) (h : Host) n V m vis (a b c d e : ascii) :
  nan_laws math ->
  Var.id V ∉ vis ->
  is_hex_digit a = true -> is_hex_digit b = true -> is_hex_digit c = true ->
  is_hex_digit d = true -> is_hex_digit e = true ->
  let four := String "#" (String a (String b (String c (String d EmptyString)))) in
  let five := String "#" (String a (String b (String c (String d (String e EmptyString))))) in
  let six :=
    String "#" (String a (String b (String c (String d (String "0" (String e EmptyString)))))) in
  test_hex_color four = true
  /\ test_hex_color five = true
  /\ (Var.valuesByMode V !! m = Some (VString four) ->
      channel (expandHex four) 4 6 = NaN
      /\ resolveVariableValue_rec math (S n) V m vis h
         = ([], Return (Some "oklch(NaN NaN NaN)", {[Var.id V]} ∪ vis)))
  /\ (Var.valuesByMode V !! m = Some (VString five) ->
      channel (expandHex five) 4 6 <> NaN
      /\ resolveVariableValue_rec math (S n) V m vis h
         = ([], Return (Some (hexToOklch math six), {[Var.id V]} ∪ vis))).
Proof.
  intros Hlaws Hfresh Ha Hb Hc Hd He four five six.
  assert (test_hex_color four = true) as Hfour.
  { apply test_hex_color_digits; [|reflexivity..]. cbn. by rewrite Ha, Hb, Hc, Hd. }
  assert (test_hex_color five = true) as Hfive.
  { apply test_hex_color_digits; [|reflexivity..]. cbn. by rewrite Ha, Hb, Hc, Hd, He. }
  split; [exact Hfour|]. split; [exact Hfive|]. split.
  - intros Hval. split.
    + unfold four, expandHex. cbn [remove_first]. by rewrite Ascii.eqb_refl.
    + rewrite (resolve_hex math h n V m vis four Hfresh Hval Hfour).
      unfold four. by rewrite (hexToOklch_four math a b c d Hlaws).
  - intros Hval. destruct (hexToOklch_five math a b c d e He) as [Hsame Hnum].
    split; [exact Hnum|].
    rewrite (resolve_hex math h n V m vis five Hfresh Hval Hfive).
    unfold five, six. by rewrite Hsame.
Qed.

(** [accent] holds [#1234] in the dark mode of the example document. *)
Lemma resolve_short_hex_witness :
  resolveVariableValue_rec RefMath.lib 1 Examples.accent "1:1" ∅ Examples.design
  = ([], Return (Some "oklch(NaN NaN NaN)", {[Var.id Examples.accent]} ∪ ∅)).
Proof.
  refine (proj2 (proj1 (proj2 (proj2
    (resolve_short_hex RefMath.lib Examples.design 0 Examples.accent "1:1" ∅
       "1" "2" "3" "4" "5" RefMath_nan_laws _ _ _ _ _ _))) _)); try reflexivity.
  set_solver.
Defined.

(** C10, counterexample.  [accent] holds [#12345] in the light mode: the
    blue channel is 5/255, not NaN, and the resolution returns a
    well-formed color, that of [#123405]. *)
Lemma five_digits_resolve_to_a_color :
  test_hex_color "#12345" = true
  /\ channel (expandHex "#12345") 4 6 = (5 / 255)%num
  /\ value_of (resolveVariableValue_rec RefMath.lib 1 Examples.accent "1:0" ∅ Examples.design)
     = Some "oklch(0.289 0.083 138.6)".
Proof. repeat split; vm_compute; reflexivity. Qed.

(** The cycle [card] and [popover] of the example document. *)
Lemma resolve_cycle_guard_witness :
  outcome (resolveVariableValue_rec RefMath.lib 3 Examples.card "1:1" ∅ Examples.design)
  = Return (None, {[Var.id Examples.popover]} ∪ ({[Var.id Examples.card]} ∪ ∅))
  /\ value_of (resolveVariableValue RefMath.lib Examples.popover "1:1" ∅ Examples.design) = None.
Proof.
  destruct (resolve_cycle_guard RefMath.lib Examples.design) as (_ & _ & _ & _ & Hcycle & _).
  destruct (Hcycle 0 Examples.card Examples.popover Examples.modeCollection
              Examples.modeCollection "1:1"
              [Asked (getVariableByIdAsync "VariableID:1:5")]
              [Asked (getVariableByIdAsync "VariableID:1:6")]
              [Asked (getVariableCollectionByIdAsync "VariableCollectionId:1:1")]
              [Asked (getVariableCollectionByIdAsync "VariableCollectionId:1:1")])
    as (HA & _ & _ & HB); try reflexivity.
  - discriminate.
  - split; [exact HA | exact HB].
Defined.

End ResolverProperties.

(** ** The export run *)
Module ExportProperties.
Import JsString JsNumber Math Color Figma Plugin Spec ResolverProperties.
Local Open Scope nat_scope.
#[local] Set Warnings "-clear-no-such-hyp".

Lemma posted_app (e1 e2 : list Event) : posted (e1 ++ e2) = posted e1 ++ posted e2.
Proof. unfold posted. apply omap_app. Qed.

Lemma hexToOklch_truthy math hex : truthy_result (Some (hexToOklch math hex)) = true.
Proof.
  unfold hexToOklch, formatOklch. cbn zeta.
  destruct (ltb _ _); reflexivity.
Qed.

Lemma replace_all_no_slash (s : string) :
  all_chars (fun c => negb (Ascii.eqb c "/")) (replace_all "/" "-" s) = true.
Proof.
  induction s as [|a s IH]; cbn; [done|].
  rewrite IH, andb_true_r. destruct (Ascii.eqb a "/") eqn:E; [done|by rewrite E].
Qed.

Lemma replace_all_name_chars (s : string) :
  all_chars is_name_char (replace_all "/" "-" s)
  = all_chars (fun c => is_name_char c || Ascii.eqb c "/") s.
Proof.
  induction s as [|a s IH]; cbn; [done|].
  rewrite IH. destruct (Ascii.eqb a "/") eqn:E.
  - by rewrite orb_true_r.
  - by rewrite orb_false_r.
Qed.

Section ExportRun.
Variable math : MathLib.
Variable h : Host.

(** A resolution asks the host and posts nothing. *)
Lemma resolve_posts_nothing n : forall V m vis,
  posted (events (resolveVariableValue_rec math n V m vis h)) = [].
Proof.
  induction n as [|n IH]; intros V m vis; [done|].
  rewrite resolve_unfold.
  destruct (decide _); [done|]. cbn zeta.
  destruct (_ !! _) as [value|]; [|done].
  destruct (negb _); [done|].
  destruct value as [| |s| |id]; try done.
  { by destruct (test_hex_color s). }
  rewrite bind_run, variableById_run.
  destruct (rejects h _); [done|].
  destruct (List.find _ (Figma.variables h)) as [W|]; [|done].
  rewrite events_after, bind_run, variableCollectionById_run.
  destruct (rejects h _); [done|].
  destruct (List.find _ (Figma.collections h)) as [C|]; [|done].
  rewrite events_after, bind_run.
  assert (posted (events (selectTargetMode V m C h)) = []) as Hsel.
  { unfold selectTargetMode.
    destruct (findModeNamed "light" (Collection.modes C)),
      (findModeNamed "dark" (Collection.modes C));
      try (by destruct (Collection.modes C) as [|? [|]]).
    rewrite bind_run, variableCollectionById_run. by destruct (rejects h _). }
  destruct (selectTargetMode V m C h) as [ev [t|e|]];
    change (posted ev = []) in Hsel.
  - rewrite events_after, !posted_app, Hsel. cbn. apply IH.
  - unfold events. cbn [fst]. by rewrite !posted_app, Hsel.
  - unfold events. cbn [fst]. by rewrite !posted_app, Hsel.
Qed.

(** A color a resolution returns is never the empty string. *)
Lemma resolve_truthy n : forall V m vis ev s vis',
  resolveVariableValue_rec math n V m vis h = (ev, Return (Some s, vis')) ->
  truthy_result (Some s) = true.
Proof.
  induction n as [|n IH]; intros V m vis ev s vis'; [discriminate|].
  rewrite resolve_unfold.
  destruct (decide _); [discriminate|]. cbn zeta.
  destruct (_ !! _) as [value|]; [|discriminate].
  destruct (negb _); [discriminate|].
  destruct value as [| |hex|r g b|id]; try discriminate.
  { destruct (test_hex_color hex); [|discriminate].
    intros [= _ <- _]. apply hexToOklch_truthy. }
  { intros [= _ <- _]. apply hexToOklch_truthy. }
  rewrite bind_run.
  destruct (variableById id h) as [ev1 [[W|]|e|]]; try discriminate.
  rewrite bind_run.
  destruct (variableCollectionById _ h) as [ev2 [[C|]|e|]]; try discriminate.
  rewrite bind_run.
  destruct (selectTargetMode V m C h) as [ev3 [t|e|]]; try discriminate.
  destruct (resolveVariableValue_rec math n W t _ h) as [ev4 [[r4 vis4]|e|]] eqn:Hrec;
    try discriminate.
  intros [= _ -> _]. by eapply IH.
Qed.

Lemma resolveVariableValue_truthy V m vis ev s vis' :
  resolveVariableValue math V m vis h = (ev, Return (Some s, vis')) ->
  truthy_result (Some s) = true.
Proof. unfold resolveVariableValue. apply resolve_truthy. Qed.

(** One turn of the loop: both resolutions run, in this order, and the
    entry of the candidate, if any, is appended. *)
Lemma processVariables_cons lm dm v rest processed :
  processVariables math lm dm (v :: rest) processed h =
  match resolveVariableValue math v lm ∅ h with
  | (evl, Return _) =>
      after evl
        match resolveVariableValue math v dm ∅ h with
        | (evd, Return _) =>
            after evd
              (processVariables math lm dm rest
                 (processed ++ match entry math h lm dm v with
                               | Some pv => [pv]
                               | None => []
                               end) h)
        | (evd, Throw e) => (evd, Throw e)
        | (evd, OutOfFuel) => (evd, OutOfFuel)
        end
  | (evl, Throw e) => (evl, Throw e)
  | (evl, OutOfFuel) => (evl, OutOfFuel)
  end.
Proof.
  cbn [processVariables]. rewrite bind_run. unfold entry.
  destruct (resolveVariableValue math v lm ∅ h) as [evl [[lv visl]|e|]] eqn:Hl;
    [|done..].
  f_equal. rewrite bind_run.
  destruct (resolveVariableValue math v dm ∅ h) as [evd [[dv visd]|e|]] eqn:Hd;
    [|done..].
  f_equal. unfold value_of. cbn [outcome snd fst].
  destruct lv as [light|]; [|by rewrite app_nil_r].
  rewrite (resolveVariableValue_truthy _ _ _ _ _ _ Hl).
  destruct dv as [dark|]; [|by rewrite app_nil_r].
  rewrite (resolveVariableValue_truthy _ _ _ _ _ _ Hd).
  reflexivity.
Qed.

Lemma processVariables_returns lm dm : forall vars processed out,
  outcome (processVariables math lm dm vars processed h) = Return out ->
  out = processed ++ omap (entry math h lm dm) vars
  /\ forall v, In v vars ->
       returns (resolveVariableValue math v lm ∅ h)
       /\ returns (resolveVariableValue math v dm ∅ h).
Proof.
  induction vars as [|v rest IH]; intros processed out.
  - cbn. intros [= <-]. by rewrite app_nil_r.
  - rewrite processVariables_cons. unfold returns.
    destruct (resolveVariableValue math v lm ∅ h) as [evl [lr|e|]] eqn:Hl;
      try discriminate.
    rewrite outcome_after.
    destruct (resolveVariableValue math v dm ∅ h) as [evd [dr|e|]] eqn:Hd;
      try discriminate.
    rewrite outcome_after. intros Hout. apply IH in Hout as [-> Hall].
    split.
    + cbn [omap list_omap]. destruct (entry math h lm dm v); cbn.
      * by rewrite <- app_assoc.
      * by rewrite app_nil_r.
    + intros v' [<-|Hin]; [|by apply Hall].
      rewrite Hl, Hd. split; eexists; reflexivity.
Qed.

Lemma processVariables_total lm dm : forall vars processed,
  (forall v, In v vars ->
     returns (resolveVariableValue math v lm ∅ h)
     /\ returns (resolveVariableValue math v dm ∅ h)) ->
  outcome (processVariables math lm dm vars processed h)
  = Return (processed ++ omap (entry math h lm dm) vars).
Proof.
  induction vars as [|v rest IH]; intros processed Hall.
  - cbn. by rewrite app_nil_r.
  - rewrite processVariables_cons.
    destruct (Hall v (or_introl eq_refl)) as [[lr Hl] [dr Hd]].
    destruct (resolveVariableValue math v lm ∅ h) as [evl ol]. cbn in Hl. subst ol.
    rewrite outcome_after.
    destruct (resolveVariableValue math v dm ∅ h) as [evd od]. cbn in Hd. subst od.
    rewrite outcome_after, IH; [|intros v' Hin; apply Hall; by right].
    cbn [omap list_omap]. destruct (entry math h lm dm v); cbn.
    + by rewrite <- app_assoc.
    + by rewrite app_nil_r.
Qed.

Lemma processVariables_terminates lm dm : forall vars processed,
  terminates (processVariables math lm dm vars processed h).
Proof.
  unfold terminates.
  induction vars as [|v rest IH]; intros processed; [discriminate|].
  rewrite processVariables_cons.
  pose proof (resolveVariableValue_terminates math h v lm ∅) as Hl.
  pose proof (resolveVariableValue_terminates math h v dm ∅) as Hd.
  unfold terminates in Hl, Hd.
  destruct (resolveVariableValue math v lm ∅ h) as [evl [lr|e|]]; [|discriminate|done].
  rewrite outcome_after.
  destruct (resolveVariableValue math v dm ∅ h) as [evd [dr|e|]]; [|discriminate|done].
  rewrite outcome_after. apply IH.
Qed.

Lemma processVariables_posts_nothing lm dm : forall vars processed,
  posted (events (processVariables math lm dm vars processed h)) = [].
Proof.
  induction vars as [|v rest IH]; intros processed; [done|].
  rewrite processVariables_cons.
  pose proof (resolve_posts_nothing (resolveFuel h) v lm ∅) as Hl.
  pose proof (resolve_posts_nothing (resolveFuel h) v dm ∅) as Hd.
  fold (resolveVariableValue math v lm ∅ h) in Hl.
  fold (resolveVariableValue math v dm ∅ h) in Hd.
  destruct (resolveVariableValue math v lm ∅ h) as [evl [lr|e|]];
    change (posted evl = []) in Hl; [|done..].
  rewrite events_after, posted_app, Hl.
  destruct (resolveVariableValue math v dm ∅ h) as [evd [dr|e|]];
    change (posted evd = []) in Hd; [|done..].
  rewrite events_after, posted_app, Hd. apply IH.
Qed.

Lemma findModeCollection_run :
  findModeCollection h =
  ([Asked getLocalVariableCollectionsAsync],
   match rejects h getLocalVariableCollectionsAsync with
   | Some e => Throw e
   | None =>
       match modeCollections h with
       | [] => Throw noModeCollection
       | first :: _ => Return first
       end
   end).
Proof.
  unfold findModeCollection. rewrite bind_run.
  unfold localVariableCollections, await, modeCollections.
  destruct (rejects h _); [done|].
  by destruct (List.filter _ (List.filter _ (collections h))).
Qed.

(** The run of [processSemanticVariables] once the collection and its
    two modes are found and the variables are read. *)
Lemma processSemanticVariables_run :
  processSemanticVariables math h =
  match findModeCollection h with
  | (ev, Return modeCollection) =>
      after ev
        match findModeNamed "light" (Collection.modes modeCollection),
              findModeNamed "dark" (Collection.modes modeCollection) with
        | Some lightMode, Some darkMode =>
            match rejects h (getLocalVariablesAsync "COLOR") with
            | Some e => ([Asked (getLocalVariablesAsync "COLOR")], Throw e)
            | None =>
                after [Asked (getLocalVariablesAsync "COLOR")]
                  match processVariables math (Mode.modeId lightMode) (Mode.modeId darkMode)
                          (candidates h modeCollection) [] h with
                  | (ev', Return []) => (ev', Throw noValidVariables)
                  | (ev', Return processedVariables) =>
                      (ev', Return {| variables := processedVariables;
                                      collectionName := Collection.name modeCollection |})
                  | (ev', Throw e) => (ev', Throw e)
                  | (ev', OutOfFuel) => (ev', OutOfFuel)
                  end
            end
        | _, _ => ([], Throw (missingModes modeCollection))
        end
  | (ev, Throw e) => (ev, Throw e)
  | (ev, OutOfFuel) => (ev, OutOfFuel)
  end.
Proof.
  unfold processSemanticVariables. rewrite bind_run.
  destruct (findModeCollection h) as [ev [modeCollection|e|]]; [|done..].
  f_equal.
  destruct (findModeNamed "light" _) as [lightMode|]; [|done].
  destruct (findModeNamed "dark" _) as [darkMode|]; [|done].
  rewrite bind_run. unfold localVariables, await.
  destruct (rejects h _); [done|]. f_equal.
  rewrite bind_run. fold (candidates h modeCollection).
  destruct (processVariables _ _ _ _ _ h) as [ev' [[|pv pvs]|e|]]; try done.
  - unfold after. cbn. by rewrite app_nil_r.
  - unfold after. cbn. by rewrite app_nil_r.
Qed.

Lemma processSemanticVariables_posts_nothing :
  posted (events (processSemanticVariables math h)) = [].
Proof.
  rewrite processSemanticVariables_run, findModeCollection_run.
  destruct (rejects h _); [done|].
  destruct (modeCollections h) as [|modeCollection ?]; [done|].
  rewrite events_after, posted_app. cbn [posted omap list_omap app].
  destruct (findModeNamed "light" _) as [lightMode|]; [|done].
  destruct (findModeNamed "dark" _) as [darkMode|]; [|done].
  destruct (rejects h _); [done|].
  rewrite events_after, posted_app. cbn [posted omap list_omap app].
  pose proof (processVariables_posts_nothing (Mode.modeId lightMode) (Mode.modeId darkMode)
                (candidates h modeCollection) []) as Hloop.
  destruct (processVariables _ _ _ _ _ h) as [ev' [[|pv pvs]|e|]]; exact Hloop.
Qed.

Lemma processSemanticVariables_terminates : terminates (processSemanticVariables math h).
Proof.
  unfold terminates.
  rewrite processSemanticVariables_run, findModeCollection_run.
  destruct (rejects h _); [done|].
  destruct (modeCollections h) as [|modeCollection ?]; [done|].
  rewrite outcome_after.
  destruct (findModeNamed "light" _) as [lightMode|]; [|done].
  destruct (findModeNamed "dark" _) as [darkMode|]; [|done].
  destruct (rejects h _); [done|].
  rewrite outcome_after.
  pose proof (processVariables_terminates (Mode.modeId lightMode) (Mode.modeId darkMode)
                (candidates h modeCollection) []) as Hloop.
  unfold terminates in Hloop.
  destruct (processVariables _ _ _ _ _ h) as [ev' [[|pv pvs]|e|]]; done.
Qed.

(** What an export that returns has in it. *)
Lemma processSemanticVariables_returns result :
  outcome (processSemanticVariables math h) = Return result ->
  exists modeCollection others lightMode darkMode,
    modeCollections h = modeCollection :: others
    /\ findModeNamed "light" (Collection.modes modeCollection) = Some lightMode
    /\ findModeNamed "dark" (Collection.modes modeCollection) = Some darkMode
    /\ variables result
       = omap (entry math h (Mode.modeId lightMode) (Mode.modeId darkMode))
           (candidates h modeCollection)
    /\ collectionName result = Collection.name modeCollection.
Proof.
  rewrite processSemanticVariables_run, findModeCollection_run.
  destruct (rejects h _); [done|].
  destruct (modeCollections h) as [|modeCollection others]; [done|].
  rewrite outcome_after.
  destruct (findModeNamed "light" _) as [lightMode|] eqn:Hl; [|done].
  destruct (findModeNamed "dark" _) as [darkMode|] eqn:Hd; [|done].
  destruct (rejects h _); [done|].
  rewrite outcome_after.
  pose proof (processVariables_returns (Mode.modeId lightMode) (Mode.modeId darkMode)
                (candidates h modeCollection) []) as Hloop.
  destruct (processVariables _ _ _ _ _ h) as [ev' [[|pv pvs]|e|]]; try done.
  intros [= <-]. destruct (Hloop _ eq_refl) as [Hout _].
  exists modeCollection, others, lightMode, darkMode.
  repeat split; done.
Qed.

Lemma main_run :
  main math h =
  match processSemanticVariables math h with
  | (ev, Return result) =>
      (ev ++ [Posted (ExportComplete (generateShadcnCSS result)
                        (List.length (variables result)) (collectionName result))],
       Return tt)
  | (ev, Throw error) =>
      match reported error with
      | Some message => (ev ++ [Posted message], Return tt)
      | None => (ev, Throw (typeError error))
      end
  | (ev, OutOfFuel) => (ev, OutOfFuel)
  end.
Proof.
  unfold main, try_catch. rewrite bind_run.
  destruct (processSemanticVariables math h) as [ev [result|e|]]; try reflexivity.
  destruct e as [[[|c text]]| | |]; cbn; rewrite bind_run; cbn; by rewrite ?app_nil_r.
Qed.

End ExportRun.

(** C5.  The loop appends an entry for a candidate if and only if its
    light and its dark resolution both return a color.  When every
    resolution of the loop returns, the loop returns the entries of those
    candidates, in the order of the candidates: a candidate with a [null]
    resolution adds nothing, neither a partial nor a placeholder entry,
    and the loop goes on with the next candidate.  The variables of an
    export that returns are these entries for the candidates of the
    collection chosen. *)
Theorem process_keeps_resolved_only (math : MathLib) (h : Host)
    (lightModeId darkModeId : string) (baseVariables : list Var.t)
    (processed : list ProcessedVariable) :
  ((forall v, In v baseVariables ->
      returns (resolveVariableValue math v lightModeId ∅ h)
      /\ returns (resolveVariableValue math v darkModeId ∅ h)) ->
   outcome (processVariables math lightModeId darkModeId baseVariables processed h)
   = Return (processed ++ omap (entry math h lightModeId darkModeId) baseVariables))
  /\ (forall out,
        outcome (processVariables math lightModeId darkModeId baseVariables processed h)
        = Return out ->
        out = processed ++ omap (entry math h lightModeId darkModeId) baseVariables)
  /\ (forall pv,
        In pv (omap (entry math h lightModeId darkModeId) baseVariables) <->
        exists v light dark,
          In v baseVariables
          /\ value_of (resolveVariableValue math v lightModeId ∅ h) = Some light
          /\ value_of (resolveVariableValue math v darkModeId ∅ h) = Some dark
          /\ pv = {| name := Var.name v;
                     cleanName := replace_all "/" "-" (substring_from 5 (Var.name v));
                     lightValue := light;
                     darkValue := dark |})
  /\ (forall v,
        value_of (resolveVariableValue math v lightModeId ∅ h) = None
        \/ value_of (resolveVariableValue math v darkModeId ∅ h) = None ->
        entry math h lightModeId darkModeId v = None)
  /\ (forall result,
        outcome (processSemanticVariables math h) = Return result ->
        exists modeCollection others lightMode darkMode,
          modeCollections h = modeCollection :: others
          /\ findModeNamed "light" (Collection.modes modeCollection) = Some lightMode
          /\ findModeNamed "dark" (Collection.modes modeCollection) = Some darkMode
          /\ variables result
             = omap (entry math h (Mode.modeId lightMode) (Mode.modeId darkMode))
                 (candidates h modeCollection)
          /\ collectionName result = Collection.name modeCollection).
Proof.
  split; [by apply processVariables_total|].
  split; [intros out Hout; by apply processVariables_returns in Hout as [? _]|].
  split; [|split].
  - intros pv. rewrite <- list_elem_of_In, list_elem_of_omap. split.
    + intros (v & Hin & Hentry). apply list_elem_of_In in Hin.
      unfold entry in Hentry.
      destruct (value_of (resolveVariableValue math v lightModeId ∅ h)) as [light|] eqn:Hl;
        [|discriminate].
      destruct (value_of (resolveVariableValue math v darkModeId ∅ h)) as [dark|] eqn:Hd;
        [|discriminate].
      injection Hentry as <-. by exists v, light, dark.
    + intros (v & light & dark & Hin & Hl & Hd & ->). exists v.
      split; [by apply list_elem_of_In|]. unfold entry. by rewrite Hl, Hd.
  - intros v [Hnone|Hnone]; unfold entry; rewrite Hnone; [done|].
    by destruct (value_of (resolveVariableValue math v lightModeId ∅ h)).
  - apply processSemanticVariables_returns.
Qed.

(** The candidates of the example document: six of the ten resolve in
    both modes. *)
Lemma process_keeps_resolved_only_witness :
  outcome (processVariables RefMath.lib "1:0" "1:1"
             (candidates Examples.design Examples.modeCollection) [] Examples.design)
  = Return ([] ++ omap (entry RefMath.lib Examples.design "1:0" "1:1")
                    (candidates Examples.design Examples.modeCollection)).
Proof.
  apply (proj1 (process_keeps_resolved_only RefMath.lib Examples.design "1:0" "1:1"
                  (candidates Examples.design Examples.modeCollection) [])).
  intros v _. split; by apply resolveVariableValue_returns.
Defined.

(** C6 as amended.  The clean name of an exported variable is its name
    without the first five characters, the prefix [base/], with every
    slash replaced by a hyphen.  It has no slash; every other character of
    the name is kept as it is, so the clean name lies within
    [[A-Za-z0-9-]] exactly when the name after the prefix lies within
    [[A-Za-z0-9/-]]. *)
Theorem cleanName_flattens_name (math : MathLib) (h : Host) result pv :
  outcome (processSemanticVariables math h) = Return result ->
  In pv (variables result) ->
  startsWith "base/" (name pv) = true
  /\ cleanName pv = replace_all "/" "-" (substring_from 5 (name pv))
  /\ all_chars (fun c => negb (Ascii.eqb c "/")) (cleanName pv) = true
  /\ all_chars is_name_char (cleanName pv)
     = all_chars (fun c => is_name_char c || Ascii.eqb c "/") (substring_from 5 (name pv)).
Proof.
  intros Hret Hin.
  apply processSemanticVariables_returns in Hret
    as (modeCollection & others & lightMode & darkMode & _ & _ & _ & Hvars & _).
  rewrite Hvars in Hin.
  apply list_elem_of_In, list_elem_of_omap in Hin as (v & Hv & Hentry).
  unfold entry in Hentry.
  destruct (value_of _) as [light|]; [|discriminate].
  destruct (value_of _) as [dark|]; [|discriminate].
  injection Hentry as <-. cbn [name cleanName].
  apply list_elem_of_In in Hv. unfold candidates in Hv.
  apply List.filter_In in Hv as [_ Hbase].
  split; [done|]. split; [done|].
  split; [apply replace_all_no_slash|apply replace_all_name_chars].
Qed.

Lemma cleanName_flattens_name_witness :
  cleanName {| name := "base/sidebar primary/v1.5";
               cleanName := "sidebar primary-v1.5";
               lightValue := "oklch(0.985 0 0)";
               darkValue := "oklch(0.21 0.006 285.8)" |}
  = replace_all "/" "-" (substring_from 5 "base/sidebar primary/v1.5").
Proof.
  refine (proj1 (proj2
    (cleanName_flattens_name RefMath.lib Examples.design
       {| variables := exported (processSemanticVariables RefMath.lib Examples.design);
          collectionName := "Mode" |}
       {| name := "base/sidebar primary/v1.5";
          cleanName := "sidebar primary-v1.5";
          lightValue := "oklch(0.985 0 0)";
          darkValue := "oklch(0.21 0.006 285.8)" |} _ _))).
  - vm_compute. reflexivity.
  - vm_compute. tauto.
Defined.

(** C6, counterexample.  The example document exports [base/sidebar
    primary/v1.5]: its clean name has a space and a dot. *)
Lemma cleanName_outside_name_chars :
  List.map cleanName (exported (processSemanticVariables RefMath.lib Examples.design))
  = ["background"; "primary"; "ring"; "sidebar primary-v1.5"; "accent"; "muted"]
  /\ all_chars is_name_char "sidebar primary-v1.5" = false.
Proof. split; vm_compute; reflexivity. Qed.

(** The end-to-end scenario: [base/background] is [#ffffff] in the light
    mode and [#020817] in the dark mode. *)
Example export_of_the_example_document :
  match posted (events (main RefMath.lib Examples.design)) with
  | [ExportComplete css variableCount collectionName] =>
      includes ("  --color-background: var(--background);" +:+ nl) css
      && includes (":root {" +:+ nl +:+ "  --radius: 0.625rem;" +:+ nl
                   +:+ "  --background: oklch(1 0 0);" +:+ nl) css
      && includes (".dark {" +:+ nl +:+ "  --background: oklch(0.136 0.036 259.2);" +:+ nl) css
      && (variableCount =? 6) && String.eqb collectionName "Mode"
  | _ => false
  end = true.
Proof. vm_compute. reflexivity. Qed.

(** C7 as amended.  A run of [main] in which the export does not throw
    [null] or [undefined] ends normally and posts exactly one message:
    [export-complete] with the stylesheet, the number of variables and
    the collection name when the export returns; [error] when it throws,
    with the message of the thrown value when that is a string that is
    not empty, and the fixed text [Unknown error occurred] when the
    message is empty or the value has none. *)
Theorem main_posts_exactly_one (math : MathLib) (h : Host) :
  throws_nullish (processSemanticVariables math h) = false ->
  outcome (main math h) = Return tt
  /\ exists message,
       posted (events (main math h)) = [message]
       /\ match outcome (processSemanticVariables math h) with
          | Return result =>
              message = ExportComplete (generateShadcnCSS result)
                          (List.length (variables result)) (collectionName result)
          | Throw (ThrownError error) =>
              message = ErrorMessage
                          match Figma.message error with
                          | EmptyString => "Unknown error occurred"
                          | text => text
                          end
          | Throw _ => message = ErrorMessage "Unknown error occurred"
          | OutOfFuel => False
          end.
Proof.
  intros Hvalue. rewrite main_run.
  pose proof (processSemanticVariables_posts_nothing math h) as Hposts.
  pose proof (processSemanticVariables_terminates math h) as Hterm.
  unfold terminates in Hterm. unfold throws_nullish in Hvalue.
  destruct (processSemanticVariables math h) as [ev [result|error|]];
    change (posted ev = []) in Hposts; [| |done].
  - split; [done|]. eexists. split; [|reflexivity].
    unfold events. cbn [fst]. by rewrite posted_app, Hposts.
  - cbn in Hvalue.
    destruct error as [error| | |]; try discriminate; cbn [reported];
      (split; [done|]); eexists; (split; [|reflexivity]);
      unfold events; cbn [fst]; by rewrite posted_app, Hposts.
Qed.

(** The variable query of [offline] rejects with an [Error]: its message
    is the one message posted. *)
Lemma main_posts_exactly_one_witness :
  outcome (main RefMath.lib Examples.offline) = Return tt
  /\ posted (events (main RefMath.lib Examples.offline))
     = [ErrorMessage "Network request failed"].
Proof.
  destruct (main_posts_exactly_one RefMath.lib Examples.offline) as (Hreturns & m & Hposted & Hm);
    [reflexivity|].
  split; [exact Hreturns|]. rewrite Hposted. cbn in Hm. by rewrite Hm.
Defined.

(** C7, counterexample.  The first query rejects with an error whose
    message is empty: the text posted is not that message. *)
Lemma main_replaces_empty_message :
  outcome (processSemanticVariables RefMath.lib Examples.silentFailure)
  = Throw {| message := EmptyString |}
  /\ posted (events (main RefMath.lib Examples.silentFailure))
     = [ErrorMessage "Unknown error occurred"].
Proof. split; vm_compute; reflexivity. Qed.

(** The run the amended statement leaves out: the first query rejects
    with [undefined], the catch block fails on reading [message], and
    nothing is posted. *)
Example main_posts_nothing_on_undefined :
  posted (events (main RefMath.lib Scenarios.rejectsUndefined)) = []
  /\ outcome (main RefMath.lib Scenarios.rejectsUndefined) = Throw (typeError ThrownUndefined).
Proof. split; vm_compute; reflexivity. Qed.

(** C8.  When the local collections are enumerated and none has a name
    that contains "mode" in any letter case, the export throws the error
    that tells so; the only query made is the enumeration of the
    collections, so no variable is read, and [main] posts that error. *)
Theorem no_mode_collection_fails_first (math : MathLib) (h : Host) :
  rejects h getLocalVariableCollectionsAsync = None ->
  modeCollections h = [] ->
  processSemanticVariables math h
  = ([Asked getLocalVariableCollectionsAsync], Throw noModeCollection)
  /\ main math h
     = ([Asked getLocalVariableCollectionsAsync;
         Posted (ErrorMessage (message noModeCollection))], Return tt)
  /\ existsb reads_variable (events (main math h)) = false.
Proof.
  intros Hok Hnone.
  assert (processSemanticVariables math h
          = ([Asked getLocalVariableCollectionsAsync], Throw noModeCollection)) as Hrun.
  { by rewrite processSemanticVariables_run, findModeCollection_run, Hok, Hnone. }
  split; [exact Hrun|].
  assert (main math h
          = ([Asked getLocalVariableCollectionsAsync;
              Posted (ErrorMessage (message noModeCollection))], Return tt)) as Hmain.
  { rewrite main_run, Hrun. reflexivity. }
  split; [exact Hmain|]. rewrite Hmain. reflexivity.
Qed.

Lemma no_mode_collection_fails_first_witness :
  main RefMath.lib Examples.themeOnly
  = ([Asked getLocalVariableCollectionsAsync;
      Posted (ErrorMessage (message noModeCollection))], Return tt).
Proof.
  apply (no_mode_collection_fails_first RefMath.lib Examples.themeOnly); reflexivity.
Defined.

End ExportProperties.

(** ** Further properties of the converter *)
Module ConverterFacts.
Import JsString JsNumber Math Color Layout ColorProperties.


Lemma hex_digit_ok_all (c : ascii) : hex_digit_ok c = true.
Proof. destruct c as [[|] [|] [|] [|] [|] [|] [|] [|]]; vm_compute; reflexivity. Qed.

Lemma hex_digit_facts (c : ascii) :
  is_hex_digit c = true ->
  is_hex_digit (lower_char c) = true
  /\ digit_value 16 (lower_char c) = digit_value 16 c
  /\ (exists v, digit_value 16 c = Some v)
  /\ is_space c = false
  /\ c <> "-"%char /\ c <> "+"%char /\ c <> "#"%char
  /\ Ascii.eqb "x" c = false /\ Ascii.eqb "X" c = false.
Proof.
  intros Hc. pose proof (hex_digit_ok_all c) as Hok. unfold hex_digit_ok in Hok.
  rewrite Hc in Hok. cbn [implb] in Hok.
  repeat (apply andb_true_iff in Hok as [Hok ?]).
  destruct (digit_value 16 c) as [v|], (digit_value 16 (lower_char c)) as [w|];
    try discriminate.
  repeat split; try done.
  - f_equal. symmetry. by apply Z.eqb_eq.
  - by exists v.
  - by apply negb_true_iff.
  - intros ->. discriminate.
  - intros ->. discriminate.
  - intros ->. discriminate.
  - by apply negb_true_iff.
  - by apply negb_true_iff.
Qed.

Lemma read_sign_plain (c : ascii) (r : string) :
  c <> "-"%char -> c <> "+"%char -> read_sign (String c r) = (false, String c r).
Proof.
  intros Hm Hp.
  destruct c as [[|] [|] [|] [|] [|] [|] [|] [|]]; try reflexivity; congruence.
Qed.

(** [parseInt] of a string of hexadecimal digits reads them all. *)
Lemma parseInt16_digits (s : string) :
  all_chars is_hex_digit s = true ->
  parseInt16 s =
  match read_digits 16 s 0 O with
  | (_, O, _) => NaN
  | (v, _, _) => if v =? 0 then S754_zero false else ofZ v
  end.
Proof.
  destruct s as [|c r]; [reflexivity|]. cbn [all_chars].
  intros [Hc Hr]%andb_true_iff.
  destruct (hex_digit_facts c Hc) as (_ & _ & _ & Hsp & Hm & Hp & _ & _ & _).
  unfold parseInt16. cbn [trim_start]. rewrite Hsp, (read_sign_plain c r Hm Hp).
  assert (startsWith "0x" (String c r) || startsWith "0X" (String c r) = false) as ->.
  { destruct r as [|d r']; cbn [startsWith].
    - by rewrite !andb_false_r.
    - cbn [all_chars] in Hr. apply andb_true_iff in Hr as [Hd _].
      destruct (hex_digit_facts d Hd) as (_ & _ & _ & _ & _ & _ & _ & Hx & HX).
      by rewrite Hx, HX, !andb_false_r. }
  destruct (read_digits 16 (String c r) 0 0) as [[v [|n]] rest]; [reflexivity|].
  by destruct (v =? 0).
Qed.

Lemma all_chars_lower (s : string) :
  all_chars is_hex_digit s = true -> all_chars is_hex_digit (toLowerCase s) = true.
Proof.
  induction s as [|c r IH]; cbn [all_chars toLowerCase]; [done|].
  intros [Hc Hr]%andb_true_iff.
  destruct (hex_digit_facts c Hc) as (Hl & _). by rewrite Hl, IH.
Qed.

Lemma read_digits_lower (s : string) : forall acc count,
  all_chars is_hex_digit s = true ->
  read_digits 16 (toLowerCase s) acc count = read_digits 16 s acc count.
Proof.
  induction s as [|c r IH]; intros acc count; cbn [all_chars toLowerCase read_digits]; [done|].
  intros [Hc Hr]%andb_true_iff.
  destruct (hex_digit_facts c Hc) as (_ & -> & [v ->] & _). by apply IH.
Qed.

Lemma parseInt16_lower (s : string) :
  all_chars is_hex_digit s = true -> parseInt16 (toLowerCase s) = parseInt16 s.
Proof.
  intros Hs.
  rewrite (parseInt16_digits s Hs), (parseInt16_digits _ (all_chars_lower s Hs)).
  by rewrite read_digits_lower.
Qed.

Lemma substring_lower (s : string) : forall n m,
  String.substring n m (toLowerCase s) = toLowerCase (String.substring n m s).
Proof.
  induction s as [|c r IH]; intros [|n] [|m]; cbn; rewrite ?IH; done.
Qed.

Lemma all_chars_substring (p : ascii -> bool) (s : string) : forall n m,
  all_chars p s = true -> all_chars p (String.substring n m s) = true.
Proof.
  induction s as [|c r IH]; intros [|n] [|m]; cbn; try done;
    intros [Hc Hr]%andb_true_iff; rewrite ?Hc; by apply IH.
Qed.

Lemma length_lower (s : string) : String.length (toLowerCase s) = String.length s.
Proof. induction s as [|c r IH]; cbn; [done|]. by rewrite IH. Qed.


Lemma doubled_cons (c : ascii) (r : string) :
  doubled (String c r) = String c (String c (doubled r)).
Proof. reflexivity. Qed.

Lemma doubled_lower (s : string) : doubled (toLowerCase s) = toLowerCase (doubled s).
Proof.
  induction s as [|c r IH]; [done|].
  cbn [toLowerCase]. rewrite !doubled_cons. cbn [toLowerCase]. by rewrite IH.
Qed.

Lemma all_chars_doubled (p : ascii -> bool) (s : string) :
  all_chars p s = true -> all_chars p (doubled s) = true.
Proof.
  induction s as [|c r IH]; [done|]. rewrite doubled_cons. cbn [all_chars].
  intros [Hc Hr]%andb_true_iff. by rewrite Hc, IH.
Qed.

Lemma expandHex_hash (digits : string) :
  expandHex (String "#" digits)
  = if (String.length digits =? 3)%nat then doubled digits else digits.
Proof. unfold expandHex. cbn [remove_first]. by rewrite Ascii.eqb_refl. Qed.

Lemma channel_lower (s : string) (from to : nat) :
  all_chars is_hex_digit s = true ->
  channel (toLowerCase s) from to = channel s from to.
Proof.
  intros Hs. unfold channel, slice.
  rewrite substring_lower, parseInt16_lower; [done|].
  by apply all_chars_substring.
Qed.

(** X1.  The converter reads hexadecimal digits in either letter case:
    a string of ['#'] and hexadecimal digits converts as the same string
    in lower case, for any length and any [Math] library. *)
Theorem hexToOklch_case_insensitive (math : MathLib) (digits : string) :
  all_chars is_hex_digit digits = true ->
  hexToOklch math (String "#" (toLowerCase digits)) = hexToOklch math (String "#" digits).
Proof.
  intros Hd. unfold hexToOklch. rewrite !expandHex_hash, length_lower.
  destruct (String.length digits =? 3)%nat.
  - rewrite doubled_lower.
    by rewrite !channel_lower by (by apply all_chars_doubled).
  - by rewrite !channel_lower.
Qed.

Lemma hexToOklch_case_insensitive_witness :
  hexToOklch RefMath.lib "#f8fafc" = hexToOklch RefMath.lib "#F8FaFC".
Proof.
  apply (hexToOklch_case_insensitive RefMath.lib "F8FaFC"). reflexivity.
Defined.

Lemma remove_first_absent (c : ascii) (s : string) :
  all_chars (fun a => negb (Ascii.eqb a c)) s = true -> remove_first c s = s.
Proof.
  induction s as [|a r IH]; cbn; [done|].
  intros [Ha Hr]%andb_true_iff. apply negb_true_iff in Ha. by rewrite Ha, IH.
Qed.

(** X2.  The sign ['#'] is optional for the converter: a string without
    any ['#'] converts as the string with one ['#'] in front.  (The
    resolver, for its part, only passes strings that start with the
    sign.) *)
Theorem hexToOklch_sign_optional (math : MathLib) (digits : string) :
  all_chars (fun a => negb (Ascii.eqb a "#")) digits = true ->
  hexToOklch math digits = hexToOklch math (String "#" digits).
Proof.
  intros Hd. unfold hexToOklch, expandHex. cbn [remove_first].
  by rewrite Ascii.eqb_refl, (remove_first_absent "#" digits Hd).
Qed.

Lemma hexToOklch_sign_optional_witness :
  hexToOklch RefMath.lib "abc" = hexToOklch RefMath.lib "#abc".
Proof. apply (hexToOklch_sign_optional RefMath.lib "abc"). reflexivity. Defined.


Lemma byte_ok_all (k : Z) : 0 <= k <= 255 -> byte_ok k = true.
Proof.
  intros Hk.
  assert (forallb (fun i => byte_ok (Z.of_nat i)) (List.seq 0 256) = true) as Hall
    by (vm_compute; reflexivity).
  rewrite forallb_forall in Hall. specialize (Hall (Z.to_nat k)).
  rewrite Z2Nat.id in Hall by lia. apply Hall, in_seq. lia.
Qed.

Lemma byte_round_trip (k : Z) :
  0 <= k <= 255 ->
  toHex (byteChannel k) = hexByte k
  /\ all_chars is_hex_digit (hexByte k) = true
  /\ (parseInt16 (hexByte k) / 255)%num = byteChannel k.
Proof.
  intros Hk. pose proof (byte_ok_all k Hk) as Hok. unfold byte_ok in Hok.
  apply andb_true_iff in Hok as [[H1 H2]%andb_true_iff H3].
  split; [by apply String.eqb_eq|]. split; [done|].
  destruct (parseInt16 (hexByte k) / 255)%num as [a| | |a m e],
    (byteChannel k) as [b| | |b m' e']; try discriminate.
  - by apply Bool.eqb_prop in H3 as ->.
  - apply andb_true_iff in H3 as [[Ha Hm]%andb_true_iff He].
    apply Bool.eqb_prop in Ha as ->. apply Pos.eqb_eq in Hm as ->.
    by apply Z.eqb_eq in He as ->.
Qed.

(** X3.  An RGB value with eight-bit channels survives the detour
    through the hex string: [figmaRgbToHex] writes the three bytes as six
    lower-case digits after ['#'], the string passes the format guard, and
    [hexToOklch] reads the same three channels back, so that the
    conversion of the string is the conversion of the RGB value. *)
Theorem figmaRgbToHex_round_trip (math : MathLib) (r g b : Z) :
  0 <= r <= 255 -> 0 <= g <= 255 -> 0 <= b <= 255 ->
  let hex := figmaRgbToHex (byteChannel r) (byteChannel g) (byteChannel b) in
  hex = "#" +:+ hexByte r +:+ hexByte g +:+ hexByte b
  /\ test_hex_color hex = true
  /\ channel (expandHex hex) 0 2 = byteChannel r
  /\ channel (expandHex hex) 2 4 = byteChannel g
  /\ channel (expandHex hex) 4 6 = byteChannel b
  /\ hexToOklch math hex
     = formatOklch (rgbToOklch math (byteChannel r) (byteChannel g) (byteChannel b)).
Proof.
  intros Hr Hg Hb hex.
  destruct (byte_round_trip r Hr) as (Hr1 & Hr2 & Hr3).
  destruct (byte_round_trip g Hg) as (Hg1 & Hg2 & Hg3).
  destruct (byte_round_trip b Hb) as (Hb1 & Hb2 & Hb3).
  assert (hex = "#" +:+ hexByte r +:+ hexByte g +:+ hexByte b) as Hhex.
  { unfold hex, figmaRgbToHex. by rewrite Hr1, Hg1, Hb1. }
  unfold hexByte in *. cbn [all_chars] in Hr2, Hg2, Hb2.
  apply andb_true_iff in Hr2 as [Hr2 [Hr2' _]%andb_true_iff].
  apply andb_true_iff in Hg2 as [Hg2 [Hg2' _]%andb_true_iff].
  apply andb_true_iff in Hb2 as [Hb2 [Hb2' _]%andb_true_iff].
  split; [exact Hhex|]. rewrite Hhex.
  set (r1 := hexDigit (r / 16)) in *. set (r2 := hexDigit (r mod 16)) in *.
  set (g1 := hexDigit (g / 16)) in *. set (g2 := hexDigit (g mod 16)) in *.
  set (b1 := hexDigit (b / 16)) in *. set (b2 := hexDigit (b mod 16)) in *.
  change ("#" +:+ String r1 (String r2 EmptyString) +:+ String g1 (String g2 EmptyString)
          +:+ String b1 (String b2 EmptyString))
    with (String "#" (String r1 (String r2 (String g1 (String g2 (String b1 (String b2
            EmptyString))))))).
  split.
  { apply test_hex_color_digits; [|reflexivity..].
    cbn [all_chars]. by rewrite Hr2, Hr2', Hg2, Hg2', Hb2, Hb2'. }
  rewrite expandHex_long.
  assert (channel (String r1 (String r2 (String g1 (String g2 (String b1 (String b2
            EmptyString)))))) 0 2 = byteChannel r) as H1 by exact Hr3.
  assert (channel (String r1 (String r2 (String g1 (String g2 (String b1 (String b2
            EmptyString)))))) 2 4 = byteChannel g) as H2 by exact Hg3.
  assert (channel (String r1 (String r2 (String g1 (String g2 (String b1 (String b2
            EmptyString)))))) 4 6 = byteChannel b) as H3 by exact Hb3.
  repeat (split; [assumption|]).
  unfold hexToOklch. by rewrite expandHex_long, H1, H2, H3.
Qed.

Lemma figmaRgbToHex_round_trip_witness :
  figmaRgbToHex (byteChannel 148) (byteChannel 163) (byteChannel 184) = "#94a3b8".
Proof.
  refine (proj1 (figmaRgbToHex_round_trip RefMath.lib 148 163 184 _ _ _)); lia.
Defined.

End ConverterFacts.

(** ** Further properties of the resolver *)
Module ResolverFacts.
Import JsString JsNumber Math Color Figma Plugin Spec Layout ColorProperties ResolverProperties.
Local Open Scope nat_scope.
#[local] Set Warnings "-clear-no-such-hyp".

Lemma sub_nan_l x : (NaN - x)%num = NaN.
Proof. reflexivity. Qed.

(** A channel that is NaN makes every component NaN. *)
Lemma rgbToOklch_nan (math : MathLib) (r g b : number) :
  nan_laws math ->
  r = NaN \/ g = NaN \/ b = NaN ->
  rgbToOklch math r g b = {| lch_L := NaN; lch_C := NaN; lch_H := NaN |}.
Proof.
  intros Hlaws Hnan. unfold rgbToOklch, xyzToOklab. cbn zeta. cbn [lab_L lab_a lab_b].
  assert (forall l1 l2 l3 : number,
            l1 = NaN \/ l2 = NaN \/ l3 = NaN ->
            forall c1 c2 c3 : number, (c1 * l1 + c2 * l2 + c3 * l3)%num = NaN) as Hrow.
  { intros l1 l2 l3 [->|[->| ->]] c1 c2 c3;
      by rewrite ?mul_nan_r, ?add_nan_r, ?add_nan_l. }
  assert (gammaToLinear math r = NaN \/ gammaToLinear math g = NaN
          \/ gammaToLinear math b = NaN) as Hlin.
  { destruct Hnan as [->|[->| ->]]; rewrite (gammaToLinear_nan math Hlaws); auto. }
  rewrite !(Hrow _ _ _ Hlin).
  rewrite !mul_nan_r, ?add_nan_r, ?sub_nan_r, ?add_nan_l, ?sub_nan_l.
  rewrite !(cbrt_nan math Hlaws).
  rewrite !mul_nan_r, ?add_nan_r, ?sub_nan_r, ?add_nan_l, ?sub_nan_l.
  rewrite (sqrt_nan math Hlaws), (atan2_nan_l math Hlaws).
  reflexivity.
Qed.

(** X4.  The converter has no error path: when one of the three slices
    of the expanded text does not start with a hexadecimal digit, its
    channel is NaN and the text returned is [oklch(NaN NaN NaN)]. *)
Theorem hexToOklch_unreadable (math : MathLib) (hex : string) :
  nan_laws math ->
  channel (expandHex hex) 0 2 = NaN \/ channel (expandHex hex) 2 4 = NaN
  \/ channel (expandHex hex) 4 6 = NaN ->
  hexToOklch math hex = "oklch(NaN NaN NaN)".
Proof.
  intros Hlaws Hnan. unfold hexToOklch.
  rewrite (rgbToOklch_nan math _ _ _ Hlaws Hnan). apply formatOklch_nan.
Qed.

Lemma hexToOklch_unreadable_witness :
  hexToOklch RefMath.lib "#12zz56" = "oklch(NaN NaN NaN)".
Proof.
  apply (hexToOklch_unreadable RefMath.lib "#12zz56" RefMath_nan_laws).
  right. left. reflexivity.
Defined.

Lemma append_assoc (a b c : string) : (a +:+ b) +:+ c = a +:+ (b +:+ c).
Proof.
  induction a as [|x a IH]; [reflexivity|].
  change (String x ((a +:+ b) +:+ c) = String x (a +:+ (b +:+ c))). by rewrite IH.
Qed.

Lemma formatOklch_is_oklch (o : Oklch) : is_oklch (formatOklch o).
Proof.
  unfold is_oklch, formatOklch. cbn zeta. destruct (ltb _ _).
  - exists (toString (Number_ (toFixed 3 (lch_L o))) +:+ " 0 0").
    by rewrite append_assoc.
  - exists (toString (Number_ (toFixed 3 (lch_L o))) +:+ " "
            +:+ toString (Number_ (toFixed 3 (lch_C o))) +:+ " "
            +:+ toString (Number_ (toFixed 1 (lch_H o)))).
    by rewrite !append_assoc.
Qed.

Section Facts.
Variable math : MathLib.
Variable h : Host.

Lemma resolve_is_oklch n : forall V m vis ev s vis',
  resolveVariableValue_rec math n V m vis h = (ev, Return (Some s, vis')) -> is_oklch s.
Proof.
  induction n as [|n IH]; intros V m vis ev s vis'; [discriminate|].
  rewrite resolve_unfold.
  destruct (decide _); [discriminate|]. cbn zeta.
  destruct (_ !! _) as [value|]; [|discriminate].
  destruct (negb _); [discriminate|].
  destruct value as [| |hex|r g b|id]; try discriminate.
  { destruct (test_hex_color hex); [|discriminate].
    intros [= _ <- _]. apply formatOklch_is_oklch. }
  { intros [= _ <- _]. apply formatOklch_is_oklch. }
  rewrite bind_run.
  destruct (variableById id h) as [ev1 [[W|]|e|]]; try discriminate.
  rewrite bind_run.
  destruct (variableCollectionById _ h) as [ev2 [[C|]|e|]]; try discriminate.
  rewrite bind_run.
  destruct (selectTargetMode V m C h) as [ev3 [t|e|]]; try discriminate.
  destruct (resolveVariableValue_rec math n W t _ h) as [ev4 [[r4 vis4]|e|]] eqn:Hrec;
    try discriminate.
  intros [= _ -> _]. by eapply IH.
Qed.

(** The query of [selectTargetMode], if any, is for the collection of the
    variable. *)
Lemma selectTargetMode_cases V m C :
  (exists t, selectTargetMode V m C h = ([], Return t))
  \/ (exists o, selectTargetMode V m C h
                = ([Asked (getVariableCollectionByIdAsync (Var.variableCollectionId V))], o)
                /\ o <> OutOfFuel
                /\ (forall x ev, variableCollectionById (Var.variableCollectionId V) h
                                 = (ev, Return x) -> exists t, o = Return t)).
Proof.
  unfold selectTargetMode.
  destruct (findModeNamed "light" (Collection.modes C)),
    (findModeNamed "dark" (Collection.modes C));
    try (left; destruct (Collection.modes C) as [|? [|]]; by eexists).
  right. rewrite bind_run, variableCollectionById_run.
  destruct (rejects h _) as [e|].
  - eexists. split; [reflexivity|]. split; [done|]. intros x ev [=].
  - eexists. split; [unfold after; cbn; reflexivity|]. split; [done|].
    intros x ev _. by eexists.
Qed.

End Facts.

(** X5.  What the stylesheet is given for a color is always of the form
    [oklch(...)]: every color a resolution returns has it, and so have the
    light and the dark value of every exported variable. *)
Theorem exported_values_are_oklch (math : MathLib) (h : Host) :
  (forall n V m vis ev s vis',
     resolveVariableValue_rec math n V m vis h = (ev, Return (Some s, vis')) -> is_oklch s)
  /\ (forall result pv,
        outcome (processSemanticVariables math h) = Return result ->
        In pv (variables result) ->
        is_oklch (lightValue pv) /\ is_oklch (darkValue pv)).
Proof.
  split; [intros n; apply resolve_is_oklch|].
  intros result pv Hret Hin.
  apply ExportProperties.processSemanticVariables_returns in Hret
    as (modeCollection & others & lightMode & darkMode & _ & _ & _ & Hvars & _).
  rewrite Hvars in Hin.
  apply list_elem_of_In, list_elem_of_omap in Hin as (v & _ & Hentry).
  unfold entry, value_of, resolveVariableValue in Hentry.
  destruct (resolveVariableValue_rec math _ v (Mode.modeId lightMode) ∅ h)
    as [evl [[[light|] visl]|e|]] eqn:Hl; try discriminate.
  destruct (resolveVariableValue_rec math _ v (Mode.modeId darkMode) ∅ h)
    as [evd [[[dark|] visd]|e|]] eqn:Hd; try discriminate.
  cbn in Hentry. injection Hentry as <-. cbn [lightValue darkValue].
  split; eapply resolve_is_oklch; eauto.
Qed.

(** [background] in a document of its own: both values are of the form. *)
Lemma exported_values_are_oklch_witness :
  Forall (fun pv => is_oklch (lightValue pv) /\ is_oklch (darkValue pv))
    (exported (processSemanticVariables RefMath.lib Scenarios.twoModeCollections)).
Proof.
  apply Forall_forall. intros pv Hin. apply list_elem_of_In in Hin.
  refine (proj2 (exported_values_are_oklch RefMath.lib Scenarios.twoModeCollections)
            {| variables :=
                 exported (processSemanticVariables RefMath.lib Scenarios.twoModeCollections);
               collectionName := "Mode" |} pv _ Hin).
  vm_compute. reflexivity.
Defined.

(** X6.  A value that is neither a color nor an alias resolves to [null]
    without any query: a boolean, a number, or a string that fails the
    format guard, the empty string included. *)
Theorem resolve_unrecognized (math : MathLib) (h : Host) n V m vis value :
  Var.id V ∉ vis ->
  Var.valuesByMode V !! m = Some value ->
  unrecognized value = true ->
  resolveVariableValue_rec math (S n) V m vis h = ([], Return (None, {[Var.id V]} ∪ vis)).
Proof.
  intros Hfresh Hval Hun. rewrite resolve_unfold.
  destruct (decide _); [done|]. cbn zeta. rewrite Hval.
  destruct (negb (truthy value)); [done|].
  destruct value as [| |s| |]; try done.
  cbn in Hun. apply negb_true_iff in Hun. by rewrite Hun.
Qed.

Lemma resolve_unrecognized_witness :
  resolveVariableValue_rec RefMath.lib 1 Scenarios.odd "1:0" ∅ Scenarios.onlyDropped
  = ([], Return (None, {[Var.id Scenarios.odd]} ∪ ∅)).
Proof.
  apply (resolve_unrecognized RefMath.lib Scenarios.onlyDropped 0 Scenarios.odd "1:0" ∅
           (VString "red")); try reflexivity.
  set_solver.
Defined.

(** X7.  An alias that cannot be followed ends the resolution at once.
    When the host has no variable of the id, or no collection for the
    variable it returns, the result is [null]; when one of the two
    queries rejects, the resolution throws the error of the host.  No
    further query is made. *)
Theorem resolve_alias_not_followed (math : MathLib) (h : Host) n V m vis wid ev1 :
  Var.id V ∉ vis ->
  Var.valuesByMode V !! m = Some (VAlias wid) ->
  (variableById wid h = (ev1, Return None) ->
   resolveVariableValue_rec math (S n) V m vis h
   = (ev1, Return (None, {[Var.id V]} ∪ vis)))
  /\ (forall e,
        variableById wid h = (ev1, Throw e) ->
        resolveVariableValue_rec math (S n) V m vis h = (ev1, Throw e))
  /\ (forall W ev2,
        variableById wid h = (ev1, Return (Some W)) ->
        variableCollectionById (Var.variableCollectionId W) h = (ev2, Return None) ->
        resolveVariableValue_rec math (S n) V m vis h
        = (ev1 ++ ev2, Return (None, {[Var.id V]} ∪ vis)))
  /\ (forall W ev2 e,
        variableById wid h = (ev1, Return (Some W)) ->
        variableCollectionById (Var.variableCollectionId W) h = (ev2, Throw e) ->
        resolveVariableValue_rec math (S n) V m vis h = (ev1 ++ ev2, Throw e)).
Proof.
  intros Hfresh Hval.
  assert (resolveVariableValue_rec math (S n) V m vis h
          = (aliasedVariable ← variableById wid;
             match aliasedVariable with
             | None => mret (None, {[Var.id V]} ∪ vis)
             | Some aliasedVariable =>
                 aliasedCollection ←
                   variableCollectionById (Var.variableCollectionId aliasedVariable);
                 match aliasedCollection with
                 | None => mret (None, {[Var.id V]} ∪ vis)
                 | Some aliasedCollection =>
                     targetModeId ← selectTargetMode V m aliasedCollection;
                     resolveVariableValue_rec math n aliasedVariable targetModeId
                       ({[Var.id V]} ∪ vis)
                 end
             end) h) as Hstep.
  { rewrite resolve_unfold. destruct (decide _); [done|]. cbn zeta. by rewrite Hval. }
  rewrite Hstep, bind_run. repeat split.
  - intros ->. unfold after. cbn. by rewrite app_nil_r.
  - by intros e ->.
  - intros W ev2 -> HC. rewrite bind_run, HC. unfold after. cbn. by rewrite app_nil_r.
  - intros W ev2 e -> HC. by rewrite bind_run, HC.
Qed.

Lemma resolve_alias_not_followed_witness :
  resolveVariableValue_rec RefMath.lib 2 Scenarios.dangling "1:0" ∅ Scenarios.onlyDropped
  = ([Asked (getVariableByIdAsync "VariableID:404:0")],
     Return (None, {[Var.id Scenarios.dangling]} ∪ ∅)).
Proof.
  apply (proj1 (resolve_alias_not_followed RefMath.lib Scenarios.onlyDropped 1
                  Scenarios.dangling "1:0" ∅ "VariableID:404:0"
                  [Asked (getVariableByIdAsync "VariableID:404:0")]
                  ltac:(set_solver) eq_refl)).
  reflexivity.
Defined.

End ResolverFacts.

(** ** Cycles, fallbacks and the number of queries *)
Module AliasFacts.
Import JsString JsNumber Math Color Figma Plugin Spec Layout ResolverProperties ResolverFacts.
Local Open Scope nat_scope.
#[local] Set Warnings "-clear-no-such-hyp".

(** X8.  A variable that aliases itself resolves to [null]: the call on
    the aliased variable finds its id in [visited], whatever mode was
    selected for it. *)
Theorem resolve_self_alias (math : MathLib) (h : Host) n V m vis C ev1 ev2 :
  Var.id V ∉ vis ->
  Var.valuesByMode V !! m = Some (VAlias (Var.id V)) ->
  variableById (Var.id V) h = (ev1, Return (Some V)) ->
  variableCollectionById (Var.variableCollectionId V) h = (ev2, Return (Some C)) ->
  outcome (resolveVariableValue_rec math (S (S n)) V m vis h)
  = Return (None, {[Var.id V]} ∪ vis).
Proof.
  intros Hfresh Hval HV HC.
  rewrite (resolve_alias math h (S n) V m vis (Var.id V) V C ev1 ev2 Hfresh Hval HV HC).
  rewrite outcome_after, bind_run.
  destruct (selectTargetMode_cases h V m C) as [[t ->]|(o & -> & _ & Hret)].
  - rewrite outcome_after, resolve_visited; [done|set_solver].
  - destruct (Hret _ _ HC) as [t ->].
    rewrite outcome_after, resolve_visited; [done|set_solver].
Qed.

Lemma resolve_self_alias_witness :
  outcome (resolveVariableValue_rec RefMath.lib 2 Scenarios.selfish "1:1" ∅
             Scenarios.onlyDropped)
  = Return (None, {[Var.id Scenarios.selfish]} ∪ ∅).
Proof.
  apply (resolve_self_alias RefMath.lib Scenarios.onlyDropped 0 Scenarios.selfish "1:1" ∅
           Examples.modeCollection
           [Asked (getVariableByIdAsync "VariableID:1:21")]
           [Asked (getVariableCollectionByIdAsync "VariableCollectionId:1:1")]);
    try reflexivity.
  set_solver.
Defined.

(** X9.  Where the modes cannot be correlated the alias is followed with
    the caller's own mode id: when the aliased collection lacks a light or
    a dark mode and has not exactly one mode, and when it has both but the
    caller's mode, if found in the caller's collection, is named neither
    light nor dark. *)
Theorem resolve_fallback_mode (math : MathLib) (h : Host) n V m vis wid W CW ev1 ev2 :
  Var.id V ∉ vis ->
  Var.valuesByMode V !! m = Some (VAlias wid) ->
  variableById wid h = (ev1, Return (Some W)) ->
  variableCollectionById (Var.variableCollectionId W) h = (ev2, Return (Some CW)) ->
  (findModeNamed "light" (Collection.modes CW) = None
   \/ findModeNamed "dark" (Collection.modes CW) = None ->
   List.length (Collection.modes CW) <> 1 ->
   resolveVariableValue_rec math (S n) V m vis h
   = after (ev1 ++ ev2) (resolveVariableValue_rec math n W m ({[Var.id V]} ∪ vis) h))
  /\ (forall ev3 cv,
        is_Some (findModeNamed "light" (Collection.modes CW)) ->
        is_Some (findModeNamed "dark" (Collection.modes CW)) ->
        variableCollectionById (Var.variableCollectionId V) h = (ev3, Return cv) ->
        (forall c cm,
           cv = Some c ->
           List.find (fun x => String.eqb (Mode.modeId x) m) (Collection.modes c) = Some cm ->
           toLowerCase (Mode.name cm) <> "light" /\ toLowerCase (Mode.name cm) <> "dark") ->
        resolveVariableValue_rec math (S n) V m vis h
        = after (ev1 ++ ev2 ++ ev3)
            (resolveVariableValue_rec math n W m ({[Var.id V]} ∪ vis) h)).
Proof.
  intros Hfresh Hval HW HCW.
  rewrite (resolve_alias math h n V m vis wid W CW ev1 ev2 Hfresh Hval HW HCW), bind_run.
  split.
  - intros Hmissing Hlen.
    assert (selectTargetMode V m CW h = ([], Return m)) as ->.
    { unfold selectTargetMode.
      destruct Hmissing as [-> | ->];
        [|destruct (findModeNamed "light" (Collection.modes CW))];
        by destruct (Collection.modes CW) as [|? [|]]. }
    by rewrite after_nil.
  - intros ev3 cv [lightMode Hl] [darkMode Hd] HCV Hname.
    assert (selectTargetMode V m CW h = (ev3, Return m)) as ->.
    { unfold selectTargetMode. rewrite Hl, Hd, bind_run, HCV.
      unfold after. cbn. rewrite app_nil_r. do 2 f_equal.
      destruct cv as [c|]; [|done].
      destruct (List.find _ (Collection.modes c)) as [cm|] eqn:Hcm; [|done].
      destruct (Hname c cm eq_refl Hcm) as [Hnl Hnd].
      apply String.eqb_neq in Hnl, Hnd. by rewrite Hnl, Hnd. }
    by rewrite after_app, <- app_assoc.
Qed.

(** [compact] aliases [dense] of [Density], which has three modes: the
    alias is followed with "1:0", the light mode id of [Mode]. *)
Lemma resolve_fallback_mode_witness :
  resolveVariableValue_rec RefMath.lib 2 Scenarios.compact "1:0" ∅ Scenarios.onlyDropped
  = after [Asked (getVariableByIdAsync "VariableID:5:2");
           Asked (getVariableCollectionByIdAsync "VariableCollectionId:5:1")]
      (resolveVariableValue_rec RefMath.lib 1 Scenarios.dense "1:0"
         ({[Var.id Scenarios.compact]} ∪ ∅) Scenarios.onlyDropped).
Proof.
  apply (proj1 (resolve_fallback_mode RefMath.lib Scenarios.onlyDropped 1 Scenarios.compact
                  "1:0" ∅ "VariableID:5:2" Scenarios.dense Scenarios.densityCollection
                  [Asked (getVariableByIdAsync "VariableID:5:2")]
                  [Asked (getVariableCollectionByIdAsync "VariableCollectionId:5:1")]
                  ltac:(set_solver) eq_refl eq_refl eq_refl)).
  - left. reflexivity.
  - discriminate.
Defined.

Section Queries.
Variable math : MathLib.
Variable h : Host.

Lemma selectTargetMode_events V m C :
  forallb is_lookup (events (selectTargetMode V m C h)) = true
  /\ List.length (events (selectTargetMode V m C h)) <= 1.
Proof.
  destruct (selectTargetMode_cases h V m C) as [[t ->]|(o & -> & _)]; cbn; split; done || lia.
Qed.

(** The queries of a call: look-ups only, at most three for each id that
    is yet to visit. *)
Lemma resolve_queries n : forall V m vis,
  forallb is_lookup (events (resolveVariableValue_rec math n V m vis h)) = true
  /\ (In V (Figma.variables h) ->
      List.length (events (resolveVariableValue_rec math n V m vis h))
      <= 3 * size (hostIds h ∖ vis))
  /\ List.length (events (resolveVariableValue_rec math n V m vis h))
     <= 3 + 3 * size (hostIds h ∖ vis).
Proof.
  induction n as [|n IH]; intros V m vis.
  { cbn. repeat split; lia. }
  rewrite resolve_unfold.
  destruct (decide _) as [Hin|Hfresh]; [cbn; repeat split; lia|]. cbn zeta.
  destruct (_ !! _) as [value|]; [|cbn; repeat split; lia].
  destruct (negb _); [cbn; repeat split; lia|].
  destruct value as [| |s| |id]; try (cbn; repeat split; lia).
  { destruct (test_hex_color s); cbn; repeat split; lia. }
  assert (forall evs : list Event,
            forallb is_lookup evs = true ->
            List.length evs <= 3 ->
            forallb is_lookup evs = true
            /\ (In V (Figma.variables h) -> List.length evs <= 3 * size (hostIds h ∖ vis))
            /\ List.length evs <= 3 + 3 * size (hostIds h ∖ vis)) as Hshort.
  { intros evs Hl Hlen. split; [done|]. split; [|lia].
    intros HinV. pose proof (remaining_decreases h V vis HinV Hfresh). lia. }
  rewrite bind_run, variableById_run.
  destruct (rejects h _); [by apply Hshort; cbn; try lia|].
  destruct (List.find _ (Figma.variables h)) as [W|] eqn:HW;
    [|by apply Hshort; cbn; try lia].
  apply find_In in HW as [HinW _].
  rewrite bind_run, variableCollectionById_run.
  destruct (rejects h _); [by apply Hshort; cbn; try lia|].
  destruct (List.find _ (Figma.collections h)) as [C|];
    [|by apply Hshort; cbn; try lia].
  rewrite bind_run.
  destruct (selectTargetMode_events V m C) as [Hsl Hsn].
  destruct (selectTargetMode V m C h) as [ev3 [t|e|]];
    unfold events in Hsl, Hsn; cbn [fst] in Hsl, Hsn.
  - destruct (IH W t ({[Var.id V]} ∪ vis)) as (Hl & Hb & _). specialize (Hb HinW).
    rewrite !events_after. cbn [after fst snd events].
    set (rec := resolveVariableValue_rec math n W t ({[Var.id V]} ∪ vis) h) in *.
    rewrite !forallb_app, Hsl, Hl. cbn [forallb is_lookup andb].
    rewrite !length_app. cbn [List.length].
    pose proof (difference_monotone (hostIds h) vis (Var.id V)).
    split; [done|]. split; [|unfold events in *; lia].
    intros HinV. pose proof (remaining_decreases h V vis HinV Hfresh).
    unfold events in *. lia.
  - apply Hshort; unfold after, events; cbn [fst snd].
    + rewrite !forallb_app, Hsl. done.
    + rewrite !length_app. cbn. lia.
  - apply Hshort; unfold after, events; cbn [fst snd].
    + rewrite !forallb_app, Hsl. done.
    + rewrite !length_app. cbn. lia.
Qed.

End Queries.

Lemma resolve_queries_top (math : MathLib) (h : Host) V m vis :
  forallb is_lookup (events (resolveVariableValue math V m vis h)) = true
  /\ List.length (events (resolveVariableValue math V m vis h))
     <= 3 * (List.length (Figma.variables h) + 1)
  /\ (In V (Figma.variables h) ->
      List.length (events (resolveVariableValue math V m vis h))
      <= 3 * List.length (Figma.variables h)).
Proof.
  unfold resolveVariableValue.
  destruct (resolve_queries math h (resolveFuel h) V m vis) as (Hl & Hin & Hn).
  pose proof (hostIds_size h). pose proof (difference_bounded (hostIds h) vis).
  split; [done|]. split; [lia|]. intros HV. specialize (Hin HV). lia.
Qed.

(** X10.  A resolution only looks up variables and collections by id (it
    never enumerates and never posts), and it makes at most three queries
    for each variable of the document and three more. *)
Theorem resolve_query_bound (math : MathLib) (h : Host) V m vis :
  forallb is_lookup (events (resolveVariableValue math V m vis h)) = true
  /\ List.length (events (resolveVariableValue math V m vis h))
     <= 3 * (List.length (Figma.variables h) + 1).
Proof.
  destruct (resolve_queries_top math h V m vis) as (Hl & Hn & _). done.
Qed.

End AliasFacts.

(** ** Further properties of the export run *)
Module ExportFacts.
Import JsString JsNumber Math Color Figma Plugin Spec Layout ResolverProperties ExportProperties.
Local Open Scope nat_scope.
#[local] Set Warnings "-clear-no-such-hyp".

Lemma filter_filter {A} (f g : A -> bool) (l : list A) :
  List.filter g (List.filter f l) = List.filter (fun x => f x && g x) l.
Proof.
  induction l as [|a l IH]; cbn; [done|].
  destruct (f a); cbn; [|done]. destruct (g a); by rewrite IH.
Qed.

Lemma filter_first {A} (f : A -> bool) (l : list A) (c : A) (rest : list A) :
  List.filter f l = c :: rest ->
  f c = true
  /\ exists pre post, l = pre ++ c :: post /\ forall x, In x pre -> f x = false.
Proof.
  induction l as [|a l IH]; cbn; [done|].
  destruct (f a) eqn:Ha.
  - intros [= -> <-]. split; [done|]. by exists [], l.
  - intros Hf. destruct (IH Hf) as (Hc & pre & post & -> & Hpre).
    split; [done|]. exists (a :: pre), post. split; [done|].
    intros x [<-|Hx]; [done|by apply Hpre].
Qed.

Lemma filter_sublist {A} (f : A -> bool) (l : list A) : List.filter f l `sublist_of` l.
Proof.
  induction l as [|a l IH]; cbn; [constructor|].
  destruct (f a); by constructor.
Qed.

Lemma map_sublist {A B} (f : A -> B) (l k : list A) :
  l `sublist_of` k -> List.map f l `sublist_of` List.map f k.
Proof. induction 1; cbn; by constructor. Qed.

(** X11.  Among several collections named for modes the first in the
    order of enumeration is chosen, silently: the collection returned is
    local, its name contains "mode" in some letter case, and every
    collection enumerated before it is a library collection or has no
    "mode" in its name. *)
Theorem findModeCollection_first (h : Host) (c : Collection.t) (rest : list Collection.t) :
  rejects h getLocalVariableCollectionsAsync = None ->
  modeCollections h = c :: rest ->
  findModeCollection h = ([Asked getLocalVariableCollectionsAsync], Return c)
  /\ Collection.remote c = false
  /\ includes "mode" (toLowerCase (Collection.name c)) = true
  /\ exists pre post,
       collections h = pre ++ c :: post
       /\ forall x, In x pre ->
            Collection.remote x = true
            \/ includes "mode" (toLowerCase (Collection.name x)) = false.
Proof.
  intros Hok Hmc.
  split.
  { by rewrite findModeCollection_run, Hok, Hmc. }
  unfold modeCollections in Hmc. rewrite filter_filter in Hmc.
  apply filter_first in Hmc as (Hc & pre & post & Hsplit & Hpre).
  apply andb_true_iff in Hc as [Hlocal Hname]. apply negb_true_iff in Hlocal.
  split; [done|]. split; [done|]. exists pre, post. split; [done|].
  intros x Hx. specialize (Hpre x Hx). apply andb_false_iff in Hpre as [Hr|Hn].
  - left. by apply negb_false_iff.
  - by right.
Qed.

Lemma findModeCollection_first_witness :
  findModeCollection Scenarios.twoModeCollections
  = ([Asked getLocalVariableCollectionsAsync], Return Examples.modeCollection).
Proof.
  apply (findModeCollection_first Scenarios.twoModeCollections Examples.modeCollection
           [Scenarios.lightOnly]); reflexivity.
Defined.

Lemma failureText_message (e : JsError) (c : ascii) (s : string) :
  message e = String c s -> failureText e = message e.
Proof. unfold failureText. by intros ->. Qed.

(** X12.  When the collection chosen lacks a mode named light or a mode
    named dark, the export throws an error whose message names the
    collection and ends with the names of the modes found, separated by
    commas; the collections were enumerated, no variable was read, and
    [main] posts that message. *)
Theorem missing_modes_fail (math : MathLib) (h : Host) (c : Collection.t)
    (rest : list Collection.t) :
  rejects h getLocalVariableCollectionsAsync = None ->
  modeCollections h = c :: rest ->
  findModeNamed "light" (Collection.modes c) = None
  \/ findModeNamed "dark" (Collection.modes c) = None ->
  processSemanticVariables math h
  = ([Asked getLocalVariableCollectionsAsync], Throw (missingModes c))
  /\ main math h
     = ([Asked getLocalVariableCollectionsAsync;
         Posted (ErrorMessage (message (missingModes c)))], Return tt)
  /\ message (missingModes c)
     = "Collection " +:+ quote +:+ Collection.name c +:+ quote +:+ " must have both "
       +:+ quote +:+ "Light" +:+ quote +:+ " and " +:+ quote +:+ "Dark" +:+ quote
       +:+ " modes. Found modes: "
       +:+ join_with ", " (List.map Mode.name (Collection.modes c)).
Proof.
  intros Hok Hmc Hmissing.
  assert (processSemanticVariables math h
          = ([Asked getLocalVariableCollectionsAsync], Throw (missingModes c))) as Hrun.
  { rewrite processSemanticVariables_run, findModeCollection_run, Hok, Hmc.
    destruct Hmissing as [-> | ->]; [done|].
    by destruct (findModeNamed "light" (Collection.modes c)). }
  split; [exact Hrun|]. split; [|reflexivity].
  rewrite main_run, Hrun. cbn [reported].
  by rewrite (failureText_message (missingModes c) "C"
                ("ollection " +:+ quote +:+ Collection.name c +:+ quote +:+ " must have both "
                 +:+ quote +:+ "Light" +:+ quote +:+ " and " +:+ quote +:+ "Dark" +:+ quote
                 +:+ " modes. Found modes: "
                 +:+ join_with ", " (List.map Mode.name (Collection.modes c)))).
Qed.

Lemma missing_modes_fail_witness :
  posted (events (main RefMath.lib Scenarios.missingDark))
  = [ErrorMessage
       ("Collection " +:+ quote +:+ "Color Modes" +:+ quote +:+ " must have both "
        +:+ quote +:+ "Light" +:+ quote +:+ " and " +:+ quote +:+ "Dark" +:+ quote
        +:+ " modes. Found modes: Light, High contrast")].
Proof.
  destruct (missing_modes_fail RefMath.lib Scenarios.missingDark Scenarios.lightOnly [])
    as (_ & Hmain & _); [reflexivity|reflexivity|by right|].
  rewrite Hmain. reflexivity.
Defined.

(** X13.  An export never returns an empty list.  When it returns, it
    holds at least one variable; when no query rejects and every
    candidate is dropped, or there is no candidate, it throws the error
    that asks for base/ variables with both modes. *)
Theorem export_never_empty (math : MathLib) (h : Host) :
  (forall result,
     outcome (processSemanticVariables math h) = Return result ->
     1 <= List.length (variables result))
  /\ (forall c rest lightMode darkMode,
        rejects h getLocalVariableCollectionsAsync = None ->
        rejects h (getLocalVariablesAsync "COLOR") = None ->
        modeCollections h = c :: rest ->
        findModeNamed "light" (Collection.modes c) = Some lightMode ->
        findModeNamed "dark" (Collection.modes c) = Some darkMode ->
        (forall v, In v (candidates h c) ->
           returns (resolveVariableValue math v (Mode.modeId lightMode) ∅ h)
           /\ returns (resolveVariableValue math v (Mode.modeId darkMode) ∅ h)) ->
        omap (entry math h (Mode.modeId lightMode) (Mode.modeId darkMode)) (candidates h c)
        = [] ->
        outcome (processSemanticVariables math h) = Throw noValidVariables).
Proof.
  split.
  - intros result. rewrite processSemanticVariables_run, findModeCollection_run.
    destruct (rejects h _); [done|].
    destruct (modeCollections h) as [|c rest]; [done|].
    rewrite outcome_after.
    destruct (findModeNamed "light" _) as [lightMode|]; [|done].
    destruct (findModeNamed "dark" _) as [darkMode|]; [|done].
    destruct (rejects h _); [done|].
    rewrite outcome_after.
    destruct (processVariables _ _ _ _ _ h) as [ev [[|pv pvs]|e|]]; try done.
    intros [= <-]. cbn. lia.
  - intros c rest lightMode darkMode Hok1 Hok2 Hmc Hl Hd Hall Hnone.
    rewrite processSemanticVariables_run, findModeCollection_run, Hok1, Hmc.
    rewrite outcome_after, Hl, Hd, Hok2, outcome_after.
    pose proof (processVariables_total math h (Mode.modeId lightMode) (Mode.modeId darkMode)
                  (candidates h c) [] Hall) as Hloop.
    rewrite Hnone in Hloop.
    destruct (processVariables _ _ _ _ _ h) as [ev o]. cbn in Hloop. by subst o.
Qed.

(** In [onlyDropped] the four candidates are all dropped. *)
Lemma export_never_empty_witness :
  outcome (processSemanticVariables RefMath.lib Scenarios.onlyDropped) = Throw noValidVariables.
Proof.
  apply (proj2 (export_never_empty RefMath.lib Scenarios.onlyDropped)
           Examples.modeCollection [] (Examples.mode "1:0" "Light")
           (Examples.mode "1:1" "Dark")); try reflexivity.
  intros v _. split; by apply resolveVariableValue_returns.
Defined.

Lemma entry_name math h lm dm v pv :
  entry math h lm dm v = Some pv -> name pv = Var.name v.
Proof.
  unfold entry. destruct (value_of _); [|done]. destruct (value_of _); [|done].
  by intros [= <-].
Qed.

Lemma omap_names_sublist math h lm dm (l : list Var.t) :
  List.map name (omap (entry math h lm dm) l) `sublist_of` List.map Var.name l.
Proof.
  induction l as [|v l IH]; cbn; [constructor|].
  destruct (entry math h lm dm v) as [pv|] eqn:Hentry; cbn.
  - rewrite (entry_name _ _ _ _ _ _ Hentry). by constructor.
  - by constructor.
Qed.

(** X14.  The export keeps the order of enumeration and exports nothing
    but candidates: the names of the exported variables are, in order, a
    sublist of the names of the variables of the document, and each is
    the name of a local color variable of the collection chosen whose name
    starts with [base/]. *)
Theorem export_keeps_order (math : MathLib) (h : Host) result :
  outcome (processSemanticVariables math h) = Return result ->
  List.map name (variables result) `sublist_of` List.map Var.name (Figma.variables h)
  /\ exists c rest,
       modeCollections h = c :: rest
       /\ collectionName result = Collection.name c
       /\ forall pv, In pv (variables result) ->
            exists v,
              In v (Figma.variables h)
              /\ Var.name v = name pv
              /\ Var.remote v = false
              /\ Var.resolvedType v = "COLOR"
              /\ Var.variableCollectionId v = Collection.id c
              /\ startsWith "base/" (Var.name v) = true.
Proof.
  intros Hret.
  apply processSemanticVariables_returns in Hret
    as (c & rest & lightMode & darkMode & Hmc & _ & _ & Hvars & Hname).
  split.
  - rewrite Hvars. etrans; [apply omap_names_sublist|].
    apply map_sublist. unfold candidates.
    etrans; [apply filter_sublist|]. etrans; [apply filter_sublist|]. apply filter_sublist.
  - exists c, rest. split; [done|]. split; [done|].
    intros pv Hin. rewrite Hvars in Hin.
    apply list_elem_of_In, list_elem_of_omap in Hin as (v & Hv & Hentry).
    exists v. apply list_elem_of_In in Hv. unfold candidates in Hv.
    apply List.filter_In in Hv as [Hv Hbase].
    apply List.filter_In in Hv as [Hv Hcoll].
    apply List.filter_In in Hv as [Hv Hlocal].
    apply andb_true_iff in Hlocal as [Hlocal Htype].
    split; [done|]. split; [symmetry; by eapply entry_name|].
    split; [by apply negb_true_iff|].
    split; [by apply String.eqb_eq|].
    split; [by apply String.eqb_eq|done].
Qed.

Lemma export_keeps_order_witness :
  List.map name (exported (processSemanticVariables RefMath.lib Examples.design))
  `sublist_of` List.map Var.name (Figma.variables Examples.design).
Proof.
  refine (proj1 (export_keeps_order RefMath.lib Examples.design
    {| variables := exported (processSemanticVariables RefMath.lib Examples.design);
       collectionName := "Mode" |} _)).
  vm_compute. reflexivity.
Defined.

(** X15.  A rejected query aborts the whole loop: when the resolutions of
    the candidates before [v] return and the light resolution of [v]
    throws, or its light resolution returns and its dark resolution
    throws, the loop throws that error, whatever was accumulated and
    whatever candidates follow. *)
Theorem loop_aborts_on_rejection (math : MathLib) (h : Host) (lightModeId darkModeId : string)
    (before : list Var.t) (v : Var.t) (later : list Var.t) (e : Thrown) :
  (forall u, In u before ->
     returns (resolveVariableValue math u lightModeId ∅ h)
     /\ returns (resolveVariableValue math u darkModeId ∅ h)) ->
  outcome (resolveVariableValue math v lightModeId ∅ h) = Throw e
  \/ (returns (resolveVariableValue math v lightModeId ∅ h)
      /\ outcome (resolveVariableValue math v darkModeId ∅ h) = Throw e) ->
  forall processed,
    outcome (processVariables math lightModeId darkModeId (before ++ v :: later) processed h)
    = Throw e.
Proof.
  intros Hbefore Hthrow.
  induction before as [|u before IH]; intros processed.
  - cbn [app]. rewrite processVariables_cons.
    destruct Hthrow as [Hl|[[lr Hl] Hd]].
    + destruct (resolveVariableValue math v lightModeId ∅ h) as [evl ol].
      cbn in Hl. by subst ol.
    + destruct (resolveVariableValue math v lightModeId ∅ h) as [evl ol].
      cbn in Hl. subst ol. rewrite outcome_after.
      destruct (resolveVariableValue math v darkModeId ∅ h) as [evd od].
      cbn in Hd. by subst od.
  - cbn [app]. rewrite processVariables_cons.
    destruct (Hbefore u (or_introl eq_refl)) as [[lr Hl] [dr Hd]].
    destruct (resolveVariableValue math u lightModeId ∅ h) as [evl ol].
    cbn in Hl. subst ol. rewrite outcome_after.
    destruct (resolveVariableValue math u darkModeId ∅ h) as [evd od].
    cbn in Hd. subst od. rewrite outcome_after.
    apply IH. intros u' Hu'. apply Hbefore. by right.
Qed.

(** In [brokenLookup] the variable that [primary] aliases cannot be
    fetched: the export of [background] is lost with it. *)
Lemma loop_aborts_on_rejection_witness :
  outcome (processVariables RefMath.lib "1:0" "1:1"
             ([Examples.background] ++ Examples.primary :: []) [] Scenarios.brokenLookup)
  = Throw {| message := "Variable not accessible" |}.
Proof.
  apply (loop_aborts_on_rejection RefMath.lib Scenarios.brokenLookup "1:0" "1:1"
           [Examples.background] Examples.primary [] {| message := "Variable not accessible" |}).
  - intros u [<-|[]]. split; eexists; vm_compute; reflexivity.
  - left. vm_compute. reflexivity.
Defined.

End ExportFacts.

(** ** The stylesheet and the interface *)
Module StylesheetFacts.
Import JsString JsNumber Math Color Figma Plugin Spec Layout ResolverProperties
  ExportProperties.
Local Open Scope nat_scope.

Lemma append_empty_r (s : string) : s +:+ EmptyString = s.
Proof.
  induction s as [|c s IH]; [done|].
  change (String c (s +:+ EmptyString) = String c s). by rewrite IH.
Qed.

Lemma fold_left_append {A} (f : A -> string) (l : list A) (init : string) :
  fold_left (fun css x => css +:+ f x) l init = init +:+ join (List.map f l).
Proof.
  revert init. induction l as [|x l IH]; intros init; cbn [fold_left List.map join].
  - by rewrite append_empty_r.
  - by rewrite IH, ResolverFacts.append_assoc.
Qed.

Lemma startsWith_append (p s : string) : startsWith p (p +:+ s) = true.
Proof.
  induction p as [|c p IH]; [done|].
  change (Ascii.eqb c c && startsWith p (p +:+ s) = true).
  by rewrite Ascii.eqb_refl, IH.
Qed.

Lemma includes_append (p a b : string) : includes p (a +:+ p +:+ b) = true.
Proof.
  induction a as [|c a IH].
  - change (includes p (p +:+ b) = true).
    destruct (p +:+ b) eqn:E; cbn [includes]; rewrite <- E, startsWith_append; done.
  - change (includes p (String c (a +:+ p +:+ b)) = true).
    cbn [includes]. rewrite IH. apply orb_true_r.
Qed.

Lemma join_In {A} (f : A -> string) (l : list A) (x : A) :
  In x l -> exists a b, join (List.map f l) = a +:+ f x +:+ b.
Proof.
  induction l as [|y l IH]; [done|].
  intros [->|Hx].
  - exists EmptyString, (join (List.map f l)). done.
  - destruct (IH Hx) as (a & b & E). exists (f y +:+ a), b.
    cbn [List.map join]. by rewrite E, ResolverFacts.append_assoc.
Qed.

Lemma includes_middle (p a m b : string) :
  (exists x y, m = x +:+ p +:+ y) -> includes p (a +:+ m +:+ b) = true.
Proof.
  intros (x & y & ->).
  rewrite !ResolverFacts.append_assoc, <- (ResolverFacts.append_assoc a x).
  apply includes_append.
Qed.

(** X16.  The stylesheet is the fixed header, one [--color-] mapping per
    variable, the opening of [:root], one light declaration per variable,
    the opening of [.dark], one dark declaration per variable and the
    fixed footer, the variables in the order of the list each time; so
    every variable's three lines occur in it. *)
Theorem generateShadcnCSS_layout (result : ExportResult) :
  generateShadcnCSS result
  = cssHeader +:+ join (List.map themeLine (variables result))
    +:+ rootOpen +:+ join (List.map lightLine (variables result))
    +:+ darkOpen +:+ join (List.map darkLine (variables result))
    +:+ cssFooter
  /\ forall variable, In variable (variables result) ->
       includes (themeLine variable) (generateShadcnCSS result) = true
       /\ includes (lightLine variable) (generateShadcnCSS result) = true
       /\ includes (darkLine variable) (generateShadcnCSS result) = true.
Proof.
  assert (generateShadcnCSS result
          = cssHeader +:+ join (List.map themeLine (variables result))
            +:+ rootOpen +:+ join (List.map lightLine (variables result))
            +:+ darkOpen +:+ join (List.map darkLine (variables result))
            +:+ cssFooter) as Hlayout.
  { unfold generateShadcnCSS. cbv zeta.
    change (fun css variable =>
              css +:+ "  --color-" +:+ cleanName variable +:+ ": var(--" +:+ cleanName variable
                  +:+ ");" +:+ nl)
      with (fun css variable => css +:+ themeLine variable).
    change (fun css variable =>
              css +:+ "  --" +:+ cleanName variable +:+ ": " +:+ lightValue variable
                  +:+ ";" +:+ nl)
      with (fun css variable => css +:+ lightLine variable).
    change (fun css variable =>
              css +:+ "  --" +:+ cleanName variable +:+ ": " +:+ darkValue variable
                  +:+ ";" +:+ nl)
      with (fun css variable => css +:+ darkLine variable).
    rewrite !fold_left_append.
    fold cssHeader. fold rootOpen. fold darkOpen. fold cssFooter.
    by rewrite !ResolverFacts.append_assoc. }
  split; [exact Hlayout|].
  intros variable Hin. rewrite Hlayout. split; [|split].
  - apply includes_middle. by apply join_In.
  - rewrite <- (ResolverFacts.append_assoc cssHeader), <- (ResolverFacts.append_assoc _ rootOpen).
    apply includes_middle. by apply join_In.
  - rewrite <- (ResolverFacts.append_assoc cssHeader), <- (ResolverFacts.append_assoc _ rootOpen),
      <- (ResolverFacts.append_assoc _ (join _) (darkOpen +:+ _)),
      <- (ResolverFacts.append_assoc _ darkOpen).
    apply includes_middle. by apply join_In.
Qed.

Lemma generateShadcnCSS_layout_witness :
  includes ("  --card: oklch(0.5 0.1 20);" +:+ nl)
    (generateShadcnCSS
       {| variables := [{| name := "base/card"; cleanName := "card";
                           lightValue := "oklch(1 0 0)";
                           darkValue := "oklch(0.5 0.1 20)" |}];
          collectionName := "Mode" |}) = true.
Proof.
  exact (proj2 (proj2 (proj2 (generateShadcnCSS_layout
           {| variables := [{| name := "base/card"; cleanName := "card";
                               lightValue := "oklch(1 0 0)";
                               darkValue := "oklch(0.5 0.1 20)" |}];
              collectionName := "Mode" |})
           {| name := "base/card"; cleanName := "card";
              lightValue := "oklch(1 0 0)"; darkValue := "oklch(0.5 0.1 20)" |}
           (or_introl eq_refl)))).
Defined.

Lemma substring_length (n : nat) (s : string) :
  n <= String.length s -> String.length (String.substring 0 n s) = n.
Proof.
  revert s. induction n as [|n IH]; intros [|c s]; cbn; try done; try lia.
  intros H. rewrite IH; lia.
Qed.

Lemma append_length (a b : string) :
  String.length (a +:+ b) = String.length a + String.length b.
Proof.
  induction a as [|c a IH]; [done|].
  change (S (String.length (a +:+ b)) = S (String.length a + String.length b)).
  by rewrite IH.
Qed.

Lemma substring_split (n : nat) (s : string) :
  String.substring 0 n s +:+ substring_from n s = s.
Proof.
  revert s. induction n as [|n IH]; intros [|c s]; try done.
  change (String c (String.substring 0 n s +:+ substring_from n s) = String c s).
  by rewrite IH.
Qed.

(** X17.  The preview never holds more than 503 characters: a
    stylesheet of at most 500 characters is shown whole, a longer one is
    cut to its first 500 characters followed by three dots.  The status,
    the button and the stylesheet kept for the download are untouched. *)
Theorem showPreview_bounded (css : string) (page : Ui.Page) :
  let shown := Ui.preview_textContent (Ui.showPreview css page) in
  String.length shown <= 503
  /\ (String.length css <= 500 -> shown = css)
  /\ (500 < String.length css ->
      shown = String.substring 0 500 css +:+ "..."
      /\ String.length shown = 503
      /\ css = String.substring 0 500 css +:+ substring_from 500 css)
  /\ Ui.preview_display (Ui.showPreview css page) = "block"
  /\ Ui.generatedCSS (Ui.showPreview css page) = Ui.generatedCSS page
  /\ Ui.exportBtn_disabled (Ui.showPreview css page) = Ui.exportBtn_disabled page
  /\ Ui.status_textContent (Ui.showPreview css page) = Ui.status_textContent page.
Proof.
  cbn [Ui.showPreview Ui.preview_textContent Ui.preview_display Ui.generatedCSS
       Ui.exportBtn_disabled Ui.status_textContent].
  unfold Ui.truncated, JsString.length.
  destruct (Nat.ltb_spec 500 (String.length css)) as [Hlong|Hshort].
  - assert (String.length (String.substring 0 500 css +:+ "...") = 503) as Hlen.
    { rewrite append_length, substring_length by lia. reflexivity. }
    split; [lia|]. split; [lia|]. split; [|done].
    intros _. split; [done|]. split; [done|]. symmetry. apply substring_split.
  - split; [lia|]. split; [done|]. split; [lia|done].
Qed.

(** A stylesheet of 501 characters is shown in 503. *)
Lemma showPreview_bounded_witness :
  String.length (Ui.preview_textContent (Ui.showPreview (repeat_char "a" 501) Ui.initial))
  = 503.
Proof.
  refine (proj1 (proj2 (proj1 (proj2 (proj2
            (showPreview_bounded (repeat_char "a" 501) Ui.initial))) _))).
  vm_compute. lia.
Defined.

Lemma main_posted (math : MathLib) (h : Host) :
  posted (events (main math h))
  = match outcome (processSemanticVariables math h) with
    | Return result =>
        [ExportComplete (generateShadcnCSS result) (List.length (variables result))
           (collectionName result)]
    | Throw value =>
        match reported value with
        | Some message => [message]
        | None => []
        end
    | OutOfFuel => []
    end.
Proof.
  rewrite main_run.
  pose proof (processSemanticVariables_posts_nothing math h) as Hquiet.
  destruct (processSemanticVariables math h) as [ev [result|value|]];
    unfold events in *; cbn [fst snd outcome] in *;
    [| destruct (reported value) |]; cbn [fst];
    rewrite ?posted_app, Hquiet; done.
Qed.

(** X18.  What a click on the export button leads to, for every document
    and every page.  When the export returns, the button is enabled again
    with the label [Export Semantic Variables], the status counts the
    exported variables and names the collection, the preview is the cut
    stylesheet, and exactly one download of the whole stylesheet is
    scheduled, one second later, as [index.css].  When it throws a value
    other than [null] and [undefined], the button is enabled again with
    that label, the status shows [Error: ] and the message of the value,
    or [Unknown error occurred] for an empty or missing message; nothing
    is scheduled, and the stylesheet kept and the preview are those of
    before the click.  When it throws [null] or [undefined], the plugin
    posts nothing and the page stays as the click left it: the button
    disabled, the status [Reading Figma variables...]. *)
Theorem exportSession_replies (math : MathLib) (h : Host) (page : Ui.Page) :
  let after := exportSession math h page in
  match outcome (processSemanticVariables math h) with
  | Return result =>
      let css := generateShadcnCSS result in
      Ui.exportBtn_disabled (fst after) = false
      /\ Ui.exportBtn_content (fst after) = "Export Semantic Variables"
      /\ Ui.status_display (fst after) = "block"
      /\ Ui.status_className (fst after) = "status success"
      /\ Ui.status_textContent (fst after)
         = "Successfully exported "
           +:+ decimal (Z.of_nat (List.length (variables result)))
           +:+ " variables from " +:+ quote +:+ collectionName result +:+ quote +:+ "!"
      /\ Ui.generatedCSS (fst after) = css
      /\ Ui.preview_textContent (fst after) = Ui.truncated css
      /\ Ui.preview_display (fst after) = "block"
      /\ snd after
         = [Ui.PostToPlugin "start-export";
            Ui.SetTimeout 1000 (Ui.Download "index.css" "text/css" css)]
  | Throw value =>
      if nullish value
      then
        after = Ui.onClick page
        /\ Ui.exportBtn_disabled (fst after) = true
        /\ Ui.status_display (fst after) = "block"
        /\ Ui.status_className (fst after) = "status loading"
        /\ Ui.status_textContent (fst after) = "Reading Figma variables..."
        /\ snd after = [Ui.PostToPlugin "start-export"]
      else
        Ui.exportBtn_disabled (fst after) = false
        /\ Ui.exportBtn_content (fst after) = "Export Semantic Variables"
        /\ Ui.status_display (fst after) = "block"
        /\ Ui.status_className (fst after) = "status error"
        /\ Ui.status_textContent (fst after)
           = "Error: "
             +:+ match value with
                 | ThrownError error =>
                     match message error with
                     | EmptyString => "Unknown error occurred"
                     | text => text
                     end
                 | _ => "Unknown error occurred"
                 end
        /\ Ui.generatedCSS (fst after) = Ui.generatedCSS page
        /\ Ui.preview_textContent (fst after) = Ui.preview_textContent page
        /\ Ui.preview_display (fst after) = Ui.preview_display page
        /\ snd after = [Ui.PostToPlugin "start-export"]
  | OutOfFuel => False
  end.
Proof.
  unfold exportSession, Ui.onClick, replies. cbn [flat_map].
  change (onmessage math "start-export" h) with (main math h).
  rewrite main_posted, app_nil_r.
  pose proof (processSemanticVariables_terminates math h) as Hterm.
  unfold terminates in Hterm.
  destruct (outcome (processSemanticVariables math h)) as [result|value|]; [| |done].
  - cbn. repeat split.
  - destruct value as [error| | |]; cbn; repeat split.
Qed.

(** The first query rejects with [undefined]: the page keeps waiting. *)
Example exportSession_left_waiting :
  Ui.exportBtn_disabled (fst (exportSession RefMath.lib Scenarios.rejectsUndefined Ui.initial))
  = true
  /\ snd (exportSession RefMath.lib Scenarios.rejectsUndefined Ui.initial)
     = [Ui.PostToPlugin "start-export"].
Proof. split; vm_compute; reflexivity. Qed.

End StylesheetFacts.

(** ** The trace of a run *)
Module TraceFacts.
Import JsString JsNumber Math Color Figma Plugin Spec Layout ResolverProperties ExportProperties.
Local Open Scope nat_scope.
#[local] Set Warnings "-clear-no-such-hyp".

(** X19.  A rejected enumeration ends the export at once with the value
    the host rejected with.  When the enumeration of the collections is
    rejected nothing else is asked; when the collection and its two modes
    are found and the enumeration of the color variables is rejected, no
    variable is looked up.  [main] then posts one error message, with the
    message of the value when that is a string that is not empty and
    [Unknown error occurred] when it is empty or missing, and returns;
    for [null] and [undefined] it posts nothing and fails itself, on
    reading the message. *)
Theorem enumeration_rejected (math : MathLib) (h : Host) (value : Thrown) :
  (rejects h getLocalVariableCollectionsAsync = Some value ->
   processSemanticVariables math h
   = ([Asked getLocalVariableCollectionsAsync], Throw value)
   /\ main math h
      = match value with
        | ThrownError error =>
            ([Asked getLocalVariableCollectionsAsync;
              Posted (ErrorMessage match message error with
                                   | EmptyString => "Unknown error occurred"
                                   | text => text
                                   end)],
             Return tt)
        | ThrownOther =>
            ([Asked getLocalVariableCollectionsAsync;
              Posted (ErrorMessage "Unknown error occurred")],
             Return tt)
        | ThrownNull | ThrownUndefined =>
            ([Asked getLocalVariableCollectionsAsync], Throw (typeError value))
        end)
  /\ (forall c rest lightMode darkMode,
        rejects h getLocalVariableCollectionsAsync = None ->
        modeCollections h = c :: rest ->
        findModeNamed "light" (Collection.modes c) = Some lightMode ->
        findModeNamed "dark" (Collection.modes c) = Some darkMode ->
        rejects h (getLocalVariablesAsync "COLOR") = Some value ->
        processSemanticVariables math h
        = ([Asked getLocalVariableCollectionsAsync; Asked (getLocalVariablesAsync "COLOR")],
           Throw value)
        /\ main math h
           = match value with
             | ThrownError error =>
                 ([Asked getLocalVariableCollectionsAsync;
                   Asked (getLocalVariablesAsync "COLOR");
                   Posted (ErrorMessage match message error with
                                        | EmptyString => "Unknown error occurred"
                                        | text => text
                                        end)],
                  Return tt)
             | ThrownOther =>
                 ([Asked getLocalVariableCollectionsAsync;
                   Asked (getLocalVariablesAsync "COLOR");
                   Posted (ErrorMessage "Unknown error occurred")],
                  Return tt)
             | ThrownNull | ThrownUndefined =>
                 ([Asked getLocalVariableCollectionsAsync;
                   Asked (getLocalVariablesAsync "COLOR")],
                  Throw (typeError value))
             end).
Proof.
  split.
  - intros Hrej.
    assert (processSemanticVariables math h
            = ([Asked getLocalVariableCollectionsAsync], Throw value)) as Hrun.
    { by rewrite processSemanticVariables_run, findModeCollection_run, Hrej. }
    split; [exact Hrun|]. rewrite main_run, Hrun. by destruct value.
  - intros c rest lightMode darkMode Hok Hmc Hl Hd Hrej.
    assert (processSemanticVariables math h
            = ([Asked getLocalVariableCollectionsAsync;
                Asked (getLocalVariablesAsync "COLOR")], Throw value)) as Hrun.
    { by rewrite processSemanticVariables_run, findModeCollection_run, Hok, Hmc, Hl, Hd, Hrej. }
    split; [exact Hrun|]. rewrite main_run, Hrun. by destruct value.
Qed.

Lemma enumeration_rejected_witness :
  main RefMath.lib Examples.offline
  = ([Asked getLocalVariableCollectionsAsync; Asked (getLocalVariablesAsync "COLOR");
      Posted (ErrorMessage "Network request failed")],
     Return tt).
Proof.
  apply (proj2 (enumeration_rejected RefMath.lib Examples.offline
                  (ThrownError {| message := "Network request failed" |}))
           Examples.modeCollection [] (Examples.mode "1:0" "Light")
           (Examples.mode "1:1" "Dark")); reflexivity.
Defined.

Section Trace.
Variable math : MathLib.
Variable h : Host.

Lemma processVariables_queries lm dm (vars : list Var.t) :
  forall processed,
    (forall v, In v vars -> In v (Figma.variables h)) ->
    forallb is_lookup (events (processVariables math lm dm vars processed h)) = true
    /\ List.length (events (processVariables math lm dm vars processed h))
       <= List.length vars * (6 * List.length (Figma.variables h)).
Proof.
  induction vars as [|v vars IH]; intros processed Hsub.
  { cbn. split; [done|lia]. }
  rewrite processVariables_cons.
  assert (In v (Figma.variables h)) as Hv by (apply Hsub; by left).
  destruct (AliasFacts.resolve_queries_top math h v lm ∅) as (Hll & _ & Hln).
  destruct (AliasFacts.resolve_queries_top math h v dm ∅) as (Hdl & _ & Hdn).
  specialize (Hln Hv). specialize (Hdn Hv).
  destruct (resolveVariableValue math v lm ∅ h) as [evl [lr|e|]];
    unfold events in Hll, Hln; cbn [fst] in Hll, Hln.
  - rewrite events_after.
    destruct (resolveVariableValue math v dm ∅ h) as [evd [dr|e|]];
      unfold events in Hdl, Hdn; cbn [fst] in Hdl, Hdn.
    + rewrite events_after.
      destruct (IH (processed ++ match entry math h lm dm v with
                                 | Some pv => [pv] | None => [] end))
        as [Hrl Hrn]; [intros u Hu; apply Hsub; by right|].
      rewrite !forallb_app, !length_app, Hll, Hdl, Hrl. split; [done|].
      cbn [List.length]. lia.
    + unfold events. cbn [fst]. rewrite forallb_app, length_app, Hll, Hdl.
      split; [done|]. cbn [List.length]. lia.
    + unfold events. cbn [fst]. rewrite forallb_app, length_app, Hll, Hdl.
      split; [done|]. cbn [List.length]. lia.
  - unfold events. cbn [fst]. split; [done|]. cbn [List.length]. lia.
  - unfold events. cbn [fst]. split; [done|]. cbn [List.length]. lia.
Qed.

Lemma candidates_bounded c :
  (forall v, In v (candidates h c) -> In v (Figma.variables h))
  /\ List.length (candidates h c) <= List.length (Figma.variables h).
Proof.
  assert (candidates h c `sublist_of` Figma.variables h) as Hsub.
  { unfold candidates.
    etrans; [apply ExportFacts.filter_sublist|].
    etrans; [apply ExportFacts.filter_sublist|]. apply ExportFacts.filter_sublist. }
  split.
  - intros v Hv. apply list_elem_of_In. eapply sublist_submseteq in Hsub.
    eapply elem_of_submseteq; [|exact Hsub]. by apply list_elem_of_In.
  - by apply sublist_length.
Qed.

Lemma processSemanticVariables_queries :
  exists enumerations lookups,
    events (processSemanticVariables math h) = enumerations ++ lookups
    /\ (enumerations = [Asked getLocalVariableCollectionsAsync]
        \/ enumerations = [Asked getLocalVariableCollectionsAsync;
                           Asked (getLocalVariablesAsync "COLOR")])
    /\ forallb is_lookup lookups = true
    /\ List.length lookups
       <= 6 * (List.length (Figma.variables h) * List.length (Figma.variables h))
    /\ (lookups <> [] ->
        enumerations = [Asked getLocalVariableCollectionsAsync;
                        Asked (getLocalVariablesAsync "COLOR")]).
Proof.
  rewrite processSemanticVariables_run, findModeCollection_run.
  assert (exists enumerations lookups : list Event,
            [Asked getLocalVariableCollectionsAsync] = enumerations ++ lookups
            /\ (enumerations = [Asked getLocalVariableCollectionsAsync]
                \/ enumerations = [Asked getLocalVariableCollectionsAsync;
                                   Asked (getLocalVariablesAsync "COLOR")])
            /\ forallb is_lookup lookups = true
            /\ List.length lookups
               <= 6 * (List.length (Figma.variables h) * List.length (Figma.variables h))
            /\ (lookups <> [] ->
                enumerations = [Asked getLocalVariableCollectionsAsync;
                                Asked (getLocalVariablesAsync "COLOR")])) as Hone.
  { exists [Asked getLocalVariableCollectionsAsync], [].
    split; [done|]. split; [by left|]. split; [done|]. split; [cbn; lia|done]. }
  destruct (rejects h getLocalVariableCollectionsAsync); [exact Hone|].
  destruct (modeCollections h) as [|c rest]; [exact Hone|].
  rewrite events_after.
  destruct (findModeNamed "light" _) as [lightMode|]; [|exact Hone].
  destruct (findModeNamed "dark" _) as [darkMode|]; [|exact Hone].
  destruct (rejects h (getLocalVariablesAsync "COLOR")).
  { exists [Asked getLocalVariableCollectionsAsync; Asked (getLocalVariablesAsync "COLOR")], [].
    split; [done|]. split; [by right|]. split; [done|]. split; [cbn; lia|done]. }
  rewrite events_after.
  destruct (candidates_bounded c) as [Hsub Hlen].
  destruct (processVariables_queries (Mode.modeId lightMode) (Mode.modeId darkMode)
              (candidates h c) [] Hsub) as [Hl Hn].
  exists [Asked getLocalVariableCollectionsAsync; Asked (getLocalVariablesAsync "COLOR")],
    (events (processVariables math (Mode.modeId lightMode) (Mode.modeId darkMode)
               (candidates h c) [] h)).
  split.
  { destruct (processVariables _ _ _ _ _ h) as [ev [[|pv pvs]|e|]]; done. }
  split; [by right|]. split; [done|]. split; [nia|done].
Qed.

(** *** Where a thrown value comes from *)

Lemma await_throws {A} (q : Query) (answer : Host -> A) ev e :
  await q answer h = (ev, Throw e) -> ev = [Asked q] /\ rejects h q = Some e.
Proof.
  unfold await. destruct (rejects h q) as [e'|]; [|discriminate].
  by intros [= <- <-].
Qed.

Lemma selectTargetMode_throws V m C ev e :
  selectTargetMode V m C h = (ev, Throw e) ->
  exists q, In (Asked q) ev /\ rejects h q = Some e.
Proof.
  unfold selectTargetMode.
  destruct (findModeNamed "light" (Collection.modes C)),
    (findModeNamed "dark" (Collection.modes C));
    try (destruct (Collection.modes C) as [|? [|]]; discriminate).
  rewrite bind_run, variableCollectionById_run.
  destruct (rejects h _) as [e'|] eqn:Hrej; [|discriminate].
  intros [= <- <-]. eexists. split; [by left|done].
Qed.

Lemma resolve_throws n : forall V m vis ev e,
  resolveVariableValue_rec math n V m vis h = (ev, Throw e) ->
  exists q, In (Asked q) ev /\ rejects h q = Some e.
Proof.
  induction n as [|n IH]; intros V m vis ev e; [discriminate|].
  rewrite resolve_unfold.
  destruct (decide _); [discriminate|]. cbn zeta.
  destruct (_ !! _) as [value|]; [|discriminate].
  destruct (negb _); [discriminate|].
  destruct value as [| |s| |id]; try discriminate.
  { destruct (test_hex_color s); discriminate. }
  rewrite bind_run, variableById_run.
  destruct (rejects h (getVariableByIdAsync id)) as [e1|] eqn:R1.
  { intros [= <- <-]. eexists. split; [by left|done]. }
  destruct (List.find _ (Figma.variables h)) as [W|]; [|discriminate].
  rewrite bind_run, variableCollectionById_run.
  destruct (rejects h (getVariableCollectionByIdAsync _)) as [e2|] eqn:R2.
  { intros [= <- <-]. eexists. split; [right; by left|done]. }
  destruct (List.find _ (Figma.collections h)) as [C|]; [|discriminate].
  rewrite bind_run.
  destruct (selectTargetMode V m C h) as [ev3 [t|e3|]] eqn:Hsel; [| |discriminate].
  - destruct (resolveVariableValue_rec math n W t _ h) as [ev4 o4] eqn:Hrec.
    unfold after. cbn [fst snd]. intros [= <- ->].
    apply IH in Hrec as (q & Hin & Hq). exists q. split; [|done].
    cbn [In]; rewrite ?in_app_iff; tauto.
  - unfold after. cbn [fst snd]. intros [= <- <-].
    apply selectTargetMode_throws in Hsel as (q & Hin & Hq). exists q. split; [|done].
    cbn [In]; rewrite ?in_app_iff; tauto.
Qed.

Lemma processVariables_throws lm dm (vars : list Var.t) : forall processed ev e,
  processVariables math lm dm vars processed h = (ev, Throw e) ->
  exists q, In (Asked q) ev /\ rejects h q = Some e.
Proof.
  induction vars as [|v vars IH]; intros processed ev e; [discriminate|].
  rewrite processVariables_cons.
  destruct (resolveVariableValue math v lm ∅ h) as [evl [lr|el|]] eqn:Hl; [| |discriminate].
  - destruct (resolveVariableValue math v dm ∅ h) as [evd [dr|ed|]] eqn:Hd.
    + destruct (processVariables math lm dm vars _ h) as [evr o] eqn:Hrest.
      unfold after. cbn [fst snd]. intros [= <- ->].
      apply IH in Hrest as (q & Hin & Hq). exists q. split; [|done].
      cbn [In]; rewrite ?in_app_iff; tauto.
    + unfold after. cbn [fst snd]. intros [= <- <-].
      apply resolve_throws in Hd as (q & Hin & Hq). exists q. split; [|done].
      cbn [In]; rewrite ?in_app_iff; tauto.
    + discriminate.
  - intros [= <- <-]. by apply resolve_throws in Hl.
Qed.

(** The export throws an [Error] of its own or what a query it asked was
    rejected with. *)
Lemma processSemanticVariables_throws ev value :
  processSemanticVariables math h = (ev, Throw value) ->
  (exists error : JsError, value = ThrownError error)
  \/ (exists q, In (Asked q) ev /\ rejects h q = Some value).
Proof.
  rewrite processSemanticVariables_run, findModeCollection_run.
  destruct (rejects h getLocalVariableCollectionsAsync) as [e1|] eqn:R1.
  { intros [= <- <-]. right. eexists. split; [by left|done]. }
  destruct (modeCollections h) as [|c rest].
  { intros [= <- <-]. left. by eexists. }
  destruct (findModeNamed "light" _) as [lightMode|];
    [|intros [= <- <-]; left; by eexists].
  destruct (findModeNamed "dark" _) as [darkMode|];
    [|intros [= <- <-]; left; by eexists].
  destruct (rejects h (getLocalVariablesAsync "COLOR")) as [e2|] eqn:R2.
  { intros [= <- <-]. right. eexists. split; [right; by left|done]. }
  destruct (processVariables math _ _ _ _ h) as [evp [[|pv pvs]|ep|]] eqn:Hloop;
    unfold after; cbn [fst snd]; intros [= <- Hv]; try discriminate.
  - left. eexists. by rewrite <- Hv.
  - subst ep. right.
    apply processVariables_throws in Hloop as (q & Hin & Hq). exists q. split; [|done].
    cbn [In]; rewrite ?in_app_iff; tauto.
Qed.

End Trace.

(** X20.  The trace of a run of [main] has three parts: the enumeration
    of the collections, followed or not by that of the color variables;
    look-ups of variables and collections by id, at most six for each
    pair of variables of the document, and none unless both enumerations
    were made; and, last, the one message posted.  So nothing is asked
    from the host once a message is posted.  The message is missing in
    one case only: a query of the trace was rejected with [null] or
    [undefined], and the export threw that value. *)
Theorem main_trace (math : MathLib) (h : Host) :
  exists enumerations lookups tail,
    events (main math h) = enumerations ++ lookups ++ tail
    /\ (enumerations = [Asked getLocalVariableCollectionsAsync]
        \/ enumerations = [Asked getLocalVariableCollectionsAsync;
                           Asked (getLocalVariablesAsync "COLOR")])
    /\ forallb is_lookup lookups = true
    /\ List.length lookups
       <= 6 * (List.length (Figma.variables h) * List.length (Figma.variables h))
    /\ (lookups <> [] ->
        enumerations = [Asked getLocalVariableCollectionsAsync;
                        Asked (getLocalVariablesAsync "COLOR")])
    /\ ((exists message, tail = [Posted message])
        \/ (tail = []
            /\ exists q value,
                 In (Asked q) (enumerations ++ lookups)
                 /\ rejects h q = Some value
                 /\ nullish value = true
                 /\ outcome (processSemanticVariables math h) = Throw value)).
Proof.
  destruct (processSemanticVariables_queries math h)
    as (enumerations & lookups & Hev & Henum & Hl & Hn & Hboth).
  pose proof (processSemanticVariables_terminates math h) as Hterm.
  pose proof (processSemanticVariables_throws math h) as Hthrows.
  unfold terminates in Hterm.
  rewrite main_run.
  destruct (processSemanticVariables math h) as [ev [result|value|]];
    unfold events in Hev; cbn [fst] in Hev; subst ev; [| |done].
  - exists enumerations, lookups,
      [Posted (ExportComplete (generateShadcnCSS result) (List.length (variables result))
                 (collectionName result))].
    unfold events. cbn [fst]. rewrite <- app_assoc. repeat (split; [done|]).
    left. by eexists.
  - destruct (reported value) as [message|] eqn:Hreported.
    + exists enumerations, lookups, [Posted message].
      unfold events. cbn [fst]. rewrite <- app_assoc. repeat (split; [done|]).
      left. by eexists.
    + exists enumerations, lookups, [].
      unfold events. cbn [fst]. rewrite app_nil_r. repeat (split; [done|]).
      right. split; [done|].
      destruct (Hthrows _ _ eq_refl) as [[error ->]|(q & Hin & Hq)]; [discriminate|].
      exists q, value. split; [done|]. split; [done|]. split; [|done].
      by destruct value.
Qed.

(** In the example document both enumerations are made, look-ups follow
    them, and a message ends the trace. *)
Lemma main_trace_witness :
  exists lookups message,
    events (main RefMath.lib Scenarios.twoModeCollections)
    = [Asked getLocalVariableCollectionsAsync; Asked (getLocalVariablesAsync "COLOR")]
      ++ lookups ++ [Posted message]
    /\ forallb is_lookup lookups = true.
Proof.
  destruct (main_trace RefMath.lib Scenarios.twoModeCollections)
    as (enumerations & lookups & tail & Hev & Henum & Hl & _ & _ & Htail).
  destruct Htail as [[message ->]|[_ (q & value & _ & Hq & _)]]; [|discriminate].
  destruct Henum as [->| ->].
  - vm_compute in Hev. destruct lookups as [|e1 lookups]; [discriminate|].
    injection Hev as <- Hev. discriminate.
  - exists lookups, message. split; [exact Hev|exact Hl].
Defined.

End TraceFacts.
